(** * estore-backend: orders, stock and addresses

    A shallow embedding of the order pipeline of the store backend:
    [orders/models.py] ([Order], [OrderItem]),
    [orders/services/order_service.py] ([OrderService]),
    [products/models.py] ([ProductVariant]) and
    [users/models/address.py] ([Address]).

    Conventions.
    - Money is Python's [decimal.Decimal]: a signed coefficient and a
      decimal exponent, with the default context (28 significant digits,
      ROUND_HALF_EVEN).  Only finite numbers are modelled; the sign of a
      zero and the exponent limits of the context are not.
    - The relational store is one record of tables, each a finite map from
      primary key to row.  [Model.save] writes the in-memory object as the
      row; column quantisation by the database backend is not modelled.
    - Exceptions are values of [exn]; service code runs in a state and
      exception monad, and [atomic] restores the store when its body
      raises, as [transaction.atomic] does.
    - [timezone.now()], [random.randint] and [uuid.uuid4] are read from an
      explicit environment, respectively chosen fresh for the table. *)

From stdpp Require Import base option gmap strings list pretty.
From Stdlib Require Import ZArith Lia Sorted.

Local Open Scope Z_scope.

(** ** Python's decimal arithmetic (default context) *)

Module Dec.

Record Decimal : Type := mk { coef : Z; dexp : Z }.

#[global] Instance Decimal_eq_dec : EqDecision Decimal.
Proof. solve_decision. Defined.

(** [getcontext().prec] *)
Definition prec : Z := 28.

Fixpoint ndigits_go (fuel : nat) (n : Z) : Z :=
  match fuel with
  | O => 0
  | S fuel' => if n =? 0 then 0 else 1 + ndigits_go fuel' (n / 10)
  end.

(** [len(self._int)]: the coefficient of zero is the one digit 0. *)
Definition ndigits (n : Z) : Z :=
  if n =? 0 then 1
  else ndigits_go (S (Z.to_nat (Z.log2 (Z.abs n)))) (Z.abs n).

(** Drop the last [k] digits of a non-negative coefficient, rounding
    half to even. *)
Definition round_half_even (c k : Z) : Z :=
  let q := c / 10 ^ k in
  let r := c mod 10 ^ k in
  let half := 5 * 10 ^ (k - 1) in
  if (half <? r) || ((r =? half) && Z.odd q) then q + 1 else q.

(** [Decimal._fix]: round to the precision of the context. *)
Definition fix_ (d : Decimal) : Decimal :=
  if Z.abs (coef d) <? 10 ^ prec then d
  else
    let k := ndigits (coef d) - prec in
    let c := round_half_even (Z.abs (coef d)) k in
    let '(c, e) := if c <? 10 ^ prec then (c, dexp d + k)
                   else (c / 10, dexp d + k + 1) in
    mk (Z.sgn (coef d) * c) e.

(** [Decimal(str(n))] for an [int] [n]; the constructor is exact. *)
Definition of_int (n : Z) : Decimal := mk n 0.

Definition neg (a : Decimal) : Decimal := mk (- coef a) (dexp a).

(** [__add__]: the exact sum at the smaller exponent, then [_fix]. *)
Definition add (a b : Decimal) : Decimal :=
  let e := Z.min (dexp a) (dexp b) in
  fix_ (mk (coef a * 10 ^ (dexp a - e) + coef b * 10 ^ (dexp b - e)) e).

(** [__sub__] is [self + other.copy_negate()]. *)
Definition sub (a b : Decimal) : Decimal := add a (neg b).

(** [__mul__]: the exact product, then [_fix]. *)
Definition mul (a b : Decimal) : Decimal :=
  fix_ (mk (coef a * coef b) (dexp a + dexp b)).

(** The loop of [__truediv__] that brings an exact quotient as close to
    the ideal exponent as its trailing zeros allow. *)
Fixpoint strip_to_ideal (fuel : nat) (c e ideal : Z) : Z * Z :=
  match fuel with
  | O => (c, e)
  | S fuel' =>
      if (e <? ideal) && (c mod 10 =? 0)
      then strip_to_ideal fuel' (c / 10) (e + 1) ideal
      else (c, e)
  end.

(** [__truediv__]; [None] is the [DivisionByZero] / [InvalidOperation]
    signal of a zero divisor. *)
Definition div (a b : Decimal) : option Decimal :=
  if coef b =? 0 then None
  else if coef a =? 0 then Some (fix_ (mk 0 (dexp a - dexp b)))
  else
    let sign := Z.sgn (coef a) * Z.sgn (coef b) in
    let shift := ndigits (coef b) - ndigits (coef a) + prec + 1 in
    let e := dexp a - dexp b - shift in
    let '(q, r) :=
      if 0 <=? shift
      then (Z.abs (coef a) * 10 ^ shift / Z.abs (coef b),
            Z.abs (coef a) * 10 ^ shift mod Z.abs (coef b))
      else (Z.abs (coef a) / (Z.abs (coef b) * 10 ^ (- shift)),
            Z.abs (coef a) mod (Z.abs (coef b) * 10 ^ (- shift))) in
    let '(q, e) :=
      if r =? 0
      then strip_to_ideal (Z.to_nat (dexp a - dexp b - e)) q e
                          (dexp a - dexp b)
      else (if q mod 5 =? 0 then q + 1 else q, e) in
    Some (fix_ (mk (sign * q) e)).

(** A value as a [DecimalField(max_digits=10, decimal_places=2)] column
    holds it: an amount of cents below 10^10. *)
Definition is_column (d : Decimal) : Prop :=
  dexp d = -2 /\ Z.abs (coef d) < 10 ^ 10.

(** [Decimal("x.yy")] given in cents. *)
Definition cents (c : Z) : Decimal := mk c (-2).

End Dec.

Abbreviation Decimal := Dec.Decimal.

(** ** Exceptions and the service monad *)

Inductive exn : Type :=
  | ValidationError (msg : string)   (* django.core.exceptions *)
  | PermissionDenied (msg : string)  (* django.core.exceptions *)
  | ValueError (msg : string)
  | KeyError (key : string)
  | DoesNotExist (model : string)
  | IntegrityError (msg : string)    (* a violated UNIQUE constraint *)
  | DecimalException (msg : string). (* decimal.InvalidOperation and kin *)

(** The spec's error taxonomy names two business errors that the code
    raises as a [ValidationError] with a fixed message. *)
Definition InsufficientStock (sku : string) (available requested : Z) : exn :=
  ValidationError ("Insufficient stock for " +:+ sku +:+ ". "
                   +:+ "Available: " +:+ pretty available
                   +:+ ", Requested: " +:+ pretty requested).

Definition InvalidState : exn :=
  ValidationError "Order cannot be cancelled in its current state".


Inductive result (A : Type) : Type :=
  | Ok (a : A)
  | Raise (e : exn).
Arguments Ok {A} a.
Arguments Raise {A} e.

Section Monad.
Context {S : Type}.

(** A computation over a store [S]: its outcome and the store it leaves,
    which on [Raise] is the store at the point of the raise. *)
Definition M (A : Type) : Type := S -> result A * S.

Definition ret {A} (a : A) : M A := fun s => (Ok a, s).
Definition raise {A} (e : exn) : M A := fun s => (Raise e, s).
Definition bind {A B} (m : M A) (k : A -> M B) : M B :=
  fun s => match m s with
           | (Ok a, s') => k a s'
           | (Raise e, s') => (Raise e, s')
           end.
Definition get : M S := fun s => (Ok s, s).
Definition put (s : S) : M unit := fun _ => (Ok tt, s).
Definition modify (f : S -> S) : M unit := fun s => (Ok tt, f s).

(** [transaction.atomic]: commit on return, roll back on exception. *)
Definition atomic {A} (m : M A) : M A :=
  fun s => match m s with
           | (Ok a, s') => (Ok a, s')
           | (Raise e, _) => (Raise e, s)
           end.

(** [for x in l: body(x)], stopping at the first exception. *)
Fixpoint for_each {A} (l : list A) (body : A -> M unit) : M unit :=
  match l with
  | [] => ret tt
  | x :: l' => bind (body x) (fun _ => for_each l' body)
  end.
End Monad.
Arguments M S A : clear implicits.

Declare Scope py_scope.
Delimit Scope py_scope with py.
Notation "'let*' x := m 'in' k" := (bind m (fun x => k))
  (at level 10, x name, m at level 100, k at level 200) : py_scope.
Notation "'do' m 'in' k" := (bind m (fun _ => k))
  (at level 10, m at level 100, k at level 200) : py_scope.
Local Open Scope py_scope.

(** ** The data model *)

(** Primary keys are UUIDs, handled in their string form. *)
Abbreviation uuid := string.

Record datetime : Type := { dt_year : N; dt_month : N; dt_day : N; dt_seconds : N }.

(** The order of instants, for [order_by("-created_at")]. *)
Definition dt_key (t : datetime) : N :=
  (((dt_year t * 100 + dt_month t) * 100 + dt_day t) * 86400 + dt_seconds t)%N.

Definition pad2 (n : N) : string :=
  if (n <? 10)%N then "0" +:+ pretty n else pretty n.
Definition pad4 (n : N) : string :=
  if (n <? 10)%N then "000" +:+ pretty n
  else if (n <? 100)%N then "00" +:+ pretty n
  else if (n <? 1000)%N then "0" +:+ pretty n
  else pretty n.

(** [strftime("%Y%m%d")] *)
Definition strftime_Ymd (t : datetime) : string :=
  pad4 (dt_year t) +:+ pad2 (dt_month t) +:+ pad2 (dt_day t).

(** What a call reads from outside the store: the clock and the value
    that [random.randint(1000, 9999)] returns. *)
Record Env : Type := { now : datetime; randint_1000_9999 : Z }.

(** [users.User] (an [AbstractUser]): what the services read of it. *)
Record User : Type := { user_id : uuid; is_staff : bool; is_authenticated : bool }.

(** [products.Product] *)
Record Product : Type := {
  p_title : string;
  p_slug : string;
  p_status : string;
}.

(** [products.ProductVariant] *)
Record ProductVariant : Type := {
  v_id : uuid;
  v_product : uuid;
  v_sku : string;
  v_attributes : list (string * string);
  v_price : Decimal;
  v_discount_amount : Decimal;
  v_stock : Z;
  v_is_default : bool;
  v_is_active : bool;
}.

Inductive address_type : Type := ADDRESS_TYPE_SHIPPING | ADDRESS_TYPE_BILLING.
#[global] Instance address_type_eq_dec : EqDecision address_type.
Proof. solve_decision. Defined.

(** [users.Address] *)
Record Address : Type := {
  a_id : uuid;
  a_user : option uuid;
  a_address_type : address_type;
  a_first_name : string;
  a_last_name : string;
  a_company : string;
  a_phone : string;
  a_email : string;
  a_address_line1 : string;
  a_address_line2 : string;
  a_city : string;
  a_state : string;
  a_postal_code : string;
  a_country : string;
  a_instructions : string;
  a_is_default : bool;
  a_is_active : bool;
  a_created_at : datetime;
}.

(** [orders.Order] *)
Record Order : Type := {
  o_id : uuid;
  o_user : option uuid;
  o_guest_email : string;
  o_guest_first_name : string;
  o_guest_last_name : string;
  o_guest_phone : string;
  o_order_number : string;
  o_status : string;
  o_payment_status : string;
  o_payment_method : string;
  o_shipping_address : uuid;
  o_billing_address : uuid;
  o_subtotal : Decimal;
  o_shipping_cost : Decimal;
  o_tax_amount : Decimal;
  o_tax_rate : Decimal;
  o_discount_amount : Decimal;
  o_total : Decimal;
  o_currency : string;
  o_shipping_method : string;
  o_carrier : string;
  o_payment_intent_id : string;
  o_payment_receipt_url : string;
  o_customer_note : string;
  o_admin_note : string;
  o_confirmed_at : option datetime;
  o_cancelled_at : option datetime;
}.

Definition STATUS_PENDING : string := "pending".
Definition STATUS_CONFIRMED : string := "confirmed".
Definition STATUS_PROCESSING : string := "processing".
Definition STATUS_SHIPPED : string := "shipped".
Definition STATUS_DELIVERED : string := "delivered".
Definition STATUS_CANCELLED : string := "cancelled".
Definition STATUS_REFUNDED : string := "refunded".

Definition STATUS_CHOICES : list (string * string) :=
  [ (STATUS_PENDING, "Pending"); (STATUS_CONFIRMED, "Confirmed");
    (STATUS_PROCESSING, "Processing"); (STATUS_SHIPPED, "Shipped");
    (STATUS_DELIVERED, "Delivered"); (STATUS_CANCELLED, "Cancelled");
    (STATUS_REFUNDED, "Refunded") ].

Definition PAYMENT_PENDING : string := "pending".
Definition PAYMENT_PAID : string := "paid".
Definition PAYMENT_FAILED : string := "failed".
Definition PAYMENT_REFUNDED : string := "refunded".

Definition PAYMENT_STATUS_CHOICES : list (string * string) :=
  [ (PAYMENT_PENDING, "Pending"); (PAYMENT_PAID, "Paid");
    (PAYMENT_FAILED, "Failed"); (PAYMENT_REFUNDED, "Refunded") ].

(** Attribute assignments [order.f = x]. *)
Definition with_order_number (x : string) (o : Order) : Order :=
  {| o_id := o_id o; o_user := o_user o; o_guest_email := o_guest_email o;
     o_guest_first_name := o_guest_first_name o; o_guest_last_name := o_guest_last_name o;
     o_guest_phone := o_guest_phone o; o_order_number := x; o_status := o_status o;
     o_payment_status := o_payment_status o; o_payment_method := o_payment_method o;
     o_shipping_address := o_shipping_address o; o_billing_address := o_billing_address o;
     o_subtotal := o_subtotal o; o_shipping_cost := o_shipping_cost o;
     o_tax_amount := o_tax_amount o; o_tax_rate := o_tax_rate o;
     o_discount_amount := o_discount_amount o; o_total := o_total o;
     o_currency := o_currency o; o_shipping_method := o_shipping_method o;
     o_carrier := o_carrier o; o_payment_intent_id := o_payment_intent_id o;
     o_payment_receipt_url := o_payment_receipt_url o; o_customer_note := o_customer_note o;
     o_admin_note := o_admin_note o; o_confirmed_at := o_confirmed_at o;
     o_cancelled_at := o_cancelled_at o |}.

Definition with_status (x : string) (o : Order) : Order :=
  {| o_id := o_id o; o_user := o_user o; o_guest_email := o_guest_email o;
     o_guest_first_name := o_guest_first_name o; o_guest_last_name := o_guest_last_name o;
     o_guest_phone := o_guest_phone o; o_order_number := o_order_number o; o_status := x;
     o_payment_status := o_payment_status o; o_payment_method := o_payment_method o;
     o_shipping_address := o_shipping_address o; o_billing_address := o_billing_address o;
     o_subtotal := o_subtotal o; o_shipping_cost := o_shipping_cost o;
     o_tax_amount := o_tax_amount o; o_tax_rate := o_tax_rate o;
     o_discount_amount := o_discount_amount o; o_total := o_total o;
     o_currency := o_currency o; o_shipping_method := o_shipping_method o;
     o_carrier := o_carrier o; o_payment_intent_id := o_payment_intent_id o;
     o_payment_receipt_url := o_payment_receipt_url o; o_customer_note := o_customer_note o;
     o_admin_note := o_admin_note o; o_confirmed_at := o_confirmed_at o;
     o_cancelled_at := o_cancelled_at o |}.

Definition with_payment_status (x : string) (o : Order) : Order :=
  {| o_id := o_id o; o_user := o_user o; o_guest_email := o_guest_email o;
     o_guest_first_name := o_guest_first_name o; o_guest_last_name := o_guest_last_name o;
     o_guest_phone := o_guest_phone o; o_order_number := o_order_number o;
     o_status := o_status o; o_payment_status := x; o_payment_method := o_payment_method o;
     o_shipping_address := o_shipping_address o; o_billing_address := o_billing_address o;
     o_subtotal := o_subtotal o; o_shipping_cost := o_shipping_cost o;
     o_tax_amount := o_tax_amount o; o_tax_rate := o_tax_rate o;
     o_discount_amount := o_discount_amount o; o_total := o_total o;
     o_currency := o_currency o; o_shipping_method := o_shipping_method o;
     o_carrier := o_carrier o; o_payment_intent_id := o_payment_intent_id o;
     o_payment_receipt_url := o_payment_receipt_url o; o_customer_note := o_customer_note o;
     o_admin_note := o_admin_note o; o_confirmed_at := o_confirmed_at o;
     o_cancelled_at := o_cancelled_at o |}.

Definition with_total (x : Decimal) (o : Order) : Order :=
  {| o_id := o_id o; o_user := o_user o; o_guest_email := o_guest_email o;
     o_guest_first_name := o_guest_first_name o; o_guest_last_name := o_guest_last_name o;
     o_guest_phone := o_guest_phone o; o_order_number := o_order_number o;
     o_status := o_status o; o_payment_status := o_payment_status o;
     o_payment_method := o_payment_method o;
     o_shipping_address := o_shipping_address o; o_billing_address := o_billing_address o;
     o_subtotal := o_subtotal o; o_shipping_cost := o_shipping_cost o;
     o_tax_amount := o_tax_amount o; o_tax_rate := o_tax_rate o;
     o_discount_amount := o_discount_amount o; o_total := x;
     o_currency := o_currency o; o_shipping_method := o_shipping_method o;
     o_carrier := o_carrier o; o_payment_intent_id := o_payment_intent_id o;
     o_payment_receipt_url := o_payment_receipt_url o; o_customer_note := o_customer_note o;
     o_admin_note := o_admin_note o; o_confirmed_at := o_confirmed_at o;
     o_cancelled_at := o_cancelled_at o |}.

Definition with_payment_intent_id (x : string) (o : Order) : Order :=
  {| o_id := o_id o; o_user := o_user o; o_guest_email := o_guest_email o;
     o_guest_first_name := o_guest_first_name o; o_guest_last_name := o_guest_last_name o;
     o_guest_phone := o_guest_phone o; o_order_number := o_order_number o;
     o_status := o_status o; o_payment_status := o_payment_status o;
     o_payment_method := o_payment_method o;
     o_shipping_address := o_shipping_address o; o_billing_address := o_billing_address o;
     o_subtotal := o_subtotal o; o_shipping_cost := o_shipping_cost o;
     o_tax_amount := o_tax_amount o; o_tax_rate := o_tax_rate o;
     o_discount_amount := o_discount_amount o; o_total := o_total o;
     o_currency := o_currency o; o_shipping_method := o_shipping_method o;
     o_carrier := o_carrier o; o_payment_intent_id := x;
     o_payment_receipt_url := o_payment_receipt_url o; o_customer_note := o_customer_note o;
     o_admin_note := o_admin_note o; o_confirmed_at := o_confirmed_at o;
     o_cancelled_at := o_cancelled_at o |}.

Definition with_payment_receipt_url (x : string) (o : Order) : Order :=
  {| o_id := o_id o; o_user := o_user o; o_guest_email := o_guest_email o;
     o_guest_first_name := o_guest_first_name o; o_guest_last_name := o_guest_last_name o;
     o_guest_phone := o_guest_phone o; o_order_number := o_order_number o;
     o_status := o_status o; o_payment_status := o_payment_status o;
     o_payment_method := o_payment_method o;
     o_shipping_address := o_shipping_address o; o_billing_address := o_billing_address o;
     o_subtotal := o_subtotal o; o_shipping_cost := o_shipping_cost o;
     o_tax_amount := o_tax_amount o; o_tax_rate := o_tax_rate o;
     o_discount_amount := o_discount_amount o; o_total := o_total o;
     o_currency := o_currency o; o_shipping_method := o_shipping_method o;
     o_carrier := o_carrier o; o_payment_intent_id := o_payment_intent_id o;
     o_payment_receipt_url := x; o_customer_note := o_customer_note o;
     o_admin_note := o_admin_note o; o_confirmed_at := o_confirmed_at o;
     o_cancelled_at := o_cancelled_at o |}.

Definition with_admin_note (x : string) (o : Order) : Order :=
  {| o_id := o_id o; o_user := o_user o; o_guest_email := o_guest_email o;
     o_guest_first_name := o_guest_first_name o; o_guest_last_name := o_guest_last_name o;
     o_guest_phone := o_guest_phone o; o_order_number := o_order_number o;
     o_status := o_status o; o_payment_status := o_payment_status o;
     o_payment_method := o_payment_method o;
     o_shipping_address := o_shipping_address o; o_billing_address := o_billing_address o;
     o_subtotal := o_subtotal o; o_shipping_cost := o_shipping_cost o;
     o_tax_amount := o_tax_amount o; o_tax_rate := o_tax_rate o;
     o_discount_amount := o_discount_amount o; o_total := o_total o;
     o_currency := o_currency o; o_shipping_method := o_shipping_method o;
     o_carrier := o_carrier o; o_payment_intent_id := o_payment_intent_id o;
     o_payment_receipt_url := o_payment_receipt_url o; o_customer_note := o_customer_note o;
     o_admin_note := x; o_confirmed_at := o_confirmed_at o;
     o_cancelled_at := o_cancelled_at o |}.

Definition with_confirmed_at (x : option datetime) (o : Order) : Order :=
  {| o_id := o_id o; o_user := o_user o; o_guest_email := o_guest_email o;
     o_guest_first_name := o_guest_first_name o; o_guest_last_name := o_guest_last_name o;
     o_guest_phone := o_guest_phone o; o_order_number := o_order_number o;
     o_status := o_status o; o_payment_status := o_payment_status o;
     o_payment_method := o_payment_method o;
     o_shipping_address := o_shipping_address o; o_billing_address := o_billing_address o;
     o_subtotal := o_subtotal o; o_shipping_cost := o_shipping_cost o;
     o_tax_amount := o_tax_amount o; o_tax_rate := o_tax_rate o;
     o_discount_amount := o_discount_amount o; o_total := o_total o;
     o_currency := o_currency o; o_shipping_method := o_shipping_method o;
     o_carrier := o_carrier o; o_payment_intent_id := o_payment_intent_id o;
     o_payment_receipt_url := o_payment_receipt_url o; o_customer_note := o_customer_note o;
     o_admin_note := o_admin_note o; o_confirmed_at := x;
     o_cancelled_at := o_cancelled_at o |}.

Definition with_cancelled_at (x : option datetime) (o : Order) : Order :=
  {| o_id := o_id o; o_user := o_user o; o_guest_email := o_guest_email o;
     o_guest_first_name := o_guest_first_name o; o_guest_last_name := o_guest_last_name o;
     o_guest_phone := o_guest_phone o; o_order_number := o_order_number o;
     o_status := o_status o; o_payment_status := o_payment_status o;
     o_payment_method := o_payment_method o;
     o_shipping_address := o_shipping_address o; o_billing_address := o_billing_address o;
     o_subtotal := o_subtotal o; o_shipping_cost := o_shipping_cost o;
     o_tax_amount := o_tax_amount o; o_tax_rate := o_tax_rate o;
     o_discount_amount := o_discount_amount o; o_total := o_total o;
     o_currency := o_currency o; o_shipping_method := o_shipping_method o;
     o_carrier := o_carrier o; o_payment_intent_id := o_payment_intent_id o;
     o_payment_receipt_url := o_payment_receipt_url o; o_customer_note := o_customer_note o;
     o_admin_note := o_admin_note o; o_confirmed_at := o_confirmed_at o;
     o_cancelled_at := x |}.

(** [orders.OrderItem]; [oi_variant] is nullable ([on_delete=SET_NULL]). *)
Record OrderItem : Type := {
  oi_id : uuid;
  oi_order : uuid;
  oi_variant : option uuid;
  oi_product_title : string;
  oi_product_slug : string;
  oi_variant_attributes : list (string * string);
  oi_sku : string;
  oi_unit_price : Decimal;
  oi_discount_amount : Decimal;
  oi_quantity : Z;
  oi_total_price : Decimal;
}.

(** The relational store. *)
Record Database : Type := {
  products : gmap uuid Product;
  variants : gmap uuid ProductVariant;
  addresses : gmap uuid Address;
  orders : gmap uuid Order;
  order_items : gmap uuid OrderItem;
}.

Definition on_variants (f : gmap uuid ProductVariant -> gmap uuid ProductVariant)
    (db : Database) : Database :=
  {| products := products db; variants := f (variants db);
     addresses := addresses db; orders := orders db;
     order_items := order_items db |}.

Definition on_addresses (f : gmap uuid Address -> gmap uuid Address)
    (db : Database) : Database :=
  {| products := products db; variants := variants db;
     addresses := f (addresses db); orders := orders db;
     order_items := order_items db |}.

Definition on_orders (f : gmap uuid Order -> gmap uuid Order)
    (db : Database) : Database :=
  {| products := products db; variants := variants db;
     addresses := addresses db; orders := f (orders db);
     order_items := order_items db |}.

Definition on_order_items (f : gmap uuid OrderItem -> gmap uuid OrderItem)
    (db : Database) : Database :=
  {| products := products db; variants := variants db;
     addresses := addresses db; orders := orders db;
     order_items := f (order_items db) |}.

(** [uuid.uuid4()] as the default of a primary key: a key the table does
    not hold. *)
Definition uuid4 {A} (table : gmap uuid A) : uuid := fresh (dom table).

(** ** products/models.py: ProductVariant *)

Definition with_stock (x : Z) (v : ProductVariant) : ProductVariant :=
  {| v_id := v_id v; v_product := v_product v; v_sku := v_sku v;
     v_attributes := v_attributes v; v_price := v_price v;
     v_discount_amount := v_discount_amount v; v_stock := x;
     v_is_default := v_is_default v; v_is_active := v_is_active v |}.

Definition with_v_is_default (x : bool) (v : ProductVariant) : ProductVariant :=
  {| v_id := v_id v; v_product := v_product v; v_sku := v_sku v;
     v_attributes := v_attributes v; v_price := v_price v;
     v_discount_amount := v_discount_amount v; v_stock := v_stock v;
     v_is_default := x; v_is_active := v_is_active v |}.

(** [.filter(product=self.product, is_default=True).exclude(id=self.id)
     .update(is_default=False)] on one row. *)
Definition clear_default_variant (self row : ProductVariant) : ProductVariant :=
  if bool_decide (v_product row = v_product self) && v_is_default row
     && negb (bool_decide (v_id row = v_id self))
  then with_v_is_default false row else row.

(** [ProductVariant.save(update_fields=["stock"])]: the override clears
    the default flag of the sibling variants, then only the [stock] column
    of the row of [self] is written. *)
Definition ProductVariant_save_stock (self : ProductVariant) : M Database unit :=
  do (if v_is_default self
      then modify (on_variants (fmap (clear_default_variant self)))
      else ret tt) in
  modify (on_variants (alter (with_stock (v_stock self)) (v_id self))).

(** [ProductVariant.discounted_price] *)
Definition discounted_price (self : ProductVariant) : Decimal :=
  Dec.sub (v_price self) (v_discount_amount self).

(** [ProductVariant.reduce_stock]; [self] is the in-memory object, whose
    [stock] is what was read when the object was fetched.  Returns the
    mutated object. *)
Definition reduce_stock (self : ProductVariant) (quantity : Z)
    : M Database ProductVariant :=
  if quantity >? v_stock self
  then raise (ValueError ("Insufficient stock. Available: "
                          +:+ pretty (v_stock self) +:+ ", Requested: "
                          +:+ pretty quantity))
  else
    let self := with_stock (v_stock self - quantity) self in
    do ProductVariant_save_stock self in
    ret self.

(** [ProductVariant.increase_stock] *)
Definition increase_stock (self : ProductVariant) (quantity : Z)
    : M Database ProductVariant :=
  let self := with_stock (v_stock self + quantity) self in
  do ProductVariant_save_stock self in
  ret self.

(** ** users/models/address.py: Address *)

Definition with_a_is_default (x : bool) (a : Address) : Address :=
  {| a_id := a_id a; a_user := a_user a; a_address_type := a_address_type a;
     a_first_name := a_first_name a; a_last_name := a_last_name a;
     a_company := a_company a; a_phone := a_phone a; a_email := a_email a;
     a_address_line1 := a_address_line1 a; a_address_line2 := a_address_line2 a;
     a_city := a_city a; a_state := a_state a; a_postal_code := a_postal_code a;
     a_country := a_country a; a_instructions := a_instructions a;
     a_is_default := x; a_is_active := a_is_active a;
     a_created_at := a_created_at a |}.

(** [.filter(user=self.user, address_type=self.address_type,
     is_default=True).exclude(id=self.id).update(is_default=False)] on one
    row. *)
Definition clear_default_address (self row : Address) : Address :=
  if bool_decide (a_user row = a_user self)
     && bool_decide (a_address_type row = a_address_type self)
     && a_is_default row
     && negb (bool_decide (a_id row = a_id self))
  then with_a_is_default false row else row.

(** [Address.save]: [self.user] is truthy when the address has an owner. *)
Definition Address_save (self : Address) : M Database unit :=
  do (if a_is_default self && bool_decide (is_Some (a_user self))
      then modify (on_addresses (fmap (clear_default_address self)))
      else ret tt) in
  modify (on_addresses (<[a_id self := self]>)).

(** ** orders/models.py: Order *)

(** [self.subtotal + self.shipping_cost + self.tax_amount
     - self.discount_amount] *)
Definition order_total (self : Order) : Decimal :=
  Dec.sub (Dec.add (Dec.add (o_subtotal self) (o_shipping_cost self))
                   (o_tax_amount self))
          (o_discount_amount self).

(** [order_number] is declared [unique=True]: another row holds the
    number of [self]. *)
Definition order_number_taken (self : Order) (db : Database) : bool :=
  bool_decide (map_Exists (fun k row => k <> o_id self
                             /\ o_order_number row = o_order_number self)
                          (orders db)).

(** [models.Model.save] for an [Order]: the unique constraint, then the
    row. *)
Definition Model_save_Order (self : Order) : M Database unit :=
  let* db := get in
  if order_number_taken self db
  then raise (IntegrityError "UNIQUE constraint failed: orders.order_number")
  else modify (on_orders (<[o_id self := self]>)).

(** [OrderService.generate_order_number]; [Order.save] below carries the
    same three lines inline. *)
Definition generate_order_number (env : Env) : string :=
  let date_str := strftime_Ymd (now env) in
  let random_str := pretty (randint_1000_9999 env) in
  "ORD" +:+ date_str +:+ random_str.

(** [Order.save]; returns the object as the call leaves it. *)
Definition Order_save (env : Env) (self : Order) : M Database Order :=
  let self :=
    if bool_decide (o_order_number self = "")
    then
      let date_str := strftime_Ymd (now env) in
      let random_str := pretty (randint_1000_9999 env) in
      with_order_number ("ORD" +:+ date_str +:+ random_str) self
    else self in
  let self := with_total (order_total self) self in
  do Model_save_Order self in
  ret self.

(** [Order.can_cancel] *)
Definition can_cancel (self : Order) : bool :=
  let cancellable_statuses := [STATUS_PENDING; STATUS_CONFIRMED] in
  bool_decide (o_status self ∈ cancellable_statuses).

(** ** orders/models.py: OrderItem *)

Definition with_snapshot (title slug : string) (attrs : list (string * string))
    (sku : string) (i : OrderItem) : OrderItem :=
  {| oi_id := oi_id i; oi_order := oi_order i; oi_variant := oi_variant i;
     oi_product_title := title; oi_product_slug := slug;
     oi_variant_attributes := attrs; oi_sku := sku;
     oi_unit_price := oi_unit_price i; oi_discount_amount := oi_discount_amount i;
     oi_quantity := oi_quantity i; oi_total_price := oi_total_price i |}.

Definition with_total_price (x : Decimal) (i : OrderItem) : OrderItem :=
  {| oi_id := oi_id i; oi_order := oi_order i; oi_variant := oi_variant i;
     oi_product_title := oi_product_title i; oi_product_slug := oi_product_slug i;
     oi_variant_attributes := oi_variant_attributes i; oi_sku := oi_sku i;
     oi_unit_price := oi_unit_price i; oi_discount_amount := oi_discount_amount i;
     oi_quantity := oi_quantity i; oi_total_price := x |}.

(** [(unit_price - discount) * quantity], the quantity converted by
    [Decimal(str(self.quantity))]. *)
Definition item_total (self : OrderItem) : Decimal :=
  Dec.mul (Dec.sub (oi_unit_price self) (oi_discount_amount self))
          (Dec.of_int (oi_quantity self)).

(** [self.variant.product], read through the two foreign keys. *)
Definition variant_with_product (vid : uuid)
    : M Database (ProductVariant * Product) :=
  let* db := get in
  match variants db !! vid with
  | None => raise (DoesNotExist "ProductVariant")
  | Some v =>
      match products db !! v_product v with
      | None => raise (DoesNotExist "Product")
      | Some p => ret (v, p)
      end
  end.

(** The head of [OrderItem.save]:
    [if self.variant and not self.product_title: ...]. *)
Definition snapshot_product (self : OrderItem) : M Database OrderItem :=
  match oi_variant self with
  | Some vid =>
      if bool_decide (oi_product_title self = "")
      then
        let* vp := variant_with_product vid in
        ret (with_snapshot (p_title vp.2) (p_slug vp.2)
                           (v_attributes vp.1) (v_sku vp.1) self)
      else ret self
  | None => ret self
  end.

(** [OrderItem.save].  The monetary attributes hold [Decimal]s, so the
    [isinstance] branches keep them as they are. *)
Definition OrderItem_save (self : OrderItem) : M Database OrderItem :=
  let* self := snapshot_product self in
  let self := with_total_price (item_total self) self in
  do modify (on_order_items (<[oi_id self := self]>)) in
  ret self.

(** ** orders/services/order_service.py: the request payload *)

(** An address object of the payload: its string members, and the boolean
    member [is_default]. *)
Record AddressData : Type := {
  ad_str : gmap string string;
  ad_is_default : option bool;
}.

(** A line item of the payload; [None] is an absent key. *)
Record ItemData : Type := {
  it_variant_id : option uuid;
  it_quantity : option Z;
  it_unit_price : option Decimal;
}.

Inductive items_value : Type :=
  | NotAList
  | ItemList (l : list ItemData).

(** A numeric member: whether [Decimal(str(x))] raises or what it gives. *)
Inductive number_value : Type :=
  | Unparsable
  | Number (d : Decimal).

(** The order payload [data]; [d_str] holds its string members
    ([payment_method], the four guest fields, [shipping_method],
    [customer_note], [currency]). *)
Record OrderData : Type := {
  d_items : option items_value;
  d_shipping_address : option AddressData;
  d_billing_address : option AddressData;
  d_use_separate_billing : option bool;
  d_str : gmap string string;
  d_shipping_cost : option number_value;
  d_tax_rate : option number_value;
  d_discount_amount : option number_value;
}.

Definition with_use_separate_billing (x : option bool) (d : OrderData) : OrderData :=
  {| d_items := d_items d; d_shipping_address := d_shipping_address d;
     d_billing_address := d_billing_address d; d_use_separate_billing := x;
     d_str := d_str d; d_shipping_cost := d_shipping_cost d;
     d_tax_rate := d_tax_rate d; d_discount_amount := d_discount_amount d |}.

(** Truth value of [d.get(key)] for a string member. *)
Definition truthy (v : option string) : bool :=
  match v with
  | Some s => negb (bool_decide (s = ""))
  | None => false
  end.

(** [', '.join(l)] *)
Fixpoint join_comma (l : list string) : string :=
  match l with
  | [] => ""
  | [x] => x
  | x :: l' => x +:+ ", " +:+ join_comma l'
  end.

(** [d[key]] *)
Definition getitem {S} (d : gmap string string) (key : string) : M S string :=
  match d !! key with
  | Some v => ret v
  | None => raise (KeyError key)
  end.

Definition guest_fields : list string :=
  ["guest_email"; "guest_first_name"; "guest_last_name"; "guest_phone"].

Definition required_address_fields : list string :=
  ["first_name"; "last_name"; "phone"; "email"; "address_line1"; "city";
   "state"; "postal_code"; "country"].

(** ** OrderService.validate_order_data *)

Definition item_errors (i : nat) (item : ItemData) : list string :=
  (if it_variant_id item is None
   then ["Item " +:+ pretty i +:+ ": Missing variant_id"] else [])
  ++ (match it_quantity item with
      | Some q => if q <? 1
                  then ["Item " +:+ pretty i +:+ ": Invalid quantity"] else []
      | None => ["Item " +:+ pretty i +:+ ": Invalid quantity"]
      end)
  ++ (if it_unit_price item is Some _
      then ["Item " +:+ pretty i +:+ ": Custom prices not allowed"] else []).

Definition items_errors (v : items_value) : list string :=
  match v with
  | NotAList => ["Items must be a list"]
  | ItemList [] => ["Order must contain at least one item"]
  | ItemList l => concat (imap item_errors l)
  end.

Definition address_errors (label : string) (a : AddressData) : list string :=
  flat_map (fun field =>
              if truthy (ad_str a !! field) then []
              else [label +:+ ": Missing " +:+ field])
           required_address_fields.

Definition number_errors (field : string) (v : option number_value) : list string :=
  match v with
  | Some Unparsable => ["Invalid value for " +:+ field]
  | _ => []
  end.

Definition validation_errors (data : OrderData) : list string :=
  (if d_items data is None then ["Missing required field: items"] else [])
  ++ (if d_shipping_address data is None
      then ["Missing required field: shipping_address"] else [])
  ++ (if d_str data !! "payment_method" is None
      then ["Missing required field: payment_method"] else [])
  ++ (if d_items data is Some v then items_errors v else [])
  ++ (if d_shipping_address data is Some shipping
      then address_errors "Shipping address" shipping else [])
  ++ (match d_billing_address data with
      | Some billing =>
          if default false (d_use_separate_billing data)
          then address_errors "Billing address" billing else []
      | None => []
      end)
  ++ number_errors "shipping_cost" (d_shipping_cost data)
  ++ number_errors "tax_rate" (d_tax_rate data)
  ++ number_errors "discount_amount" (d_discount_amount data).

(** The normalized copy of the payload: the numeric members are already
    held as [Decimal]s; [use_separate_billing] is filled in when absent. *)
Definition normalize_order_data (data : OrderData) : OrderData :=
  if d_use_separate_billing data is None
  then with_use_separate_billing
         (Some (bool_decide (is_Some (d_billing_address data)))) data
  else data.

(** [(is_valid, errors, normalized)] *)
Definition validate_order_data (data : OrderData)
    : bool * list string * OrderData :=
  let errors := validation_errors data in
  (bool_decide (length errors = 0%nat), errors, normalize_order_data data).

(** ** OrderService._create_or_get_address *)

(** [user and user.is_authenticated] *)
Definition authenticated (user : option User) : bool :=
  match user with
  | Some u => is_authenticated u
  | None => false
  end.

(** [order_by("-is_default", "-created_at")]: [a] comes before [b]. *)
Definition address_before (a b : Address) : bool :=
  if bool_decide (a_is_default a = a_is_default b)
  then (dt_key (a_created_at b) <? dt_key (a_created_at a))%N
  else a_is_default a.

(** [queryset.first()] under the ordering of [Address.Meta]. *)
Definition first_address (rows : list Address) : option Address :=
  foldr (fun a best =>
           match best with
           | Some b => if address_before b a then Some b else Some a
           | None => Some a
           end) None rows.

Definition _create_or_get_address (env : Env) (address_data : AddressData)
    (user : option User) (type_ : address_type) : M Database Address :=
  let d := ad_str address_data in
  let* existing :=
    if authenticated user then
      let* first_name := getitem d "first_name" in
      let* last_name := getitem d "last_name" in
      let* address_line1 := getitem d "address_line1" in
      let* city := getitem d "city" in
      let* country := getitem d "country" in
      let* postal_code := getitem d "postal_code" in
      let* db := get in
      ret (first_address
             (List.filter
                (fun a =>
                   bool_decide (a_user a = user_id <$> user)
                   && bool_decide (a_address_type a = type_)
                   && bool_decide (a_first_name a = first_name)
                   && bool_decide (a_last_name a = last_name)
                   && bool_decide (a_address_line1 a = address_line1)
                   && bool_decide (a_city a = city)
                   && bool_decide (a_country a = country)
                   && bool_decide (a_postal_code a = postal_code))
                (map_to_list (addresses db)).*2))
    else ret None in
  match existing with
  | Some a => ret a
  | None =>
      let* first_name := getitem d "first_name" in
      let* last_name := getitem d "last_name" in
      let* phone := getitem d "phone" in
      let* email := getitem d "email" in
      let* address_line1 := getitem d "address_line1" in
      let* city := getitem d "city" in
      let* state := getitem d "state" in
      let* postal_code := getitem d "postal_code" in
      let* country := getitem d "country" in
      let* db := get in
      let address :=
        {| a_id := uuid4 (addresses db); a_user := user_id <$> user;
           a_address_type := type_;
           a_first_name := first_name; a_last_name := last_name;
           a_company := default "" (d !! "company");
           a_phone := phone; a_email := email;
           a_address_line1 := address_line1;
           a_address_line2 := default "" (d !! "address_line2");
           a_city := city; a_state := state; a_postal_code := postal_code;
           a_country := country;
           a_instructions := default "" (d !! "instructions");
           a_is_default := default false (ad_is_default address_data);
           a_is_active := true; a_created_at := now env |} in
      do Address_save address in
      ret address
  end.

(** ** OrderService.create_order_from_data *)

(** An entry of [order_items_data]; [e_variant] is the object the lookup
    returned, with the stock it read. *)
Record ItemEntry : Type := {
  e_variant : ProductVariant;
  e_quantity : Z;
  e_unit_price : Decimal;
  e_product_title : string;
  e_product_slug : string;
  e_variant_attributes : list (string * string);
  e_sku : string;
}.

(** [ProductVariant.objects.select_related("product").get(id=...,
     is_active=True, product__status="published")] *)
Definition get_published_variant (vid : uuid) (db : Database)
    : option (ProductVariant * Product) :=
  match variants db !! vid with
  | Some v =>
      match products db !! v_product v with
      | Some p =>
          if v_is_active v && bool_decide (p_status p = "published")
          then Some (v, p) else None
      | None => None
      end
  | None => None
  end.

(** The first loop: look each variant up, check its stock, price it and
    add to the subtotal. *)
Fixpoint collect_items (items : list ItemData) (subtotal : Decimal)
    (order_items_data : list ItemEntry)
    : M Database (Decimal * list ItemEntry) :=
  match items with
  | [] => ret (subtotal, order_items_data)
  | item_data :: rest =>
      let* variant_id :=
        match it_variant_id item_data with
        | Some vid => ret vid
        | None => raise (KeyError "variant_id")
        end in
      let* db := get in
      match get_published_variant variant_id db with
      | None =>
          raise (ValidationError ("Product variant not found: " +:+ variant_id))
      | Some (variant, product) =>
          let quantity := default 1 (it_quantity item_data) in
          if v_stock variant <? quantity
          then raise (InsufficientStock (v_sku variant) (v_stock variant) quantity)
          else
            let unit_price :=
              match it_unit_price item_data with
              | None => discounted_price variant
              | Some unit_price_raw => unit_price_raw
              end in
            let entry :=
              {| e_variant := variant; e_quantity := quantity;
                 e_unit_price := unit_price;
                 e_product_title := p_title product;
                 e_product_slug := p_slug product;
                 e_variant_attributes := v_attributes variant;
                 e_sku := v_sku variant |} in
            collect_items rest
              (Dec.add subtotal (Dec.mul unit_price (Dec.of_int quantity)))
              (order_items_data ++ [entry])
      end
  end.

(** The inner helper [ensure_decimal(value, default="0.00")]. *)
Definition ensure_decimal {S} (value : option number_value) : M S Decimal :=
  match value with
  | None => ret (Dec.cents 0)
  | Some (Number d) => ret d
  | Some Unparsable => raise (DecimalException "InvalidOperation")
  end.

(** [OrderItem.objects.create(...)] of the second loop; [discount_amount]
    takes the field default [0.00], which [OrderItem.save] reads through
    [Decimal(str(0.0))]. *)
Definition create_order_item (order : Order) (item_data : ItemEntry)
    : M Database OrderItem :=
  let* db := get in
  OrderItem_save
    {| oi_id := uuid4 (order_items db); oi_order := o_id order;
       oi_variant := Some (v_id (e_variant item_data));
       oi_product_title := e_product_title item_data;
       oi_product_slug := e_product_slug item_data;
       oi_variant_attributes := e_variant_attributes item_data;
       oi_sku := e_sku item_data;
       oi_unit_price := e_unit_price item_data;
       oi_discount_amount := Dec.mk 0 (-1);
       oi_quantity := e_quantity item_data;
       oi_total_price := Dec.mk 0 (-1) |}.

(** The second loop: persist each item, then reduce the stock of the
    variant object of its entry. *)
Fixpoint persist_items (order : Order) (order_items_data : list ItemEntry)
    (order_items : list OrderItem) : M Database (list OrderItem) :=
  match order_items_data with
  | [] => ret order_items
  | item_data :: rest =>
      let* order_item := create_order_item order item_data in
      let* _ := reduce_stock (e_variant item_data) (e_quantity item_data) in
      persist_items order rest (order_items ++ [order_item])
  end.

(** The block [# VALIDATE USER/GUEST CONSISTENCY]. *)
Definition check_guest_consistency (user : option User)
    (normalized_data : OrderData) : M Database unit :=
  let str := d_str normalized_data in
  if authenticated user then
    (* Authenticated user - should not provide guest data *)
    let provided_guest_fields :=
      List.filter (fun f => truthy (str !! f)) guest_fields in
    if negb (bool_decide (provided_guest_fields = []))
    then raise (ValidationError
                  ("Authenticated users should not provide guest fields: "
                   +:+ join_comma provided_guest_fields))
    else ret tt
  else
    (* Guest user - REQUIRE ALL guest fields *)
    let missing_fields :=
      List.filter (fun f => negb (truthy (str !! f))) guest_fields in
    if negb (bool_decide (missing_fields = []))
    then raise (ValidationError
                  ("Guest checkout requires all guest fields. Missing: "
                   +:+ join_comma missing_fields))
    else ret tt.

(** The block [# Create or get addresses]: the shipping address, and the
    billing address when one is asked for and given. *)
Definition resolve_addresses (env : Env) (normalized_data : OrderData)
    (shipping_address_data : AddressData) (user : option User)
    : M Database (Address * Address) :=
  let use_separate_billing :=
    default false (d_use_separate_billing normalized_data) in
  let* shipping_address :=
    _create_or_get_address env shipping_address_data user ADDRESS_TYPE_SHIPPING in
  let* billing_address :=
    match d_billing_address normalized_data with
    | Some billing_data =>
        if use_separate_billing
        then _create_or_get_address env billing_data user ADDRESS_TYPE_BILLING
        else ret shipping_address
    | None => ret shipping_address
    end in
  ret (shipping_address, billing_address).

(** The blocks from [# Calculate amounts] on: the amounts, the order, then
    the items and the stock. *)
Definition place_order (env : Env) (normalized_data : OrderData)
    (user : option User) (shipping_address billing_address : Address)
    (subtotal : Decimal) (order_items_data : list ItemEntry)
    : M Database (Order * list OrderItem) :=
  let str := d_str normalized_data in
  (* Calculate amounts *)
  let* shipping_cost := ensure_decimal (d_shipping_cost normalized_data) in
  let* tax_rate := ensure_decimal (d_tax_rate normalized_data) in
  let* discount_amount := ensure_decimal (d_discount_amount normalized_data) in
  let* tax_amount :=
    match Dec.div (Dec.mul subtotal tax_rate) (Dec.cents 10000) with
    | Some t => ret t
    | None => raise (DecimalException "DivisionByZero")
    end in
  (* Create order *)
  let* payment_method := getitem str "payment_method" in
  let* db := get in
  let* order :=
    Order_save env
      {| o_id := uuid4 (orders db); o_user := user_id <$> user;
         o_guest_email := default "" (str !! "guest_email");
         o_guest_first_name := default "" (str !! "guest_first_name");
         o_guest_last_name := default "" (str !! "guest_last_name");
         o_guest_phone := default "" (str !! "guest_phone");
         o_order_number := "";
         o_status := STATUS_PENDING; o_payment_status := PAYMENT_PENDING;
         o_payment_method := payment_method;
         o_shipping_address := a_id shipping_address;
         o_billing_address := a_id billing_address;
         o_subtotal := subtotal; o_shipping_cost := shipping_cost;
         o_tax_amount := tax_amount; o_tax_rate := tax_rate;
         o_discount_amount := discount_amount; o_total := Dec.mk 0 (-1);
         o_currency := default "USD" (str !! "currency");
         o_shipping_method := default "" (str !! "shipping_method");
         o_carrier := ""; o_payment_intent_id := "";
         o_payment_receipt_url := "";
         o_customer_note := default "" (str !! "customer_note");
         o_admin_note := ""; o_confirmed_at := None;
         o_cancelled_at := None |} in
  (* Create order items and reduce stock *)
  let* order_items := persist_items order order_items_data [] in
  ret (order, order_items).

(** The body of [create_order_from_data], under the decorator. *)
Definition create_order_body (env : Env) (data : OrderData) (user : option User)
    : M Database (Order * list OrderItem) :=
  (* Validate data *)
  let '(is_valid, errors, normalized_data) := validate_order_data data in
  if negb is_valid
  then raise (ValidationError ("Invalid order data: " +:+ join_comma errors))
  else
  do check_guest_consistency user normalized_data in
  (* Extract data *)
  let* shipping_address_data :=
    match d_shipping_address normalized_data with
    | Some a => ret a
    | None => raise (KeyError "shipping_address")
    end in
  let* items :=
    match d_items normalized_data with
    | Some (ItemList l) => ret l
    | Some NotAList => raise (ValueError "items")
    | None => raise (KeyError "items")
    end in
  let* addrs := resolve_addresses env normalized_data shipping_address_data user in
  let '(shipping_address, billing_address) := addrs in
  (* Calculate subtotal and validate items *)
  let* collected := collect_items items (Dec.cents 0) [] in
  let '(subtotal, order_items_data) := collected in
  place_order env normalized_data user shipping_address billing_address
              subtotal order_items_data.

(** [OrderService.create_order_from_data], decorated
    [@transaction.atomic]. *)
Definition create_order_from_data (env : Env) (data : OrderData)
    (user : option User) : M Database (Order * list OrderItem) :=
  atomic (create_order_body env data user).

(** ** OrderService: the order lifecycle *)

(** [Order.objects.get(order_number=...)] *)
Definition order_by_number (number : string) (db : Database) : option Order :=
  List.find (fun o => bool_decide (o_order_number o = number))
            (map_to_list (orders db)).*2.

(** The lookup shared by the lifecycle operations: by primary key, then
    by order number. *)
Definition find_order (order_id : string) : M Database Order :=
  let* db := get in
  match orders db !! order_id with
  | Some order => ret order
  | None =>
      match order_by_number order_id db with
      | Some order => ret order
      | None => raise (ValidationError "Order not found")
      end
  end.

(** [order.items.all()] of a prefetched order. *)
Definition items_of (order : Order) (db : Database) : list OrderItem :=
  List.filter (fun i => bool_decide (oi_order i = o_id order))
              (map_to_list (order_items db)).*2.

(** The stock loop of [cancel_order].  [prefetch_related("items__variant")]
    loads each distinct variant once, so items of one variant share one
    object: [objects] maps the key of a variant to that object. *)
Fixpoint restore_stock (items : list OrderItem)
    (objects : gmap uuid ProductVariant) : M Database unit :=
  match items with
  | [] => ret tt
  | item :: rest =>
      match oi_variant item with
      | Some vid =>
          match objects !! vid with
          | Some variant =>
              let* variant := increase_stock variant (oi_quantity item) in
              restore_stock rest (<[vid := variant]> objects)
          | None => restore_stock rest objects
          end
      | None => restore_stock rest objects
      end
  end.

(** [OrderService.cancel_order] *)
Definition cancel_order (env : Env) (order_id : string) (user : option User)
    (reason : string) : M Database Order :=
  let* order := find_order order_id in
  let* db := get in
  let items := items_of order db in
  let objects := variants db in
  (* Check permissions *)
  do (match user with
      | Some u =>
          if negb (is_staff u) && negb (bool_decide (o_user order = Some (user_id u)))
          then raise (PermissionDenied
                        "You don't have permission to cancel this order")
          else ret tt
      | None => ret tt
      end) in
  (* Check if order can be cancelled *)
  if negb (can_cancel order)
  then raise InvalidState
  else
    atomic (
      do restore_stock items objects in
      let order := with_status STATUS_CANCELLED order in
      let order :=
        if negb (bool_decide (reason = ""))
        then with_admin_note
               ("Cancelled by " +:+ (if user is Some _ then "user" else "system")
                +:+ ": " +:+ reason) order
        else order in
      let order := with_cancelled_at (Some (now env)) order in
      Order_save env order).

(** [OrderService.update_payment_status] *)
Definition update_payment_status (env : Env) (order_id payment_status
    payment_intent_id payment_receipt_url : string) : M Database Order :=
  let* order := find_order order_id in
  let valid_statuses := PAYMENT_STATUS_CHOICES.*1 in
  if negb (bool_decide (payment_status ∈ valid_statuses))
  then raise (ValidationError ("Invalid payment status: " +:+ payment_status))
  else
    let order := with_payment_status payment_status order in
    let order :=
      if negb (bool_decide (payment_intent_id = ""))
      then with_payment_intent_id payment_intent_id order else order in
    let order :=
      if negb (bool_decide (payment_receipt_url = ""))
      then with_payment_receipt_url payment_receipt_url order else order in
    let order :=
      if bool_decide (payment_status = PAYMENT_PAID)
         && bool_decide (o_status order = STATUS_PENDING)
      then with_confirmed_at (Some (now env))
             (with_status STATUS_CONFIRMED order)
      else order in
    Order_save env order.

(** ** More of products/models.py *)


(** [ProductVariant.is_in_stock] *)
Definition is_in_stock (self : ProductVariant) : bool := v_stock self >? 0.

(** [product.variants.all()] *)
Definition variants_of (product : uuid) (db : Database) : list ProductVariant :=
  List.filter (fun v => bool_decide (v_product v = product))
              (map_to_list (variants db)).*2.

(** [Product.total_stock]: [sum(variant.stock for variant in ...)]. *)
Definition total_stock (product : uuid) (db : Database) : Z :=
  foldl (fun acc v => acc + v_stock v) 0 (variants_of product db).

(** [Product.has_stock]: [any(variant.stock > 0 for variant in ...)]. *)
Definition has_stock (product : uuid) (db : Database) : bool :=
  existsb (fun v => v_stock v >? 0) (variants_of product db).

(** ** orders/services/order_service.py: AddressService *)

Definition address_service_required_fields : list string :=
  ["first_name"; "last_name"; "address_line1"; "city"; "state";
   "postal_code"; "country"; "phone"; "email"].

(** The loop [for field in required_fields: if field not in data or not
    data[field]: raise ValidationError(...)]. *)
Definition require_fields {S} (data : AddressData) (fields : list string)
    : M S unit :=
  for_each fields (fun field =>
    if truthy (ad_str data !! field) then ret tt
    else raise (ValidationError ("Missing required field: " +:+ field))).

(** [AddressService.create_address_from_data] *)
Definition create_address_from_data (env : Env) (data : AddressData)
    (user : option User) (type_ : address_type) : M Database Address :=
  do require_fields data address_service_required_fields in
  let d := ad_str data in
  let* first_name := getitem d "first_name" in
  let* last_name := getitem d "last_name" in
  let* phone := getitem d "phone" in
  let* email := getitem d "email" in
  let* address_line1 := getitem d "address_line1" in
  let* city := getitem d "city" in
  let* state := getitem d "state" in
  let* postal_code := getitem d "postal_code" in
  let* country := getitem d "country" in
  let* db := get in
  let address :=
    {| a_id := uuid4 (addresses db); a_user := user_id <$> user;
       a_address_type := type_;
       a_first_name := first_name; a_last_name := last_name;
       a_company := default "" (d !! "company");
       a_phone := phone; a_email := email;
       a_address_line1 := address_line1;
       a_address_line2 := default "" (d !! "address_line2");
       a_city := city; a_state := state; a_postal_code := postal_code;
       a_country := country;
       a_instructions := default "" (d !! "instructions");
       a_is_default := default false (ad_is_default data);
       a_is_active := true; a_created_at := now env |} in
  do Address_save address in
  ret address.

(** [Address.objects.get(id=address_id, user=user)] *)
Definition get_address (address_id : uuid) (user : option User)
    (db : Database) : option Address :=
  match addresses db !! address_id with
  | Some a => if bool_decide (a_user a = user_id <$> user) then Some a else None
  | None => None
  end.

(** The loop [for field in updatable_fields: if field in data:
    setattr(address, field, data[field])]. *)
Definition set_updatable_fields (data : AddressData) (a : Address) : Address :=
  let d := ad_str data in
  {| a_id := a_id a; a_user := a_user a; a_address_type := a_address_type a;
     a_first_name := default (a_first_name a) (d !! "first_name");
     a_last_name := default (a_last_name a) (d !! "last_name");
     a_company := default (a_company a) (d !! "company");
     a_phone := default (a_phone a) (d !! "phone");
     a_email := default (a_email a) (d !! "email");
     a_address_line1 := default (a_address_line1 a) (d !! "address_line1");
     a_address_line2 := default (a_address_line2 a) (d !! "address_line2");
     a_city := default (a_city a) (d !! "city");
     a_state := default (a_state a) (d !! "state");
     a_postal_code := default (a_postal_code a) (d !! "postal_code");
     a_country := default (a_country a) (d !! "country");
     a_instructions := default (a_instructions a) (d !! "instructions");
     a_is_default := default (a_is_default a) (ad_is_default data);
     a_is_active := a_is_active a; a_created_at := a_created_at a |}.

(** [AddressService.update_address] *)
Definition update_address (address_id : uuid) (data : AddressData)
    (user : option User) : M Database Address :=
  let* db := get in
  match get_address address_id user db with
  | None => raise (ValidationError "Address not found")
  | Some address =>
      let address := set_updatable_fields data address in
      do Address_save address in
      ret address
  end.

Definition with_a_is_active (x : bool) (a : Address) : Address :=
  {| a_id := a_id a; a_user := a_user a; a_address_type := a_address_type a;
     a_first_name := a_first_name a; a_last_name := a_last_name a;
     a_company := a_company a; a_phone := a_phone a; a_email := a_email a;
     a_address_line1 := a_address_line1 a; a_address_line2 := a_address_line2 a;
     a_city := a_city a; a_state := a_state a; a_postal_code := a_postal_code a;
     a_country := a_country a; a_instructions := a_instructions a;
     a_is_default := a_is_default a; a_is_active := x;
     a_created_at := a_created_at a |}.

(** [AddressService.delete_address]: a soft delete. *)
Definition delete_address (address_id : uuid) (user : option User)
    : M Database bool :=
  let* db := get in
  match get_address address_id user db with
  | None => raise (ValidationError "Address not found")
  | Some address =>
      let address := with_a_is_active false address in
      do Address_save address in
      ret true
  end.

(** [order_by("-is_default", "-created_at")], as an insertion sort. *)
Fixpoint insert_address (a : Address) (l : list Address) : list Address :=
  match l with
  | [] => [a]
  | b :: l' => if address_before b a then b :: insert_address a l' else a :: l
  end.

Definition order_addresses (l : list Address) : list Address :=
  foldr insert_address [] l.

(** [AddressService.get_user_addresses]; an absent or empty [address_type]
    does not filter. *)
Definition get_user_addresses (user : option User)
    (type_ : option address_type) (active_only : bool) (db : Database)
    : list Address :=
  let queryset :=
    List.filter (fun a => bool_decide (a_user a = user_id <$> user))
                (map_to_list (addresses db)).*2 in
  let queryset :=
    if active_only then List.filter a_is_active queryset else queryset in
  let queryset :=
    match type_ with
    | Some t => List.filter (fun a => bool_decide (a_address_type a = t)) queryset
    | None => queryset
    end in
  order_addresses queryset.

(** [AddressService.get_or_create_guest_address] *)
Definition get_or_create_guest_address (env : Env) (data : AddressData)
    (type_ : address_type) : M Database Address :=
  create_address_from_data env data None type_.

(** [set_default_address] of [orders/address_views.py]: the service call
    it makes. *)
Definition set_default_address (address_id : uuid) (user : option User)
    : M Database Address :=
  update_address address_id
    {| ad_str := ∅; ad_is_default := Some true |} user.

(** ** OrderService: status updates and reads *)

Definition with_carrier (x : string) (o : Order) : Order :=
  {| o_id := o_id o; o_user := o_user o; o_guest_email := o_guest_email o;
     o_guest_first_name := o_guest_first_name o; o_guest_last_name := o_guest_last_name o;
     o_guest_phone := o_guest_phone o; o_order_number := o_order_number o;
     o_status := o_status o; o_payment_status := o_payment_status o;
     o_payment_method := o_payment_method o;
     o_shipping_address := o_shipping_address o; o_billing_address := o_billing_address o;
     o_subtotal := o_subtotal o; o_shipping_cost := o_shipping_cost o;
     o_tax_amount := o_tax_amount o; o_tax_rate := o_tax_rate o;
     o_discount_amount := o_discount_amount o; o_total := o_total o;
     o_currency := o_currency o; o_shipping_method := o_shipping_method o;
     o_carrier := x; o_payment_intent_id := o_payment_intent_id o;
     o_payment_receipt_url := o_payment_receipt_url o; o_customer_note := o_customer_note o;
     o_admin_note := o_admin_note o; o_confirmed_at := o_confirmed_at o;
     o_cancelled_at := o_cancelled_at o |}.

(** [strftime("%Y-%m-%d %H:%M")]; [dt_seconds] counts the seconds of the
    day. *)
Definition strftime_Ymd_HM (t : datetime) : string :=
  pad4 (dt_year t) +:+ "-" +:+ pad2 (dt_month t) +:+ "-" +:+ pad2 (dt_day t)
  +:+ " " +:+ pad2 (dt_seconds t / 3600)%N
  +:+ ":" +:+ pad2 (dt_seconds t `mod` 3600 / 60)%N.

(** The line feed of [f"\n{timestamp}: {admin_note}"]. *)
Definition newline : string := String (Ascii.ascii_of_nat 10) EmptyString.

(** [OrderService.update_order_status] *)
Definition update_order_status (env : Env) (order_id status admin_note
    carrier : string) : M Database Order :=
  let* order := find_order order_id in
  let valid_statuses := STATUS_CHOICES.*1 in
  if negb (bool_decide (status ∈ valid_statuses))
  then raise (ValidationError ("Invalid status: " +:+ status))
  else
    let order := with_status status order in
    let order :=
      if negb (bool_decide (carrier = "")) then with_carrier carrier order
      else order in
    let order :=
      if negb (bool_decide (admin_note = ""))
      then
        let timestamp := strftime_Ymd_HM (now env) in
        if negb (bool_decide (o_admin_note order = ""))
        then with_admin_note
               (o_admin_note order +:+ newline +:+ timestamp
                +:+ ": " +:+ admin_note) order
        else with_admin_note (timestamp +:+ ": " +:+ admin_note) order
      else order in
    Order_save env order.


(** [Order.item_count]: [sum(item.quantity for item in self.items.all())]. *)
Definition item_count (order : Order) (db : Database) : Z :=
  foldl (fun acc item => acc + oi_quantity item) 0 (items_of order db).

(** ** Views of the store used in the statements *)

(** A store of orders as [Order.save] leaves it: rows sit under their own
    key, carry an order number, and no two rows share one. *)
Definition orders_wf (db : Database) : Prop :=
  forall k o, orders db !! k = Some o ->
    o_id o = k /\ o_order_number o <> ""
    /\ forall k' o', orders db !! k' = Some o' ->
         o_order_number o' = o_order_number o -> k' = k.

(** The object [Order.save] persists: the number filled in when missing,
    the total recomputed. *)
Definition saved_order (env : Env) (self : Order) : Order :=
  let self :=
    if bool_decide (o_order_number self = "")
    then with_order_number (generate_order_number env) self
    else self in
  with_total (order_total self) self.

(** Rows sit under their own key. *)
Definition addresses_wf (m : gmap uuid Address) : Prop :=
  forall k a, m !! k = Some a -> a_id a = k.

(** At most one default address of one owner and type. *)
Definition one_default (m : gmap uuid Address) (owner : option uuid)
    (t : address_type) : Prop :=
  forall i j a b,
    m !! i = Some a -> m !! j = Some b ->
    a_user a = owner -> a_user b = owner ->
    a_address_type a = t -> a_address_type b = t ->
    a_is_default a = true -> a_is_default b = true ->
    i = j.

(** The address table after [Address.save]. *)
Definition saved_addresses (self : Address) (m : gmap uuid Address)
    : gmap uuid Address :=
  <[a_id self := self]>
    (if a_is_default self && bool_decide (is_Some (a_user self))
     then clear_default_address self <$> m else m).

(** Saving the addresses of a list one after the other. *)
Definition save_addresses (l : list Address) : M Database unit :=
  for_each l Address_save.

(** The permission test of [cancel_order]: an actor is given, is not
    staff, and is not the owner of the order. *)
Definition denied (user : option User) (order : Order) : bool :=
  match user with
  | Some u => negb (is_staff u)
              && negb (bool_decide (o_user order = Some (user_id u)))
  | None => false
  end.

(** The attributes [cancel_order] assigns before it saves the order. *)
Definition cancelled_order (env : Env) (user : option User) (reason : string)
    (order : Order) : Order :=
  let order := with_status STATUS_CANCELLED order in
  let order :=
    if negb (bool_decide (reason = ""))
    then with_admin_note
           ("Cancelled by " +:+ (if user is Some _ then "user" else "system")
            +:+ ": " +:+ reason) order
    else order in
  with_cancelled_at (Some (now env)) order.

(** The quantity the items of a list order of the variant [vid]. *)
Fixpoint quantity_of (vid : uuid) (items : list OrderItem) : Z :=
  match items with
  | [] => 0
  | item :: rest =>
      (if bool_decide (oi_variant item = Some vid) then oi_quantity item else 0)
      + quantity_of vid rest
  end.

(** Variant rows sit under their own key. *)
Definition variants_wf (m : gmap uuid ProductVariant) : Prop :=
  forall k v, m !! k = Some v -> v_id v = k.


(** The payload agrees with the caller: no guest field from an
    authenticated user, all four from a guest. *)
Definition guest_consistent (user : option User) (data : OrderData) : bool :=
  if authenticated user
  then forallb (fun f => negb (truthy (d_str data !! f))) guest_fields
  else forallb (fun f => truthy (d_str data !! f)) guest_fields.

(** A line item names an active variant of a published product that holds
    the quantity asked for. *)
Definition purchasable (db : Database) (item : ItemData) : bool :=
  match it_variant_id item with
  | Some vid =>
      match get_published_variant vid db with
      | Some (v, _) => negb (v_stock v <? default 1 (it_quantity item))
      | None => false
      end
  | None => false
  end.

(** A line item asks more of a variant of the store than its stock. *)
Definition over_stock (db : Database) (item : ItemData) : Prop :=
  exists vid v, it_variant_id item = Some vid /\ variants db !! vid = Some v
                /\ v_stock v < default 1 (it_quantity item).

(** The tables [_create_or_get_address] does not write. *)
Definition same_but_addresses (db db' : Database) : Prop :=
  products db' = products db /\ variants db' = variants db
  /\ orders db' = orders db /\ order_items db' = order_items db.

(** A billing address of the payload, when there is one, has the members
    an address needs. *)
Definition billing_complete (data : OrderData) : Prop :=
  forall b, d_billing_address data = Some b ->
            address_errors "Billing address" b = [].


(** No variant of the store has a negative stock. *)
Definition stock_nonnegative (m : gmap uuid ProductVariant) : Prop :=
  forall k v, m !! k = Some v -> 0 <= v_stock v.

(** The quantity of the last line item of a payload that names the
    variant [vid]; a line item without [quantity] asks for one. *)
Fixpoint last_quantity (vid : uuid) (items : list ItemData) : option Z :=
  match items with
  | [] => None
  | item :: rest =>
      match last_quantity vid rest with
      | Some q => Some q
      | None =>
          if bool_decide (it_variant_id item = Some vid)
          then Some (default 1 (it_quantity item)) else None
      end
  end.

(** The stock the last entry of the variant [vid] writes: what its object
    read, less its quantity. *)
Fixpoint written_stock (vid : uuid) (entries : list ItemEntry) : option Z :=
  match entries with
  | [] => None
  | e :: rest =>
      match written_stock vid rest with
      | Some s => Some s
      | None =>
          if bool_decide (v_id (e_variant e) = vid)
          then Some (v_stock (e_variant e) - e_quantity e) else None
      end
  end.

(** The quantity the line items of a payload ask of the variant [vid]
    in all. *)
Fixpoint ordered_quantity (vid : uuid) (items : list ItemData) : Z :=
  match items with
  | [] => 0
  | item :: rest =>
      (if bool_decide (it_variant_id item = Some vid)
       then default 1 (it_quantity item) else 0)
      + ordered_quantity vid rest
  end.

(** The entry the first loop of [create_order_from_data] builds for a line
    item: the variant object the lookup returns and the quantity asked
    for, which the stock the object read covers. *)
Definition entry_for (db : Database) (item : ItemData) (e : ItemEntry) : Prop :=
  exists vid p,
    it_variant_id item = Some vid
    /\ get_published_variant vid db = Some (e_variant e, p)
    /\ e_quantity e = default 1 (it_quantity item)
    /\ e_quantity e <= v_stock (e_variant e).

(** ** A sample store and sample requests *)

Definition sample_env : Env :=
  {| now := {| dt_year := 2024; dt_month := 3; dt_day := 7;
               dt_seconds := 36000 |}%N;
     randint_1000_9999 := 4821 |}.

Definition sample_product : Product :=
  {| p_title := "Headphones"; p_slug := "headphones"; p_status := "published" |}.

(** The variant of the pricing scenario: stock 3, price 20.00, discount
    2.00. *)
Definition sample_black : ProductVariant :=
  {| v_id := "v1"; v_product := "p1"; v_sku := "GEN-BLK-01";
     v_attributes := [("color", "Black")];
     v_price := Dec.cents 2000; v_discount_amount := Dec.cents 200;
     v_stock := 3; v_is_default := true; v_is_active := true |}.

(** The variant of the stock scenario: stock 2. *)
Definition sample_white : ProductVariant :=
  {| v_id := "v2"; v_product := "p1"; v_sku := "GEN-WHT-02";
     v_attributes := [("color", "White")];
     v_price := Dec.cents 2500; v_discount_amount := Dec.cents 0;
     v_stock := 2; v_is_default := false; v_is_active := true |}.

Definition sample_db : Database :=
  {| products := {["p1" := sample_product]};
     variants := <["v1" := sample_black]> {["v2" := sample_white]};
     addresses := ∅; orders := ∅; order_items := ∅ |}.

Definition sample_address : AddressData :=
  {| ad_str := list_to_map
       [("first_name", "Ama"); ("last_name", "Mensah");
        ("phone", "0200000000"); ("email", "ama@example.com");
        ("address_line1", "1 High Street"); ("city", "Accra");
        ("state", "Greater Accra"); ("postal_code", "00233");
        ("country", "Ghana")];
     ad_is_default := None |}.

Definition sample_guest_members : gmap string string :=
  list_to_map
    [("payment_method", "mobile_money"); ("guest_email", "ama@example.com");
     ("guest_first_name", "Ama"); ("guest_last_name", "Mensah");
     ("guest_phone", "0200000000")].

Definition sample_item (vid : uuid) (quantity : Z) : ItemData :=
  {| it_variant_id := Some vid; it_quantity := Some quantity;
     it_unit_price := None |}.

(** A guest checkout of the given line items. *)
Definition sample_checkout (items : list ItemData) : OrderData :=
  {| d_items := Some (ItemList items);
     d_shipping_address := Some sample_address;
     d_billing_address := None; d_use_separate_billing := None;
     d_str := sample_guest_members;
     d_shipping_cost := None; d_tax_rate := None; d_discount_amount := None |}.

Definition sample_customer : User :=
  {| user_id := "u1"; is_staff := false; is_authenticated := true |}.

Definition sample_stranger : User :=
  {| user_id := "u2"; is_staff := false; is_authenticated := true |}.

(** A confirmed order of [sample_customer]: one black, three white. *)
Definition sample_order : Order :=
  {| o_id := "o1"; o_user := Some "u1";
     o_guest_email := ""; o_guest_first_name := ""; o_guest_last_name := "";
     o_guest_phone := ""; o_order_number := "ORD202403061234";
     o_status := STATUS_CONFIRMED; o_payment_status := PAYMENT_PAID;
     o_payment_method := "mobile_money";
     o_shipping_address := "a1"; o_billing_address := "a1";
     o_subtotal := Dec.cents 9300; o_shipping_cost := Dec.cents 500;
     o_tax_amount := Dec.cents 0; o_tax_rate := Dec.cents 0;
     o_discount_amount := Dec.cents 300; o_total := Dec.cents 9500;
     o_currency := "USD"; o_shipping_method := ""; o_carrier := "";
     o_payment_intent_id := ""; o_payment_receipt_url := "";
     o_customer_note := ""; o_admin_note := "";
     o_confirmed_at := None; o_cancelled_at := None |}.

Definition sample_order_item (id vid sku : string) (price : Decimal)
    (quantity : Z) : OrderItem :=
  {| oi_id := id; oi_order := "o1"; oi_variant := Some vid;
     oi_product_title := "Headphones"; oi_product_slug := "headphones";
     oi_variant_attributes := []; oi_sku := sku;
     oi_unit_price := price; oi_discount_amount := Dec.cents 0;
     oi_quantity := quantity; oi_total_price := Dec.cents 0 |}.

Definition sample_db_ordered : Database :=
  {| products := {["p1" := sample_product]};
     variants := <["v1" := sample_black]> {["v2" := sample_white]};
     addresses := ∅;
     orders := {["o1" := sample_order]};
     order_items :=
       <["i1" := sample_order_item "i1" "v1" "GEN-BLK-01" (Dec.cents 1800) 1]>
         {["i2" := sample_order_item "i2" "v2" "GEN-WHT-02" (Dec.cents 2500) 3]} |}.



(** A new order as [Order.objects.create] hands it to [Order.save], with a
    stale total. *)
Definition sample_new_order : Order :=
  with_total (Dec.cents 1) (with_order_number "" (with_status STATUS_PENDING
    {| o_id := "o2"; o_user := None;
       o_guest_email := "ama@example.com"; o_guest_first_name := "Ama";
       o_guest_last_name := "Mensah"; o_guest_phone := "0200000000";
       o_order_number := ""; o_status := STATUS_PENDING;
       o_payment_status := PAYMENT_PENDING; o_payment_method := "mobile_money";
       o_shipping_address := "a1"; o_billing_address := "a1";
       o_subtotal := Dec.cents 3600; o_shipping_cost := Dec.cents 500;
       o_tax_amount := Dec.cents 270; o_tax_rate := Dec.mk 75 (-1);
       o_discount_amount := Dec.cents 100; o_total := Dec.cents 0;
       o_currency := "USD"; o_shipping_method := ""; o_carrier := "";
       o_payment_intent_id := ""; o_payment_receipt_url := "";
       o_customer_note := ""; o_admin_note := "";
       o_confirmed_at := None; o_cancelled_at := None |})).

(** A store in which an order already holds the number the sample
    environment generates. *)
Definition sample_db_collision : Database :=
  on_orders (fun _ => {["o1" := with_order_number "ORD202403074821" sample_order]})
            sample_db_ordered.

Definition sample_saved_address (id : uuid) (owner : option uuid) : Address :=
  {| a_id := id; a_user := owner; a_address_type := ADDRESS_TYPE_SHIPPING;
     a_first_name := "Ama"; a_last_name := "Mensah"; a_company := "";
     a_phone := "0200000000"; a_email := "ama@example.com";
     a_address_line1 := "1 High Street"; a_address_line2 := "";
     a_city := "Accra"; a_state := "Greater Accra"; a_postal_code := "00233";
     a_country := "Ghana"; a_instructions := ""; a_is_default := true;
     a_is_active := true; a_created_at := now sample_env |}.

(** A store with two shipping addresses of [sample_customer]; the first
    is the default. *)
Definition sample_db_addresses : Database :=
  on_addresses
    (fun _ => <["a1" := sample_saved_address "a1" (Some "u1")]>
                {["a2" := with_a_is_default false
                            (sample_saved_address "a2" (Some "u1"))]})
    sample_db.

(** A billing address with a city and nothing else. *)
Definition sample_billing : AddressData :=
  {| ad_str := {["city" := "Accra"]}; ad_is_default := None |}.

(** A guest checkout that carries [sample_billing] and no
    [use_separate_billing]. *)
Definition sample_checkout_billing : OrderData :=
  {| d_items := Some (ItemList [sample_item "v1" 2]);
     d_shipping_address := Some sample_address;
     d_billing_address := Some sample_billing;
     d_use_separate_billing := None;
     d_str := sample_guest_members;
     d_shipping_cost := None; d_tax_rate := None; d_discount_amount := None |}.

(** An address payload with a first name only. *)
Definition sample_address_first_name : AddressData :=
  {| ad_str := {["first_name" := "Ama"]}; ad_is_default := None |}.

(** * Properties *)

(** ** Decimal arithmetic on column values *)

Section DecimalFacts.

Lemma fix_small (d : Decimal) :
  Z.abs (Dec.coef d) < 10 ^ Dec.prec -> Dec.fix_ d = d.
Proof.
  intros H. unfold Dec.fix_.
  destruct (Z.ltb_spec (Z.abs (Dec.coef d)) (10 ^ Dec.prec)); [done | lia].
Qed.

Lemma add_cents (a b : Z) :
  Z.abs (a + b) < 10 ^ Dec.prec ->
  Dec.add (Dec.cents a) (Dec.cents b) = Dec.cents (a + b).
Proof.
  intros H. unfold Dec.add, Dec.cents; simpl.
  rewrite !Z.mul_1_r. by apply fix_small.
Qed.

Lemma sub_cents (a b : Z) :
  Z.abs (a - b) < 10 ^ Dec.prec ->
  Dec.sub (Dec.cents a) (Dec.cents b) = Dec.cents (a - b).
Proof.
  intros H. unfold Dec.sub, Dec.neg; simpl.
  change (Dec.mk (- b) (-2)) with (Dec.cents (- b)).
  rewrite add_cents; [done | by replace (a + - b) with (a - b) by lia].
Qed.

Lemma mul_cents_int (a q : Z) :
  Z.abs (a * q) < 10 ^ Dec.prec ->
  Dec.mul (Dec.cents a) (Dec.of_int q) = Dec.cents (a * q).
Proof. intros H. unfold Dec.mul; simpl. by apply fix_small. Qed.

Lemma column_cents (d : Decimal) :
  Dec.is_column d -> d = Dec.cents (Dec.coef d).
Proof. destruct d as [c e]; intros [He _]; simpl in *. by subst. Qed.


Lemma div_is_Some (a b : Decimal) :
  Dec.coef b <> 0 -> exists t, Dec.div a b = Some t.
Proof.
  intros Hb. unfold Dec.div.
  destruct (Z.eqb_spec (Dec.coef b) 0); [done |].
  destruct (Dec.coef a =? 0); [by eexists |].
  destruct (if 0 <=? _ then _ else _) as [q r].
  destruct (if r =? 0 then _ else _) as [q' e]. by eexists.
Qed.

End DecimalFacts.

Example dec_sub_20_2 :
  Dec.sub (Dec.cents 2000) (Dec.cents 200) = Dec.cents 1800.
Proof. reflexivity. Qed.

Example dec_div_tax :
  Dec.div (Dec.mul (Dec.cents 3600) (Dec.mk 75 (-1))) (Dec.cents 10000)
  = Some (Dec.mk 27 (-1)).
Proof. vm_compute. reflexivity. Qed.

Example dec_div_third :
  Dec.div (Dec.of_int 1) (Dec.of_int 3)
  = Some (Dec.mk 3333333333333333333333333333 (-28)).
Proof. vm_compute. reflexivity. Qed.

Example dec_add_rounds :
  Dec.add (Dec.mk 1 28) (Dec.of_int 1) = Dec.mk 1000000000000000000000000000 1.
Proof. vm_compute. reflexivity. Qed.

(** ** Running a computation *)

Section MonadFacts.
Context {S : Type}.

Lemma bind_ok {A B} (m : M S A) (k : A -> M S B) s a s' :
  m s = (Ok a, s') -> bind m k s = k a s'.
Proof. intros H. unfold bind. by rewrite H. Qed.

Lemma bind_raise {A B} (m : M S A) (k : A -> M S B) s e s' :
  m s = (Raise e, s') -> bind m k s = (Raise e, s').
Proof. intros H. unfold bind. by rewrite H. Qed.

Lemma atomic_ok {A} (m : M S A) s a s' :
  m s = (Ok a, s') -> atomic m s = (Ok a, s').
Proof. intros H. unfold atomic. by rewrite H. Qed.

Lemma atomic_raise {A} (m : M S A) s e s' :
  m s = (Raise e, s') -> atomic m s = (Raise e, s).
Proof. intros H. unfold atomic. by rewrite H. Qed.

End MonadFacts.

(** ** Order.save *)

Lemma order_number_taken_true (self : Order) (db : Database) :
  order_number_taken self db = true <->
  exists k row, orders db !! k = Some row /\ k <> o_id self
                /\ o_order_number row = o_order_number self.
Proof.
  unfold order_number_taken. rewrite bool_decide_eq_true, map_Exists_lookup.
  naive_solver.
Qed.

Lemma order_number_free (self : Order) (db : Database) :
  orders_wf db -> orders db !! o_id self = Some self ->
  order_number_taken self db = false.
Proof.
  intros Hwf Hself. apply not_true_is_false. rewrite order_number_taken_true.
  intros (k & row & Hrow & Hne & Hnum).
  destruct (Hwf _ _ Hself) as (_ & _ & Huniq). by apply Hne, (Huniq k row).
Qed.

Lemma Order_save_unfold (env : Env) (self : Order) (db : Database) :
  Order_save env self db =
  if order_number_taken (saved_order env self) db
  then (Raise (IntegrityError "UNIQUE constraint failed: orders.order_number"), db)
  else (Ok (saved_order env self),
        on_orders (<[o_id (saved_order env self) := saved_order env self]>) db).
Proof.
  unfold Order_save, saved_order, Model_save_Order, bind, get, modify, raise, ret.
  by destruct (order_number_taken _ db).
Qed.

(** The number [Order.save] gives an order: the date and the random draw,
    nothing of the store. *)
Lemma generate_order_number_eq env :
  generate_order_number env
  = "ORD" +:+ strftime_Ymd (now env) +:+ pretty (randint_1000_9999 env).
Proof. reflexivity. Qed.

#[local] Opaque generate_order_number Dec.add Dec.sub Dec.mul Dec.div.

Lemma saved_order_id env self : o_id (saved_order env self) = o_id self.
Proof. unfold saved_order. case_bool_decide; reflexivity. Qed.



Lemma saved_order_numbered env self :
  o_order_number self <> "" ->
  saved_order env self = with_total (order_total self) self.
Proof.
  intros H. unfold saved_order.
  case_bool_decide; [contradiction | reflexivity].
Qed.

Lemma saved_order_fields env self :
  o_subtotal (saved_order env self) = o_subtotal self
  /\ o_shipping_cost (saved_order env self) = o_shipping_cost self
  /\ o_tax_amount (saved_order env self) = o_tax_amount self
  /\ o_discount_amount (saved_order env self) = o_discount_amount self.
Proof. unfold saved_order. case_bool_decide; repeat split; reflexivity. Qed.


Lemma order_number_taken_ext (a b : Order) (db : Database) :
  o_id a = o_id b -> o_order_number a = o_order_number b ->
  order_number_taken a db = order_number_taken b db.
Proof.
  intros Hid Hnum. unfold order_number_taken. by rewrite Hid, Hnum.
Qed.

Lemma saved_order_number_new env self :
  o_order_number self = "" ->
  o_order_number (saved_order env self) = generate_order_number env.
Proof.
  intros H. unfold saved_order.
  case_bool_decide; [reflexivity | contradiction].
Qed.

Lemma saved_order_number_kept env self :
  o_order_number self <> "" ->
  o_order_number (saved_order env self) = o_order_number self.
Proof. intros H. rewrite saved_order_numbered by exact H. reflexivity. Qed.

(** C6, as the code has it. An order saved without a number gets
    ["ORD"], the date as YYYYMMDD and the random draw, whatever the store
    holds; uniqueness is left to the unique constraint: when no other
    order holds that number the order is persisted with it, and when one
    does the save raises an integrity error and the store is unchanged.
    No other number is tried. *)
Theorem order_number_generated_unchecked (env : Env) (self : Order)
    (db : Database) :
  o_order_number self = "" ->
  let number :=
    "ORD" +:+ strftime_Ymd (now env) +:+ pretty (randint_1000_9999 env) in
  (order_number_taken (with_order_number number self) db = false ->
   exists self', Order_save env self db
                 = (Ok self', on_orders (<[o_id self := self']>) db)
                 /\ o_order_number self' = number)
  /\ (order_number_taken (with_order_number number self) db = true ->
      exists msg, Order_save env self db = (Raise (IntegrityError msg), db)).
Proof.
  intros Hnone number. rewrite Order_save_unfold.
  assert (Hext : order_number_taken (saved_order env self) db
                 = order_number_taken (with_order_number number self) db).
  { apply order_number_taken_ext.
    - rewrite saved_order_id. reflexivity.
    - rewrite saved_order_number_new by exact Hnone.
      apply generate_order_number_eq. }
  rewrite Hext. split; intros ->.
  - exists (saved_order env self). rewrite saved_order_id. split; [reflexivity |].
    rewrite saved_order_number_new by exact Hnone.
    apply generate_order_number_eq.
  - eexists. reflexivity.
Qed.

(** ** OrderItem.save *)

Lemma item_total_of_columns (u d : Decimal) (q : Z) :
  Dec.is_column u -> Dec.is_column d -> 1 <= q <= 2147483647 ->
  Dec.mul (Dec.sub u d) (Dec.of_int q)
  = Dec.cents ((Dec.coef u - Dec.coef d) * q).
Proof.
  destruct u as [cu eu], d as [cd ed].
  unfold Dec.is_column; cbn [Dec.coef Dec.dexp].
  intros [-> Bu] [-> Bd] Hq.
  change (Dec.mk ?c (-2)) with (Dec.cents c).
  assert (10 ^ 10 * 2 * 2147483647 < 10 ^ Dec.prec) by (by vm_compute).
  rewrite sub_cents by lia. apply mul_cents_int.
  rewrite Z.abs_mul.
  assert (Z.abs (cu - cd) < 10 ^ 10 * 2) by lia.
  assert (Z.abs q <= 2147483647) by lia.
  assert (0 <= Z.abs (cu - cd)) by lia.
  assert (0 <= Z.abs q) by lia.
  nia.
Qed.

(** C7. Whenever [OrderItem.save] persists an item, the persisted object
    has [total_price = (unit_price - discount_amount) * quantity] in
    Decimal arithmetic, the three operands being those of the call; on
    amounts that fit the columns and a quantity that fits its integer
    column the product is exact in cents. *)
Theorem order_item_save_total_price (self self' : OrderItem)
    (db db' : Database) :
  OrderItem_save self db = (Ok self', db') ->
  oi_total_price self'
    = Dec.mul (Dec.sub (oi_unit_price self') (oi_discount_amount self'))
              (Dec.of_int (oi_quantity self'))
  /\ (oi_unit_price self', oi_discount_amount self', oi_quantity self')
     = (oi_unit_price self, oi_discount_amount self, oi_quantity self)
  /\ order_items db' !! oi_id self = Some self'
  /\ (Dec.is_column (oi_unit_price self) ->
      Dec.is_column (oi_discount_amount self) ->
      1 <= oi_quantity self <= 2147483647 ->
      oi_total_price self'
        = Dec.cents ((Dec.coef (oi_unit_price self)
                      - Dec.coef (oi_discount_amount self))
                     * oi_quantity self)).
Proof.
  unfold OrderItem_save, bind.
  destruct (snapshot_product self db) as [[snap | e] db1] eqn:Hsnap; [| done].
  assert (Hkeep : oi_id snap = oi_id self
                  /\ oi_unit_price snap = oi_unit_price self
                  /\ oi_discount_amount snap = oi_discount_amount self
                  /\ oi_quantity snap = oi_quantity self).
  { unfold snapshot_product in Hsnap.
    destruct (oi_variant self) as [vid |]; [| by inversion Hsnap].
    case_bool_decide; [| by inversion Hsnap].
    unfold bind in Hsnap.
    destruct (variant_with_product vid db) as [[vp | e] db2]; [| done].
    by inversion Hsnap. }
  destruct Hkeep as (Hid & Hu & Hd & Hq).
  unfold modify, ret. intros [= <- <-]. cbn [oi_total_price oi_unit_price
    oi_discount_amount oi_quantity with_total_price order_items on_order_items
    oi_id].
  unfold item_total. rewrite Hu, Hd, Hq, <- Hid. split_and!; try reflexivity.
  - apply lookup_insert_eq.
  - intros. by apply item_total_of_columns.
Qed.

(** ** Address.save *)

Section AddressFacts.

Lemma Address_save_eq (self : Address) (db : Database) :
  Address_save self db = (Ok tt, on_addresses (saved_addresses self) db).
Proof.
  unfold Address_save, saved_addresses, bind, modify, ret, on_addresses.
  by destruct (a_is_default self && bool_decide (is_Some (a_user self))).
Qed.

Lemma save_addresses_eq (l : list Address) (db : Database) :
  save_addresses l db
  = (Ok tt, on_addresses
              (fun m => foldl (fun m a => saved_addresses a m) m l) db).
Proof.
  revert db. induction l as [| a l IH]; intros db.
  - by destruct db.
  - unfold save_addresses in *. cbn [for_each].
    rewrite (bind_ok _ _ _ _ _ (Address_save_eq a db)), IH.
    by destruct db.
Qed.

Lemma clear_keeps (self row : Address) :
  a_id (clear_default_address self row) = a_id row
  /\ a_user (clear_default_address self row) = a_user row
  /\ a_address_type (clear_default_address self row) = a_address_type row.
Proof. unfold clear_default_address. by destruct (_ && _). Qed.

(** A row that is still a default after the clearing was one before,
    was left alone, and is not a sibling of [self]. *)
Lemma clear_default_survives (self row : Address) :
  a_is_default (clear_default_address self row) = true ->
  clear_default_address self row = row
  /\ a_is_default row = true
  /\ ~ (a_user row = a_user self
        /\ a_address_type row = a_address_type self
        /\ a_id row <> a_id self).
Proof.
  unfold clear_default_address.
  destruct (bool_decide (a_user row = a_user self)) eqn:E1;
    destruct (bool_decide (a_address_type row = a_address_type self)) eqn:E2;
    destruct (a_is_default row) eqn:Hdef;
    destruct (bool_decide (a_id row = a_id self)) eqn:E3;
    cbn; rewrite ?Hdef; intros Hs; try discriminate Hs;
    (split; [reflexivity |]); (split; [reflexivity |]);
    intros (Hu & Ht & Hi);
    try (apply bool_decide_eq_false in E1; contradiction);
    try (apply bool_decide_eq_false in E2; contradiction);
    try (apply bool_decide_eq_true in E3; contradiction).
Qed.

Lemma saved_addresses_lookup (self : Address) (m : gmap uuid Address) k b :
  saved_addresses self m !! k = Some b ->
  (k = a_id self /\ b = self)
  \/ (k <> a_id self
      /\ exists b0, m !! k = Some b0
         /\ a_id b = a_id b0 /\ a_user b = a_user b0
         /\ a_address_type b = a_address_type b0
         /\ (a_is_default b = true ->
             b = b0
             /\ ~ (a_is_default self = true /\ a_user self = a_user b0
                   /\ is_Some (a_user self)
                   /\ a_address_type b0 = a_address_type self
                   /\ a_id b0 <> a_id self))).
Proof.
  unfold saved_addresses. intros Hb.
  destruct (decide (k = a_id self)) as [-> | Hne].
  { rewrite lookup_insert_eq in Hb. left. naive_solver. }
  rewrite lookup_insert_ne in Hb by done. right. split; [done |].
  destruct (a_is_default self) eqn:Hdef; cbn [andb] in Hb;
    [case_bool_decide as Hu; cbn in Hb |]; try (exists b; naive_solver).
  rewrite lookup_fmap in Hb.
  destruct (m !! k) as [b0 |] eqn:Hb0; [| done].
  injection Hb as <-. exists b0.
  destruct (clear_keeps self b0) as (Hi & Hus & Ht).
  split_and!; try done.
  intros Hd. destruct (clear_default_survives _ _ Hd) as (He & _ & Hn).
  split; [done |]. naive_solver.
Qed.

Lemma saved_addresses_wf (self : Address) (m : gmap uuid Address) :
  addresses_wf m -> addresses_wf (saved_addresses self m).
Proof.
  intros Hwf k b Hb.
  destruct (saved_addresses_lookup _ _ _ _ Hb)
    as [[-> ->] | (_ & b0 & Hb0 & Hid & _)]; [done |].
  rewrite Hid. by apply Hwf.
Qed.

Lemma saved_addresses_one_default (self : Address) (m : gmap uuid Address)
    (u : uuid) (t : address_type) :
  addresses_wf m -> one_default m (Some u) t ->
  one_default (saved_addresses self m) (Some u) t.
Proof.
  intros Hwf Hone i j a b Ha Hb Hua Hub Hta Htb Hda Hdb.
  destruct (saved_addresses_lookup _ _ _ _ Ha)
    as [[-> ->] | (Hi & a0 & Ha0 & Hida & Hua0 & Hta0 & Hsa)];
  destruct (saved_addresses_lookup _ _ _ _ Hb)
    as [[-> ->] | (Hj & b0 & Hb0 & Hidb & Hub0 & Htb0 & Hsb)];
    try done.
  - destruct (Hsb Hdb) as (-> & Hn). exfalso. apply Hn.
    pose proof (Hwf _ _ Hb0) as Hk.
    split_and!; [done | congruence | by rewrite Hua | congruence | congruence].
  - destruct (Hsa Hda) as (-> & Hn). exfalso. apply Hn.
    pose proof (Hwf _ _ Ha0) as Hk.
    split_and!; [done | congruence | by rewrite Hub | congruence | congruence].
  - destruct (Hsa Hda) as (Ea & _), (Hsb Hdb) as (Eb & _). subst a b.
    by apply (Hone i j a0 b0).
Qed.

Lemma saved_addresses_clears (self : Address) (m : gmap uuid Address) k b :
  addresses_wf m ->
  a_is_default self = true -> is_Some (a_user self) ->
  saved_addresses self m !! k = Some b -> k <> a_id self ->
  a_user b = a_user self -> a_address_type b = a_address_type self ->
  a_is_default b = false.
Proof.
  intros Hwf Hd Hu Hb Hk Hbu Hbt.
  destruct (saved_addresses_lookup _ _ _ _ Hb)
    as [[-> ->] | (_ & b0 & Hb0 & Hid & Hub & Htb & Hs)]; [done |].
  apply not_true_is_false. intros Hdb.
  destruct (Hs Hdb) as (-> & Hn). apply Hn.
  pose proof (Hwf _ _ Hb0) as Hk0.
  split_and!; [done | congruence | done | done | congruence].
Qed.

End AddressFacts.

(** C9, for addresses that have an owner. From a store with at most one
    default address per user and type, any sequence of [Address.save]
    leaves at most one default address for every user and every type; and
    saving a default address of a user leaves every other address of that
    user and type non-default. *)
Theorem address_default_unique_per_user (db : Database) (l : list Address) :
  addresses_wf (addresses db) ->
  (forall u t, one_default (addresses db) (Some u) t) ->
  exists db',
    save_addresses l db = (Ok tt, db')
    /\ addresses_wf (addresses db')
    /\ (forall u t, one_default (addresses db') (Some u) t)
    /\ forall self db'',
         a_is_default self = true -> is_Some (a_user self) ->
         Address_save self db' = (Ok tt, db'') ->
         forall k b, addresses db'' !! k = Some b -> k <> a_id self ->
           a_user b = a_user self ->
           a_address_type b = a_address_type self ->
           a_is_default b = false.
Proof.
  intros Hwf Hone. rewrite save_addresses_eq. eexists; split; [reflexivity |].
  unfold on_addresses; cbn [addresses].
  assert (Hinv : addresses_wf (foldl (fun m a => saved_addresses a m)
                                     (addresses db) l)
                 /\ forall u t, one_default
                      (foldl (fun m a => saved_addresses a m) (addresses db) l)
                      (Some u) t).
  { generalize dependent (addresses db). clear db.
    induction l as [| a l IH]; intros m Hwf Hone; [done |].
    cbn [foldl]. apply IH.
    - by apply saved_addresses_wf.
    - intros u t. by apply saved_addresses_one_default. }
  destruct Hinv as [Hwf' Hone']. split_and!; try done.
  intros self db'' Hd Hu. rewrite Address_save_eq. intros [= <-].
  unfold on_addresses; cbn [addresses]. intros k b Hb Hk.
  intros Hbu Hbt. by eapply saved_addresses_clears.
Qed.

(** ** The order lookup *)

Section LookupFacts.

Lemma order_by_number_Some (number : string) (db : Database) (o : Order) :
  order_by_number number db = Some o ->
  o_order_number o = number /\ exists k, orders db !! k = Some o.
Proof.
  unfold order_by_number. intros H. apply find_some in H as [Hin Hnum].
  apply bool_decide_eq_true in Hnum. split; [exact Hnum |].
  apply list_elem_of_In, list_elem_of_fmap in Hin as ([k o'] & -> & Hin).
  exists k. by apply elem_of_map_to_list in Hin.
Qed.

Lemma order_by_number_None (number : string) (db : Database) k (o : Order) :
  order_by_number number db = None -> orders db !! k = Some o ->
  o_order_number o <> number.
Proof.
  unfold order_by_number. intros H Hk Hnum.
  assert (Hin : In o (map_to_list (orders db)).*2).
  { apply list_elem_of_In, list_elem_of_fmap. exists (k, o).
    split; [reflexivity |]. by apply elem_of_map_to_list. }
  pose proof (find_none _ _ H o Hin) as Hf. cbn beta in Hf.
  by rewrite bool_decide_eq_true_2 in Hf.
Qed.

(** What [find_order] answers, and that it leaves the store alone. *)
Lemma find_order_Ok (order_id : string) (db db' : Database) (o : Order) :
  find_order order_id db = (Ok o, db') ->
  db' = db
  /\ (orders db !! order_id = Some o
      \/ (orders db !! order_id = None /\ o_order_number o = order_id
          /\ exists k, orders db !! k = Some o)).
Proof.
  unfold find_order, bind, get, ret, raise.
  destruct (orders db !! order_id) as [o1 |] eqn:Hid.
  - intros [= -> ->]. auto.
  - destruct (order_by_number order_id db) as [o1 |] eqn:Hnum; [| done].
    intros [= -> ->]. apply order_by_number_Some in Hnum. naive_solver.
Qed.

Lemma find_order_in (order_id : string) (db db' : Database) (o : Order) :
  orders_wf db -> find_order order_id db = (Ok o, db') ->
  orders db !! o_id o = Some o.
Proof.
  intros Hwf H. apply find_order_Ok in H as (_ & [H | (_ & _ & k & H)]).
  - by rewrite (proj1 (Hwf _ _ H)).
  - by rewrite (proj1 (Hwf _ _ H)).
Qed.


(** Saving an order of the store again under its number: the constraint
    holds and the row is replaced. *)
Lemma Order_save_existing (env : Env) (o o2 : Order) (db : Database) :
  orders_wf db -> orders db !! o_id o = Some o ->
  o_id o2 = o_id o -> o_order_number o2 = o_order_number o ->
  Order_save env o2 db
  = (Ok (with_total (order_total o2) o2),
     on_orders (<[o_id o := with_total (order_total o2) o2]>) db).
Proof.
  intros Hwf Ho Hid Hnum. rewrite Order_save_unfold.
  destruct (Hwf _ _ Ho) as (_ & Hnonempty & _).
  rewrite saved_order_numbered by (by rewrite Hnum).
  rewrite (order_number_taken_ext _ o) by (cbn; done).
  rewrite order_number_free by done. cbn [o_id with_total]. by rewrite Hid.
Qed.

(** The invariant of the order table is kept by every save that goes
    through. *)
Lemma Order_save_preserves_wf (env : Env) (self self' : Order)
    (db db' : Database) :
  orders_wf db -> Order_save env self db = (Ok self', db') -> orders_wf db'.
Proof.
  intros Hwf. rewrite Order_save_unfold.
  destruct (order_number_taken _ db) eqn:Htaken; [done |].
  intros [= <- <-].
  assert (Hnum : o_order_number (saved_order env self) <> "").
  { destruct (decide (o_order_number self = "")) as [He | Hne].
    - rewrite saved_order_number_new by exact He.
      rewrite generate_order_number_eq. discriminate.
    - by rewrite saved_order_number_kept. }
  assert (Hfree : forall k row, orders db !! k = Some row ->
            k <> o_id (saved_order env self) ->
            o_order_number row <> o_order_number (saved_order env self)).
  { intros k row Hrow Hk Heq.
    apply not_true_iff_false in Htaken. apply Htaken.
    apply order_number_taken_true. by exists k, row. }
  intros k o Hk. unfold on_orders in *; cbn [orders] in *.
  destruct (decide (k = o_id (saved_order env self))) as [-> | Hne].
  - rewrite lookup_insert_eq in Hk. injection Hk as <-.
    split_and!; [reflexivity | exact Hnum |].
    intros k' o' Hk' Heq.
    destruct (decide (k' = o_id (saved_order env self))) as [-> | Hne'];
      [reflexivity |].
    rewrite lookup_insert_ne in Hk' by done.
    by destruct (Hfree k' o' Hk' Hne').
  - rewrite lookup_insert_ne in Hk by done.
    destruct (Hwf k o Hk) as (Hid & Hno & Huniq).
    split_and!; [exact Hid | exact Hno |].
    intros k' o' Hk' Heq.
    destruct (decide (k' = o_id (saved_order env self))) as [-> | Hne'].
    + rewrite lookup_insert_eq in Hk'. injection Hk' as <-.
      destruct (Hfree k o Hk Hne). by symmetry.
    + rewrite lookup_insert_ne in Hk' by done. by apply (Huniq k' o').
Qed.

End LookupFacts.

(** ** update_payment_status *)



(** ** cancel_order *)

Section CancelFacts.

Lemma save_stock_eq (self : ProductVariant) (db : Database) :
  ProductVariant_save_stock self db
  = (Ok tt,
     on_variants
       (fun m => alter (with_stock (v_stock self)) (v_id self)
                   (if v_is_default self
                    then clear_default_variant self <$> m else m)) db).
Proof.
  unfold ProductVariant_save_stock, bind, modify, ret, on_variants.
  by destruct (v_is_default self).
Qed.

Lemma increase_stock_eq (self : ProductVariant) (q : Z) (db : Database) :
  increase_stock self q db
  = (Ok (with_stock (v_stock self + q) self),
     on_variants
       (fun m => alter (with_stock (v_stock self + q)) (v_id self)
                   (if v_is_default self
                    then clear_default_variant self <$> m else m)) db).
Proof.
  unfold increase_stock.
  by rewrite (bind_ok _ _ _ _ _ (save_stock_eq _ db)).
Qed.

Lemma clear_variant_keeps (self row : ProductVariant) :
  v_id (clear_default_variant self row) = v_id row
  /\ v_stock (clear_default_variant self row) = v_stock row.
Proof. unfold clear_default_variant. by destruct (_ && _). Qed.

(** The rows after a stock write: the written row carries the new stock,
    every row keeps its key, every other row keeps its stock. *)
Lemma stock_written_lookup (self : ProductVariant) (x : Z)
    (m : gmap uuid ProductVariant) (k : uuid) :
  let m' := alter (with_stock x) (v_id self)
              (if v_is_default self
               then clear_default_variant self <$> m else m) in
  v_stock <$> (m' !! k)
  = (fun s => if decide (k = v_id self) then x else s) <$> (v_stock <$> (m !! k))
  /\ v_id <$> (m' !! k) = v_id <$> (m !! k).
Proof.
  cbv zeta.
  set (m0 := if v_is_default self then clear_default_variant self <$> m else m).
  assert (Hclear : v_stock <$> (m0 !! k) = v_stock <$> (m !! k)
                   /\ v_id <$> (m0 !! k) = v_id <$> (m !! k)).
  { unfold m0. destruct (v_is_default self); [| done]. rewrite lookup_fmap.
    destruct (m !! k) as [row |]; [| done]. cbn.
    by destruct (clear_variant_keeps self row) as [-> ->]. }
  destruct Hclear as [Hs Hi].
  destruct (decide (k = v_id self)) as [-> | Hne].
  - rewrite lookup_alter_eq.
    destruct (m0 !! v_id self) as [row |], (m !! v_id self) as [row0 |];
      cbn in *; try discriminate; [| done].
    split; [reflexivity | exact Hi].
  - rewrite lookup_alter_ne by done. rewrite Hs, Hi. split; [| reflexivity].
    by destruct (m !! k).
Qed.

(** The stock loop always runs to its end, touches the variant table
    only, and gives every variant the quantity the items order of it. *)
Lemma restore_stock_spec (items : list OrderItem)
    (objects : gmap uuid ProductVariant) (db : Database) :
  variants_wf objects ->
  (forall k, v_stock <$> (objects !! k) = v_stock <$> (variants db !! k)) ->
  exists db',
    restore_stock items objects db = (Ok tt, db')
    /\ products db' = products db /\ addresses db' = addresses db
    /\ orders db' = orders db /\ order_items db' = order_items db
    /\ (forall k, v_id <$> (variants db' !! k) = v_id <$> (variants db !! k))
    /\ forall k, v_stock <$> (variants db' !! k)
                 = (fun s => s + quantity_of k items)
                     <$> (v_stock <$> (variants db !! k)).
Proof.
  revert objects db. induction items as [| item rest IH]; intros objects db Hwf Hsync.
  - exists db. cbn [restore_stock quantity_of]. split_and!; [done.. |].
    intros k. destruct (variants db !! k); cbn; [f_equal; lia | done].
  - cbn [restore_stock quantity_of].
    destruct (oi_variant item) as [vid |] eqn:Hvar; last first.
    { destruct (IH objects db Hwf Hsync) as (db' & Hrun & ? & ? & ? & ? & ? & Hst).
      exists db'. split_and!; [done.. |].
      intros k. rewrite Hst. rewrite bool_decide_eq_false_2 by done.
      destruct (variants db !! k); cbn; [f_equal; lia | done]. }
    destruct (objects !! vid) as [variant |] eqn:Hobj; last first.
    { destruct (IH objects db Hwf Hsync) as (db' & Hrun & ? & ? & ? & ? & ? & Hst).
      exists db'. split_and!; [done.. |].
      intros k. rewrite Hst.
      destruct (variants db !! k) as [row |] eqn:Hrow; cbn; [| done].
      case_bool_decide as Hk; [| f_equal; lia].
      injection Hk as <-. specialize (Hsync vid).
      rewrite Hobj, Hrow in Hsync. done. }
    pose proof (Hwf _ _ Hobj) as Hvid.
    rewrite (bind_ok _ _ _ _ _ (increase_stock_eq variant (oi_quantity item) db)).
    set (x := v_stock variant + oi_quantity item).
    set (db1 := on_variants _ db).
    assert (Hlook : forall k,
      v_stock <$> (variants db1 !! k)
      = (fun s => if decide (k = vid) then x else s) <$> (v_stock <$> (variants db !! k))
      /\ v_id <$> (variants db1 !! k) = v_id <$> (variants db !! k)).
    { intros k. unfold db1, on_variants; cbn [variants]. rewrite <- Hvid.
      apply stock_written_lookup. }
    destruct (IH (<[vid := with_stock x variant]> objects) db1)
      as (db' & Hrun & ? & ? & ? & ? & Hids & Hst).
    + intros k v. destruct (decide (k = vid)) as [-> | Hne].
      * rewrite lookup_insert_eq. intros [= <-]. exact Hvid.
      * rewrite lookup_insert_ne by done. apply Hwf.
    + intros k. rewrite (proj1 (Hlook k)).
      destruct (decide (k = vid)) as [-> | Hne].
      * rewrite lookup_insert_eq. rewrite <- Hsync, Hobj. reflexivity.
      * rewrite lookup_insert_ne by done. rewrite Hsync.
        by destruct (variants db !! k).
    + exists db'. split_and!; try done.
      * intros k. rewrite Hids. apply Hlook.
      * intros k. rewrite Hst, (proj1 (Hlook k)).
        specialize (Hsync k).
        destruct (variants db !! k) as [row |] eqn:Hrow; cbn; [| done].
        f_equal. case_decide as Hk.
        -- subst k. rewrite bool_decide_eq_true_2 by done.
           rewrite Hobj in Hsync. cbn in Hsync. injection Hsync as Hs.
           unfold x. lia.
        -- rewrite bool_decide_eq_false_2 by congruence. lia.
Qed.


End CancelFacts.

Section CancelOrder.


(** [cancel_order] on an order the lookup finds: the permission test, the
    state test, then the transaction. *)
Lemma cancel_order_eq (env : Env) (order_id : string) (user : option User)
    (reason : string) (db : Database) (o : Order) :
  find_order order_id db = (Ok o, db) ->
  cancel_order env order_id user reason db =
  if denied user o
  then (Raise (PermissionDenied "You don't have permission to cancel this order"), db)
  else if negb (can_cancel o) then (Raise InvalidState, db)
  else atomic (do restore_stock (items_of o db) (variants db) in
               Order_save env (cancelled_order env user reason o)) db.
Proof.
  intros Hfind. unfold cancel_order. rewrite (bind_ok _ _ _ _ _ Hfind).
  unfold bind at 1, get. unfold denied.
  destruct user as [u |].
  - destruct (negb (is_staff u) && negb (bool_decide (o_user o = Some (user_id u))));
      [reflexivity |].
    unfold bind at 1, ret. by destruct (can_cancel o).
  - unfold bind at 1, ret. by destruct (can_cancel o).
Qed.

Lemma cancelled_order_keeps env user reason o :
  o_id (cancelled_order env user reason o) = o_id o
  /\ o_order_number (cancelled_order env user reason o) = o_order_number o
  /\ o_user (cancelled_order env user reason o) = o_user o
  /\ o_status (cancelled_order env user reason o) = STATUS_CANCELLED
  /\ o_cancelled_at (cancelled_order env user reason o) = Some (now env).
Proof.
  unfold cancelled_order. destruct (negb (bool_decide (reason = "")));
    repeat split; reflexivity.
Qed.

(** The transaction of [cancel_order] commits. *)
Lemma cancel_order_commits (env : Env) (order_id : string)
    (user : option User) (reason : string) (db : Database) (o : Order) :
  orders_wf db -> variants_wf (variants db) ->
  find_order order_id db = (Ok o, db) ->
  denied user o = false -> can_cancel o = true ->
  let c := cancelled_order env user reason o in
  let o' := with_total (order_total c) c in
  exists db1,
    restore_stock (items_of o db) (variants db) db = (Ok tt, db1)
    /\ cancel_order env order_id user reason db
       = (Ok o', on_orders (<[o_id o := o']>) db1).
Proof.
  intros Hwf Hvwf Hfind Hden Hcan c o'.
  rewrite (cancel_order_eq _ _ _ _ _ _ Hfind), Hden, Hcan. cbn [negb].
  destruct (restore_stock_spec (items_of o db) (variants db) db Hvwf)
    as (db1 & Hrun & _ & _ & Horders & _); [done |].
  exists db1. split; [exact Hrun |].
  apply atomic_ok. rewrite (bind_ok _ _ _ _ _ Hrun).
  destruct (cancelled_order_keeps env user reason o) as (Hid & Hnum & _).
  apply (Order_save_existing env o).
  - unfold orders_wf. rewrite Horders. exact Hwf.
  - rewrite Horders. by apply (find_order_in order_id db db).
  - exact Hid.
  - exact Hnum.
Qed.

(** After an order of the store was replaced by one with its key and
    number, the lookup that found the old one finds the new one. *)
Lemma find_order_replaced (order_id : string) (db db1 : Database) (o o' : Order) :
  orders_wf db -> find_order order_id db = (Ok o, db) ->
  orders db1 = orders db ->
  o_id o' = o_id o -> o_order_number o' = o_order_number o ->
  let db' := on_orders (<[o_id o := o']>) db1 in
  find_order order_id db' = (Ok o', db').
Proof.
  intros Hwf Hfind Horders Hid Hnum db'.
  pose proof (find_order_in _ _ _ _ Hwf Hfind) as Ho.
  assert (Hrows : forall k, orders db' !! k
                            = if decide (o_id o = k) then Some o' else orders db !! k).
  { intros k. unfold db', on_orders; cbn [orders].
    rewrite Horders. apply lookup_insert. }
  apply find_order_Ok in Hfind as (_ & [Hk | (Hnone & Hn & _)]).
  - unfold find_order, bind, get, ret. rewrite Hrows.
    rewrite (proj1 (Hwf _ _ Hk)). by rewrite decide_True.
  - assert (Hne : o_id o <> order_id) by congruence.
    unfold find_order, bind, get, ret. rewrite Hrows, decide_False, Hnone by done.
    destruct (order_by_number order_id db') as [x |] eqn:Hx.
    + apply order_by_number_Some in Hx as (Hxn & k & Hxk).
      rewrite Hrows in Hxk. case_decide as Hkk; [congruence |].
      destruct (Hwf _ _ Ho) as (_ & _ & Huniq).
      exfalso. apply Hkk. symmetry. apply (Huniq k x Hxk). congruence.
    + exfalso. apply (order_by_number_None _ _ (o_id o) o' Hx).
      * by rewrite Hrows, decide_True.
      * congruence.
Qed.

End CancelOrder.




(** ** create_order_from_data: the checks before the store is read *)

Section CreateChecks.

Lemma normalized_str (data : OrderData) :
  d_str (normalize_order_data data) = d_str data.
Proof. unfold normalize_order_data. by destruct (d_use_separate_billing data). Qed.

Lemma filter_nil_forallb {A} (P : A -> bool) (l : list A) :
  List.filter P l = [] -> forallb (fun x => negb (P x)) l = true.
Proof.
  induction l as [| a l IH]; cbn; [done |].
  destruct (P a); [done |]. cbn. exact IH.
Qed.

Lemma filter_neg_nil_forallb {A} (P : A -> bool) (l : list A) :
  List.filter (fun x => negb (P x)) l = [] -> forallb P l = true.
Proof.
  induction l as [| a l IH]; cbn; [done |].
  destruct (P a); cbn; [exact IH | done].
Qed.

(** The body up to the user/guest check. *)
Lemma create_order_guest_check (env : Env) (data : OrderData)
    (user : option User) (db : Database) :
  guest_consistent user data = false ->
  exists msg,
    create_order_body env data user db = (Raise (ValidationError msg), db).
Proof.
  intros Hguest. unfold create_order_body, validate_order_data.
  cbv beta iota zeta.
  destruct (bool_decide (length (validation_errors data) = 0%nat));
    cbn [negb]; [| by eexists].
  unfold bind at 1. unfold check_guest_consistency. rewrite normalized_str.
  unfold guest_consistent in Hguest.
  destruct (authenticated user).
  - destruct (bool_decide (List.filter _ guest_fields = [])) eqn:Hnil;
      cbn [negb]; [| by eexists].
    apply bool_decide_eq_true, filter_nil_forallb in Hnil. congruence.
  - destruct (bool_decide (List.filter _ guest_fields = [])) eqn:Hnil;
      cbn [negb]; [| by eexists].
    apply bool_decide_eq_true, filter_neg_nil_forallb in Hnil. congruence.
Qed.

End CreateChecks.

(** C5. With an authenticated user and any of the four guest fields
    populated, and with no authenticated user and any of the four guest
    fields missing or empty, [create_order_from_data] raises a
    [ValidationError] and leaves the store as it was. *)
Theorem guest_user_exclusivity (env : Env) (data : OrderData)
    (user : option User) (db : Database) (field : string) :
  field ∈ guest_fields ->
  (authenticated user = true /\ truthy (d_str data !! field) = true)
  \/ (authenticated user = false /\ truthy (d_str data !! field) = false) ->
  exists msg,
    create_order_from_data env data user db = (Raise (ValidationError msg), db).
Proof.
  intros Hin Hcase.
  destruct (create_order_guest_check env data user db) as (msg & Hbody).
  - unfold guest_consistent. apply list_elem_of_In in Hin.
    destruct Hcase as [[-> Ht] | [-> Ht]]; apply not_true_is_false; intros Hall;
      rewrite forallb_forall in Hall; specialize (Hall _ Hin);
      rewrite Ht in Hall; discriminate.
  - exists msg. unfold create_order_from_data. by apply (atomic_raise _ _ _ db).
Qed.

(** ** create_order_from_data: addresses and line items *)

Section CreateFacts.

Lemma flat_map_nil {A B} (g : A -> list B) (l : list A) :
  flat_map g l = [] -> forall x, In x l -> g x = [].
Proof.
  induction l as [| a l IH]; cbn; [done |].
  intros H x [-> | Hin]; apply app_eq_nil in H as [Ha Hl]; auto.
Qed.

(** An address object with no validation error has its required members. *)
Lemma address_errors_nil (label : string) (a : AddressData) (field : string) :
  address_errors label a = [] -> In field required_address_fields ->
  exists v, ad_str a !! field = Some v.
Proof.
  intros Hnil Hin. pose proof (flat_map_nil _ _ Hnil field Hin) as Hf.
  cbn beta in Hf. unfold truthy in Hf.
  destruct (ad_str a !! field) as [v |]; [by exists v | done].
Qed.

Lemma getitem_ok {S} (d : gmap string string) (key v : string) (s : S) :
  d !! key = Some v -> getitem d key s = (Ok v, s).
Proof. intros H. unfold getitem. by rewrite H. Qed.

Lemma same_but_addresses_refl db : same_but_addresses db db.
Proof. done. Qed.

Lemma same_but_addresses_trans db1 db2 db3 :
  same_but_addresses db1 db2 -> same_but_addresses db2 db3 ->
  same_but_addresses db1 db3.
Proof. unfold same_but_addresses. intros (?&?&?&?) (?&?&?&?). split_and!; congruence. Qed.

Lemma getitem_frame {S} (d : gmap string string) (key : string) (s s' : S) r :
  getitem d key s = (r, s') -> s' = s.
Proof. unfold getitem. destruct (d !! key); by intros [= _ <-]. Qed.

(** Whatever it answers, address resolution writes addresses only. *)
Lemma create_or_get_address_frame (env : Env) (ad : AddressData)
    (user : option User) (t : address_type) (db db' : Database) r :
  _create_or_get_address env ad user t db = (r, db') ->
  same_but_addresses db db'.
Proof.
  unfold _create_or_get_address.
  assert (Hcreate : forall db0 r0 db0',
    (let* first_name := getitem (ad_str ad) "first_name" in
     let* last_name := getitem (ad_str ad) "last_name" in
     let* phone := getitem (ad_str ad) "phone" in
     let* email := getitem (ad_str ad) "email" in
     let* address_line1 := getitem (ad_str ad) "address_line1" in
     let* city := getitem (ad_str ad) "city" in
     let* state := getitem (ad_str ad) "state" in
     let* postal_code := getitem (ad_str ad) "postal_code" in
     let* country := getitem (ad_str ad) "country" in
     let* db := get in
     let address :=
       {| a_id := uuid4 (addresses db); a_user := user_id <$> user;
          a_address_type := t;
          a_first_name := first_name; a_last_name := last_name;
          a_company := default "" (ad_str ad !! "company");
          a_phone := phone; a_email := email;
          a_address_line1 := address_line1;
          a_address_line2 := default "" (ad_str ad !! "address_line2");
          a_city := city; a_state := state; a_postal_code := postal_code;
          a_country := country;
          a_instructions := default "" (ad_str ad !! "instructions");
          a_is_default := default false (ad_is_default ad);
          a_is_active := true; a_created_at := now env |} in
     do Address_save address in
     ret address) db0 = (r0, db0') -> same_but_addresses db0 db0').
  { intros db0 r0 db0'. unfold bind, getitem, get, ret, raise.
    repeat (match goal with
            | |- context [ad_str ad !! ?k] =>
                lazymatch k with
                | "company" => fail
                | "address_line2" => fail
                | "instructions" => fail
                | _ => destruct (ad_str ad !! k)
                end
            end; [| by intros [= _ <-]]).
    rewrite Address_save_eq. by intros [= _ <-]. }
  destruct (authenticated user).
  - unfold bind at 1.
    destruct ((let* first_name := getitem (ad_str ad) "first_name" in _) db)
      as [[existing | e] db1] eqn:Hex.
    + assert (db1 = db) as ->.
      { revert Hex. unfold bind, getitem, get, ret, raise.
        repeat (match goal with
                | |- context [match ad_str ad !! ?k with _ => _ end] =>
                    destruct (ad_str ad !! k)
                end; [| by intros [= ]]).
        by intros [= _ <-]. }
      destruct existing as [a |]; [by intros [= _ <-] |]. apply Hcreate.
    + intros [= _ <-]. revert Hex. unfold bind, getitem, get, ret, raise.
      repeat (match goal with
              | |- context [match ad_str ad !! ?k with _ => _ end] =>
                  destruct (ad_str ad !! k)
              end; [| by intros [= _ <-]]).
      done.
  - unfold bind at 1, ret. apply Hcreate.
Qed.

(** With its required members present, address resolution returns. *)
Lemma create_or_get_address_ok (env : Env) (label : string) (ad : AddressData)
    (user : option User) (t : address_type) (db : Database) :
  address_errors label ad = [] ->
  exists a db', _create_or_get_address env ad user t db = (Ok a, db')
                /\ same_but_addresses db db'.
Proof.
  intros Hnil.
  assert (Hreq : forall field, In field required_address_fields ->
                   exists v, ad_str ad !! field = Some v)
    by (intros; by eapply address_errors_nil).
  destruct (Hreq "first_name") as [v1 H1]; [cbn; tauto |].
  destruct (Hreq "last_name") as [v2 H2]; [cbn; tauto |].
  destruct (Hreq "phone") as [v3 H3]; [cbn; tauto |].
  destruct (Hreq "email") as [v4 H4]; [cbn; tauto |].
  destruct (Hreq "address_line1") as [v5 H5]; [cbn; tauto |].
  destruct (Hreq "city") as [v6 H6]; [cbn; tauto |].
  destruct (Hreq "state") as [v7 H7]; [cbn; tauto |].
  destruct (Hreq "postal_code") as [v8 H8]; [cbn; tauto |].
  destruct (Hreq "country") as [v9 H9]; [cbn; tauto |].
  destruct (_create_or_get_address env ad user t db) as [[a | e] db'] eqn:Hrun.
  { exists a, db'. split; [reflexivity |].
    by eapply create_or_get_address_frame. }
  exfalso. revert Hrun.
  unfold _create_or_get_address, bind, getitem, get, ret, raise.
  rewrite H1, H2, H3, H4, H5, H6, H7, H8, H9.
  destruct (authenticated user); [destruct (first_address _) |];
    rewrite ?Address_save_eq; discriminate.
Qed.

Lemma get_published_variant_frame (vid : uuid) (db db' : Database) :
  same_but_addresses db db' ->
  get_published_variant vid db' = get_published_variant vid db.
Proof.
  intros (Hp & Hv & _). unfold get_published_variant. by rewrite Hp, Hv.
Qed.

Lemma purchasable_frame (db db' : Database) (item : ItemData) :
  same_but_addresses db db' -> purchasable db' item = purchasable db item.
Proof.
  intros H. unfold purchasable.
  destruct (it_variant_id item); [| done].
  by rewrite (get_published_variant_frame _ _ _ H).
Qed.

(** The first loop reads the store and leaves it alone. *)
Lemma collect_items_frame (items : list ItemData) (subtotal : Decimal)
    (acc : list ItemEntry) (db db' : Database) r :
  collect_items items subtotal acc db = (r, db') -> db' = db.
Proof.
  revert subtotal acc. induction items as [| item rest IH]; intros subtotal acc.
  - by intros [= _ <-].
  - cbn [collect_items]. unfold bind, get, ret, raise.
    destruct (it_variant_id item) as [vid |]; [| by intros [= _ <-]].
    destruct (get_published_variant vid db) as [[v p] |]; [| by intros [= _ <-]].
    destruct (v_stock v <? _); [by intros [= _ <-] |]. apply IH.
Qed.

(** The first loop stops at the first line item that asks more than the
    stock, with the error that names its SKU and the two quantities. *)
Lemma collect_items_insufficient (pre rest : list ItemData) (item : ItemData)
    (subtotal : Decimal) (acc : list ItemEntry) (db : Database)
    (vid : uuid) (v : ProductVariant) (p : Product) :
  forallb (purchasable db) pre = true ->
  it_variant_id item = Some vid ->
  get_published_variant vid db = Some (v, p) ->
  v_stock v < default 1 (it_quantity item) ->
  collect_items (pre ++ item :: rest) subtotal acc db
  = (Raise (InsufficientStock (v_sku v) (v_stock v)
                              (default 1 (it_quantity item))), db).
Proof.
  intros Hpre Hvid Hget Hlt. revert subtotal acc.
  induction pre as [| i pre IH]; intros subtotal acc.
  - cbn [app collect_items]. unfold bind, get, ret, raise.
    rewrite Hvid, Hget.
    destruct (Z.ltb_spec (v_stock v) (default 1 (it_quantity item))); [done | lia].
  - cbn [forallb] in Hpre. apply andb_true_iff in Hpre as [Hi Hpre].
    cbn [app collect_items]. unfold bind, get, ret, raise.
    unfold purchasable in Hi.
    destruct (it_variant_id i) as [vid' |]; [| done].
    destruct (get_published_variant vid' db) as [[v' p'] |]; [| done].
    destruct (v_stock v' <? _); [done |]. by apply IH.
Qed.

(** A list with a line item over the stock of its variant never gets
    through the first loop. *)
Lemma collect_items_over_stock (items : list ItemData) (item : ItemData)
    (subtotal : Decimal) (acc : list ItemEntry) (db : Database) :
  In item items -> over_stock db item ->
  exists e, collect_items items subtotal acc db = (Raise e, db).
Proof.
  intros Hin (vid & v & Hvid & Hv & Hlt). revert subtotal acc.
  induction items as [| i rest IH]; intros subtotal acc; [destruct Hin |].
  cbn [collect_items]. unfold bind, get, ret, raise.
  destruct Hin as [-> | Hin].
  - rewrite Hvid. unfold get_published_variant. rewrite Hv.
    destruct (products db !! v_product v) as [p |]; [| by eexists].
    destruct (v_is_active v && _); [| by eexists].
    destruct (Z.ltb_spec (v_stock v) (default 1 (it_quantity item)));
      [by eexists | lia].
  - destruct (it_variant_id i) as [vid' |]; [| by eexists].
    destruct (get_published_variant vid' db) as [[v' p'] |]; [| by eexists].
    destruct (v_stock v' <? _); [by eexists |]. by apply IH.
Qed.

End CreateFacts.

(** ** create_order_from_data: up to the stock check *)

Section CreateBody.

Lemma check_guest_consistency_frame user nd (db db' : Database) r :
  check_guest_consistency user nd db = (r, db') -> db' = db.
Proof.
  unfold check_guest_consistency, raise, ret.
  destruct (authenticated user); destruct (negb _); by intros [= _ <-].
Qed.

Lemma check_guest_consistency_ok user data (db : Database) :
  guest_consistent user data = true ->
  check_guest_consistency user (normalize_order_data data) db = (Ok tt, db).
Proof.
  unfold guest_consistent, check_guest_consistency.
  rewrite normalized_str. intros H.
  destruct (authenticated user).
  - rewrite bool_decide_eq_true_2; [done |].
    destruct (List.filter _ guest_fields) as [| f l] eqn:Hf; [done |].
    assert (Hin : In f (List.filter (fun f => truthy (d_str data !! f)) guest_fields))
      by (rewrite Hf; left; done).
    apply filter_In in Hin as [Hin Ht].
    rewrite forallb_forall in H. specialize (H _ Hin). by rewrite Ht in H.
  - rewrite bool_decide_eq_true_2; [done |].
    destruct (List.filter _ guest_fields) as [| f l] eqn:Hf; [done |].
    assert (Hin : In f (List.filter (fun f => negb (truthy (d_str data !! f)))
                                    guest_fields))
      by (rewrite Hf; left; done).
    apply filter_In in Hin as [Hin Ht].
    rewrite forallb_forall in H. specialize (H _ Hin). by rewrite H in Ht.
Qed.

Lemma resolve_addresses_frame env nd sh user (db db' : Database) r :
  resolve_addresses env nd sh user db = (r, db') -> same_but_addresses db db'.
Proof.
  unfold resolve_addresses, bind.
  destruct (_create_or_get_address env sh user ADDRESS_TYPE_SHIPPING db)
    as [[sa | e] db1] eqn:Hs;
    pose proof (create_or_get_address_frame _ _ _ _ _ _ _ Hs) as F1;
    [| by intros [= _ <-]].
  destruct (d_billing_address nd) as [b |]; [| by intros [= _ <-]].
  destruct (default false (d_use_separate_billing nd)); [| by intros [= _ <-]].
  destruct (_create_or_get_address env b user ADDRESS_TYPE_BILLING db1)
    as [[ba | e] db2] eqn:Hb;
    pose proof (create_or_get_address_frame _ _ _ _ _ _ _ Hb) as F2;
    intros [= _ <-]; by eapply same_but_addresses_trans.
Qed.

Lemma resolve_addresses_ok env nd sh user (db : Database) :
  address_errors "Shipping address" sh = [] ->
  billing_complete nd ->
  exists sa ba db1,
    resolve_addresses env nd sh user db = (Ok (sa, ba), db1)
    /\ same_but_addresses db db1.
Proof.
  intros Hsh Hbill.
  destruct (resolve_addresses env nd sh user db) as [[[sa ba] | e] db1] eqn:Hrun.
  { exists sa, ba, db1. split; [done |]. by eapply resolve_addresses_frame. }
  exfalso. revert Hrun. unfold resolve_addresses, bind.
  destruct (create_or_get_address_ok env _ sh user ADDRESS_TYPE_SHIPPING db Hsh)
    as (sa & db1' & -> & _).
  destruct (d_billing_address nd) as [b |] eqn:Hb; [| done].
  destruct (default false (d_use_separate_billing nd)); [| done].
  destruct (create_or_get_address_ok env _ b user ADDRESS_TYPE_BILLING db1'
              (Hbill b Hb)) as (ba & db2 & -> & _).
  done.
Qed.

Lemma normalized_fields (data : OrderData) :
  d_items (normalize_order_data data) = d_items data
  /\ d_shipping_address (normalize_order_data data) = d_shipping_address data
  /\ d_billing_address (normalize_order_data data) = d_billing_address data
  /\ d_str (normalize_order_data data) = d_str data.
Proof. unfold normalize_order_data. by destruct (d_use_separate_billing data). Qed.

Lemma billing_complete_normalized (data : OrderData) :
  billing_complete data -> billing_complete (normalize_order_data data).
Proof.
  unfold billing_complete.
  by destruct (normalized_fields data) as (_ & _ & -> & _).
Qed.

Lemma purchasable_all_frame (db db' : Database) (l : list ItemData) :
  same_but_addresses db db' ->
  forallb (purchasable db') l = forallb (purchasable db) l.
Proof.
  intros H. induction l as [| i l IH]; [done |].
  cbn [forallb]. by rewrite IH, (purchasable_frame _ _ _ H).
Qed.

Lemma over_stock_frame (db db' : Database) (item : ItemData) :
  same_but_addresses db db' -> over_stock db item -> over_stock db' item.
Proof. intros (_ & Hv & _). unfold over_stock. by rewrite Hv. Qed.

(** A payload with a line item over the stock of its variant never gets
    past the first loop: the body raises, having written addresses at
    most. *)
Lemma create_order_body_over_stock (env : Env) (data : OrderData)
    (user : option User) (db : Database) (items : list ItemData)
    (item : ItemData) :
  d_items data = Some (ItemList items) -> In item items ->
  over_stock db item ->
  exists e db1, create_order_body env data user db = (Raise e, db1)
                /\ same_but_addresses db db1.
Proof.
  intros Hitems Hin Hover.
  unfold create_order_body, validate_order_data. cbv beta iota zeta.
  destruct (bool_decide (length (validation_errors data) = 0%nat));
    cbn [negb]; [| by eexists _, db].
  destruct (normalized_fields data) as (Hi & _).
  unfold bind at 1.
  destruct (check_guest_consistency user _ db) as [[[] | e] db0] eqn:Hg;
    apply check_guest_consistency_frame in Hg as ->; [| by eexists _, db].
  unfold bind at 1.
  destruct (d_shipping_address (normalize_order_data data)) as [sh |];
    [| by eexists _, db].
  unfold ret at 1. unfold bind at 1. rewrite Hi, Hitems. unfold ret at 1.
  unfold bind at 1.
  destruct (resolve_addresses env _ sh user db) as [[[sa ba] | e] db1] eqn:Hr;
    apply resolve_addresses_frame in Hr; [| by eexists _, db1].
  unfold bind at 1.
  destruct (collect_items_over_stock items item (Dec.cents 0) [] db1 Hin)
    as (e & ->); [by eapply over_stock_frame |].
  by eexists _, db1.
Qed.

Lemma validation_errors_nil (data : OrderData) :
  validation_errors data = [] ->
  exists sh, d_shipping_address data = Some sh
             /\ address_errors "Shipping address" sh = [].
Proof.
  unfold validation_errors. intros H.
  repeat (apply app_eq_nil in H as [? H]).
  destruct (d_shipping_address data) as [sh |]; [by exists sh | done].
Qed.

(** A valid payload from a consistent caller reaches the first loop, in
    a store that differs in its addresses at most. *)
Lemma create_order_body_reaches_items (env : Env) (data : OrderData)
    (user : option User) (db : Database) (items : list ItemData) :
  validation_errors data = [] -> guest_consistent user data = true ->
  billing_complete data -> d_items data = Some (ItemList items) ->
  exists sa ba db1,
    same_but_addresses db db1
    /\ create_order_body env data user db
       = match collect_items items (Dec.cents 0) [] db1 with
         | (Ok (subtotal, order_items_data), db2) =>
             place_order env (normalize_order_data data) user sa ba subtotal
                         order_items_data db2
         | (Raise e, db2) => (Raise e, db2)
         end.
Proof.
  intros Hvalid Hguest Hbill Hitems.
  destruct (validation_errors_nil data Hvalid) as (sh & Hsh & Hsherr).
  destruct (normalized_fields data) as (Hi & Hs & _).
  destruct (resolve_addresses_ok env (normalize_order_data data) sh user db Hsherr)
    as (sa & ba & db1 & Hr & Hframe);
    [by apply billing_complete_normalized |].
  exists sa, ba, db1. split; [exact Hframe |].
  unfold create_order_body, validate_order_data. cbv beta iota zeta.
  rewrite Hvalid. cbn [length negb]. rewrite bool_decide_eq_true_2 by done.
  cbn [negb].
  rewrite (bind_ok _ _ _ _ _ (check_guest_consistency_ok user data db Hguest)).
  rewrite Hs, Hsh, Hi, Hitems. unfold bind at 1, ret at 1.
  unfold bind at 1, ret at 1. rewrite (bind_ok _ _ _ _ _ Hr).
  unfold bind at 1.
  by destruct (collect_items items (Dec.cents 0) [] db1) as [[[subtotal oid] | e] db2].
Qed.

End CreateBody.

(** C1, as the code has it. A payload with a line item that asks more of a
    variant than its stock is never accepted: [create_order_from_data]
    raises and leaves the store as it was, variants, orders and order
    items included.  When the payload is valid, the caller consistent, and
    the line items before that one all purchasable, the error is the
    [ValidationError] whose message names the SKU of the variant, its
    stock and the quantity asked for. *)
Theorem insufficient_stock_rejected (env : Env) (data : OrderData)
    (user : option User) (db : Database) (items : list ItemData) :
  d_items data = Some (ItemList items) ->
  (forall item, In item items -> over_stock db item ->
     exists e, create_order_from_data env data user db = (Raise e, db))
  /\ (forall pre item rest vid v p,
        items = pre ++ item :: rest ->
        validation_errors data = [] -> guest_consistent user data = true ->
        billing_complete data ->
        forallb (purchasable db) pre = true ->
        it_variant_id item = Some vid ->
        get_published_variant vid db = Some (v, p) ->
        v_stock v < default 1 (it_quantity item) ->
        create_order_from_data env data user db
        = (Raise (InsufficientStock (v_sku v) (v_stock v)
                                    (default 1 (it_quantity item))), db)).
Proof.
  intros Hitems. split.
  - intros item Hin Hover.
    destruct (create_order_body_over_stock env data user db items item)
      as (e & db1 & Hbody & _); [done.. |].
    exists e. unfold create_order_from_data. by apply (atomic_raise _ _ _ db1).
  - intros pre item rest vid v p -> Hvalid Hguest Hbill Hpre Hvid Hget Hlt.
    destruct (create_order_body_reaches_items env data user db _
                Hvalid Hguest Hbill Hitems) as (sa & ba & db1 & Hframe & Hbody).
    rewrite (collect_items_insufficient pre rest item _ _ db1 vid v p) in Hbody.
    + unfold create_order_from_data. by apply (atomic_raise _ _ _ db1).
    + by rewrite (purchasable_all_frame _ _ _ Hframe).
    + exact Hvid.
    + by rewrite (get_published_variant_frame _ _ _ Hframe).
    + exact Hlt.
Qed.

(** ** create_order_from_data: placing the order *)

Section PlaceOrder.

Lemma ensure_decimal_ok {S} (field : string) (v : option number_value) (s : S) :
  number_errors field v = [] -> exists d, ensure_decimal v s = (Ok d, s).
Proof. destruct v as [[| d] |]; [done | by exists d | by eexists]. Qed.

Lemma validation_errors_numbers (data : OrderData) :
  validation_errors data = [] ->
  number_errors "shipping_cost" (d_shipping_cost data) = []
  /\ number_errors "tax_rate" (d_tax_rate data) = []
  /\ number_errors "discount_amount" (d_discount_amount data) = []
  /\ is_Some (d_str data !! "payment_method").
Proof.
  unfold validation_errors. intros H.
  repeat (apply app_eq_nil in H as [? H]).
  split_and!; try done. by destruct (d_str data !! "payment_method").
Qed.

Lemma normalized_numbers (data : OrderData) :
  d_shipping_cost (normalize_order_data data) = d_shipping_cost data
  /\ d_tax_rate (normalize_order_data data) = d_tax_rate data
  /\ d_discount_amount (normalize_order_data data) = d_discount_amount data.
Proof. unfold normalize_order_data. by destruct (d_use_separate_billing data). Qed.

(** A line item of a valid payload carries no price. *)
Lemma validation_errors_single (data : OrderData) (item : ItemData) :
  validation_errors data = [] -> d_items data = Some (ItemList [item]) ->
  it_unit_price item = None.
Proof.
  unfold validation_errors. intros H Hitems. rewrite Hitems in H.
  repeat (apply app_eq_nil in H as [? H]).
  match goal with
  | Hi : items_errors _ = [] |- _ => cbn in Hi; rewrite app_nil_r in Hi;
      unfold item_errors in Hi; repeat (apply app_eq_nil in Hi as [? Hi])
  end.
  by destruct (it_unit_price item).
Qed.

Lemma imap_errors_nonempty (g : nat -> ItemData -> list string)
    (l : list ItemData) (item : ItemData) :
  (forall i, g i item <> []) -> In item l -> concat (imap g l) <> [].
Proof.
  revert g. induction l as [| x l IH]; intros g Hg Hin; [destruct Hin |].
  cbn [imap concat]. intros Hnil. apply app_eq_nil in Hnil as [Hx Hl].
  destruct Hin as [-> | Hin]; [by apply (Hg 0%nat) |].
  apply (IH (g ∘ S)); [intros i; apply Hg | done | done].
Qed.

(** A payload with a priced line item is not valid. *)
Lemma priced_item_invalid (data : OrderData) (items : list ItemData)
    (item : ItemData) :
  d_items data = Some (ItemList items) -> In item items ->
  is_Some (it_unit_price item) -> validation_errors data <> [].
Proof.
  intros Hitems Hin [price Hprice] H. unfold validation_errors in H.
  rewrite Hitems in H.
  repeat (apply app_eq_nil in H as [? H]).
  match goal with Hi : items_errors _ = [] |- _ => revert Hi end.
  unfold items_errors. destruct items as [| x l]; [done |].
  apply imap_errors_nonempty with (item := item); [| done].
  intros i Hnil. unfold item_errors in Hnil. rewrite Hprice in Hnil.
  repeat (apply app_eq_nil in Hnil as [? Hnil]). done.
Qed.

(** [OrderItem.save] of an item whose variant and product the store
    holds. *)
Lemma OrderItem_save_ok (self : OrderItem) (db : Database) :
  (forall vid, oi_variant self = Some vid ->
     exists v p, variants db !! vid = Some v
                 /\ products db !! v_product v = Some p) ->
  exists self',
    OrderItem_save self db
    = (Ok self', on_order_items (<[oi_id self := self']>) db)
    /\ oi_unit_price self' = oi_unit_price self
    /\ oi_quantity self' = oi_quantity self
    /\ oi_id self' = oi_id self.
Proof.
  intros Hfk. unfold OrderItem_save.
  assert (Hsnap : exists snap, snapshot_product self db = (Ok snap, db)
                    /\ oi_unit_price snap = oi_unit_price self
                    /\ oi_quantity snap = oi_quantity self
                    /\ oi_id snap = oi_id self).
  { unfold snapshot_product.
    destruct (oi_variant self) as [vid |]; [| by exists self].
    destruct (bool_decide (oi_product_title self = "")); [| by exists self].
    destruct (Hfk vid eq_refl) as (v & p & Hv & Hp).
    unfold variant_with_product, bind, get, ret. rewrite Hv, Hp.
    by eexists. }
  destruct Hsnap as (snap & Hrun & Hu & Hq & Hid).
  rewrite (bind_ok _ _ _ _ _ Hrun). unfold bind, modify, ret.
  eexists. cbn [oi_id with_total_price oi_unit_price oi_quantity].
  rewrite Hid. split_and!; done.
Qed.

(** The second loop on one entry: the item is persisted with the price
    and quantity of the entry, and the stock of the variant becomes what
    the entry read less the quantity. *)
Lemma persist_items_single (order : Order) (entry : ItemEntry) (db : Database) :
  (exists row p, variants db !! v_id (e_variant entry) = Some row
                 /\ products db !! v_product row = Some p) ->
  e_quantity entry <= v_stock (e_variant entry) ->
  exists oi db',
    persist_items order [entry] [] db = (Ok [oi], db')
    /\ oi_unit_price oi = e_unit_price entry
    /\ oi_quantity oi = e_quantity entry
    /\ v_stock <$> (variants db' !! v_id (e_variant entry))
       = Some (v_stock (e_variant entry) - e_quantity entry).
Proof.
  intros (row & p & Hrow & Hp) Hle.
  cbn [persist_items]. unfold create_order_item.
  unfold bind, get. cbv beta iota.
  match goal with
  | |- context [OrderItem_save ?i db] => set (new_item := i)
  end.
  destruct (OrderItem_save_ok new_item db) as (oi & Hoi & Hu & Hq & _).
  { intros vid [= <-]. by exists row, p. }
  rewrite Hoi. unfold reduce_stock.
  destruct (Z.gtb_spec (e_quantity entry) (v_stock (e_variant entry))); [lia |].
  rewrite (bind_ok _ _ _ _ _ (save_stock_eq _ _)).
  unfold bind, ret. cbn [app]. eexists oi, _. split; [reflexivity |].
  split_and!; [exact Hu | exact Hq |].
  unfold on_variants; cbn [variants].
  rewrite (proj1 (stock_written_lookup _ _ _ _)).
  unfold on_order_items; cbn [variants v_id with_stock v_stock].
  rewrite Hrow. cbn [fmap option_fmap option_map]. by rewrite decide_True.
Qed.

End PlaceOrder.

Lemma scenario_arithmetic :
  Dec.sub (Dec.cents 2000) (Dec.cents 200) = Dec.cents 1800
  /\ Dec.add (Dec.cents 0) (Dec.mul (Dec.cents 1800) (Dec.of_int 2))
     = Dec.cents 3600.
Proof. split; vm_compute; reflexivity. Qed.

(** C2. For a valid payload from a consistent caller with the single line
    item of quantity 2 on an active variant of a published product with
    stock 3, price 20.00 and discount 2.00, and an order number no order
    holds yet, [create_order_from_data] returns an order and one item:
    the unit price of the item is 18.00, the subtotal of the order 36.00,
    and the stock of the variant in the store is then 1.  A payload with a
    line item that carries a [unit_price] is rejected with a
    [ValidationError]. *)
Theorem order_priced_from_variant (env : Env) (data : OrderData)
    (user : option User) (db : Database) :
  (forall item vid v p,
     validation_errors data = [] -> guest_consistent user data = true ->
     billing_complete data ->
     d_items data = Some (ItemList [item]) ->
     it_variant_id item = Some vid -> it_quantity item = Some 2 ->
     variants db !! vid = Some v -> v_id v = vid -> v_is_active v = true ->
     products db !! v_product v = Some p -> p_status p = "published" ->
     v_stock v = 3 -> v_price v = Dec.cents 2000 ->
     v_discount_amount v = Dec.cents 200 ->
     (forall k row, orders db !! k = Some row ->
                    o_order_number row <> generate_order_number env) ->
     exists order order_item db',
       create_order_from_data env data user db = (Ok (order, [order_item]), db')
       /\ oi_unit_price order_item = Dec.cents 1800
       /\ oi_quantity order_item = 2
       /\ o_subtotal order = Dec.cents 3600
       /\ v_stock <$> (variants db' !! vid) = Some 1)
  /\ (forall items item,
        d_items data = Some (ItemList items) -> In item items ->
        is_Some (it_unit_price item) ->
        exists msg, create_order_from_data env data user db
                    = (Raise (ValidationError msg), db)).
Proof.
  split.
  - intros item vid v p Hvalid Hguest Hbill Hitems Hvid Hq Hv Hkey Hactive Hp
      Hpub Hstock Hprice Hdisc Hfree.
    destruct (create_order_body_reaches_items env data user db _
                Hvalid Hguest Hbill Hitems) as (sa & ba & db1 & Hframe & Hbody).
    destruct Hframe as (Fp & Fv & Fo & Fi).
    pose proof (validation_errors_single _ _ Hvalid Hitems) as Hnoprice.
    (* the first loop *)
    assert (Hget : get_published_variant vid db1 = Some (v, p)).
    { unfold get_published_variant. rewrite Fv, Hv, Fp, Hp, Hactive, Hpub.
      by rewrite bool_decide_eq_true_2. }
    cbn [collect_items] in Hbody. unfold bind at 1 in Hbody.
    rewrite Hvid in Hbody. unfold ret at 1 in Hbody.
    unfold bind at 1, get at 1 in Hbody. rewrite Hget, Hq, Hnoprice in Hbody.
    cbn [default from_option id] in Hbody. rewrite Hstock in Hbody.
    change (3 <? 2) with false in Hbody. cbv iota in Hbody.
    unfold discounted_price in Hbody. rewrite Hprice, Hdisc in Hbody.
    destruct scenario_arithmetic as [Hunit Hsub]. rewrite Hunit, Hsub in Hbody.
    unfold ret at 1 in Hbody. cbn [app] in Hbody.
    (* the amounts *)
    destruct (validation_errors_numbers _ Hvalid) as (N1 & N2 & N3 & [pm Hpm]).
    destruct (normalized_numbers data) as (E1 & E2 & E3).
    unfold place_order in Hbody. rewrite E1, E2, E3, normalized_str in Hbody.
    destruct (ensure_decimal_ok _ _ db1 N1) as (shipping_cost & R1).
    destruct (ensure_decimal_ok _ _ db1 N2) as (tax_rate & R2).
    destruct (ensure_decimal_ok _ _ db1 N3) as (discount_amount & R3).
    rewrite (bind_ok _ _ _ _ _ R1), (bind_ok _ _ _ _ _ R2),
      (bind_ok _ _ _ _ _ R3) in Hbody.
    destruct (div_is_Some (Dec.mul (Dec.cents 3600) tax_rate) (Dec.cents 10000))
      as (tax_amount & Htax); [done |].
    rewrite Htax in Hbody. unfold bind at 1, ret at 1 in Hbody.
    rewrite (bind_ok _ _ _ _ _ (getitem_ok _ _ _ db1 Hpm)) in Hbody.
    unfold bind at 1, get at 1 in Hbody.
    (* the order *)
    match type of Hbody with
    | context [Order_save env ?o] => set (new_order := o) in Hbody
    end.
    assert (Hsave : Order_save env new_order db1
                    = (Ok (saved_order env new_order),
                       on_orders (<[o_id new_order := saved_order env new_order]>) db1)).
    { rewrite Order_save_unfold.
      destruct (order_number_taken _ db1) eqn:Htaken;
        [| by rewrite saved_order_id].
      apply order_number_taken_true in Htaken as (k & row & Hrow & _ & Hnum).
      rewrite saved_order_number_new in Hnum by reflexivity.
      rewrite Fo in Hrow. by destruct (Hfree k row Hrow). }
    rewrite (bind_ok _ _ _ _ _ Hsave) in Hbody.
    set (order := saved_order env new_order) in *.
    set (db2 := on_orders _ db1) in *.
    (* the item and the stock *)
    cbn [app] in Hbody.
    match type of Hbody with
    | context [persist_items order [?e] []] => set (entry := e) in Hbody
    end.
    destruct (persist_items_single order entry db2)
      as (oi & db3 & Hpersist & Hu & Hqq & Hst).
    { exists v, p. unfold entry, db2, on_orders; cbn [e_variant variants products].
      by rewrite Hkey, Fv, Fp. }
    { unfold entry; cbn [e_variant e_quantity]. lia. }
    rewrite (bind_ok _ _ _ _ _ Hpersist) in Hbody. unfold ret in Hbody.
    exists order, oi, db3. split.
    { unfold create_order_from_data. apply atomic_ok. exact Hbody. }
    split_and!.
    + by rewrite Hu.
    + by rewrite Hqq.
    + unfold order. destruct (saved_order_fields env new_order) as (-> & _).
      reflexivity.
    + unfold entry in Hst; cbn [e_variant e_quantity] in Hst.
      by rewrite Hkey, Hstock in Hst.
  - intros items item Hitems Hin Hprice.
    pose proof (priced_item_invalid _ _ _ Hitems Hin Hprice) as Hinvalid.
    eexists. unfold create_order_from_data. apply (atomic_raise _ _ _ db).
    unfold create_order_body, validate_order_data. cbv beta iota zeta.
    rewrite bool_decide_eq_false_2; [reflexivity |].
    by destruct (validation_errors data).
Qed.

(** * The properties on the sample store *)


Lemma order_number_generated_unchecked_witness :
  o_order_number sample_new_order = ""
  /\ exists self',
       Order_save sample_env sample_new_order sample_db
       = (Ok self', on_orders (<["o2" := self']>) sample_db)
       /\ o_order_number self' = "ORD202403074821".
Proof.
  split; [reflexivity |].
  apply (proj1 (order_number_generated_unchecked sample_env sample_new_order
                  sample_db eq_refl)).
  vm_compute. reflexivity.
Defined.

(** C6, the claim as the spec has it, on the sample store: the number
    generated for the new order is held by another order, and the save
    raises instead of trying another number. *)
Lemma order_number_collision_fails :
  o_order_number sample_new_order = ""
  /\ order_by_number "ORD202403074821" sample_db_collision
     = Some (with_order_number "ORD202403074821" sample_order)
  /\ Order_save sample_env sample_new_order sample_db_collision
     = (Raise (IntegrityError "UNIQUE constraint failed: orders.order_number"),
        sample_db_collision).
Proof. split_and!; vm_compute; reflexivity. Qed.

Lemma order_item_save_total_price_witness :
  let item := sample_order_item "i1" "v1" "GEN-BLK-01" (Dec.cents 1800) 2 in
  let saved := with_total_price (Dec.cents 3600) item in
  OrderItem_save item sample_db
  = (Ok saved, on_order_items (<["i1" := saved]>) sample_db)
  /\ oi_total_price saved = Dec.cents ((1800 - 0) * 2).
Proof.
  intros item saved.
  assert (H : OrderItem_save item sample_db
              = (Ok saved, on_order_items (<["i1" := saved]>) sample_db))
    by (vm_compute; reflexivity).
  split; [exact H |].
  destruct (order_item_save_total_price _ _ _ _ H) as (_ & _ & _ & Hexact).
  apply Hexact; vm_compute; split; (reflexivity || discriminate).
Defined.

Lemma orders_wf_singleton (db : Database) (o : Order) :
  orders db = {[o_id o := o]} -> o_order_number o <> "" -> orders_wf db.
Proof.
  intros Heq Hnum k row Hk. rewrite Heq in Hk.
  apply lookup_singleton_Some in Hk as [<- <-].
  split_and!; [reflexivity | exact Hnum |].
  intros k' o' Hk' _. rewrite Heq in Hk'.
  by apply lookup_singleton_Some in Hk' as [<- _].
Qed.


Lemma sample_db_ordered_wf : orders_wf sample_db_ordered.
Proof. by apply (orders_wf_singleton _ sample_order). Qed.

Lemma sample_variants_wf : variants_wf (variants sample_db_ordered).
Proof.
  intros k v Hk. cbn [variants sample_db_ordered] in Hk.
  apply lookup_insert_Some in Hk as [[<- <-] | [_ Hk]]; [reflexivity |].
  by apply lookup_singleton_Some in Hk as [<- <-].
Qed.


Lemma insufficient_stock_rejected_witness :
  d_items (sample_checkout [sample_item "v2" 5])
  = Some (ItemList [sample_item "v2" 5])
  /\ create_order_from_data sample_env (sample_checkout [sample_item "v2" 5])
                            None sample_db
     = (Raise (ValidationError
                 "Insufficient stock for GEN-WHT-02. Available: 2, Requested: 5"),
        sample_db).
Proof.
  split; [reflexivity |].
  apply (proj2 (insufficient_stock_rejected sample_env
                  (sample_checkout [sample_item "v2" 5]) None sample_db
                  [sample_item "v2" 5] eq_refl)
               [] (sample_item "v2" 5) [] "v2" sample_white sample_product).
  - reflexivity.
  - vm_compute. reflexivity.
  - vm_compute. reflexivity.
  - intros b Hb. discriminate Hb.
  - reflexivity.
  - reflexivity.
  - vm_compute. reflexivity.
  - vm_compute. reflexivity.
Defined.

(** C1, the claim as the spec has it, on the sample store: a valid guest
    checkout whose second line item asks five of a variant with stock two,
    after a first line item on a variant the store does not hold.  The
    error names neither the SKU nor the quantities. *)
Lemma insufficient_stock_not_always_reported :
  let items := [sample_item "v9" 1; sample_item "v2" 5] in
  In (sample_item "v2" 5) items
  /\ over_stock sample_db (sample_item "v2" 5)
  /\ validation_errors (sample_checkout items) = []
  /\ create_order_from_data sample_env (sample_checkout items) None sample_db
     = (Raise (ValidationError "Product variant not found: v9"), sample_db)
  /\ forall sku available requested,
       ValidationError "Product variant not found: v9"
       <> InsufficientStock sku available requested.
Proof.
  intros items. split_and!.
  - right; left; reflexivity.
  - exists "v2", sample_white. split_and!; [reflexivity | | ]; vm_compute; reflexivity.
  - vm_compute. reflexivity.
  - vm_compute. reflexivity.
  - intros sku available requested H. unfold InsufficientStock in H.
    cbn in H. discriminate H.
Qed.

Lemma order_priced_from_variant_witness :
  validation_errors (sample_checkout [sample_item "v1" 2]) = []
  /\ exists order order_item db',
       create_order_from_data sample_env (sample_checkout [sample_item "v1" 2])
                              None sample_db
       = (Ok (order, [order_item]), db')
       /\ oi_unit_price order_item = Dec.cents 1800
       /\ oi_quantity order_item = 2
       /\ o_subtotal order = Dec.cents 3600
       /\ v_stock <$> (variants db' !! "v1") = Some 1.
Proof.
  split; [vm_compute; reflexivity |].
  apply (proj1 (order_priced_from_variant sample_env
                  (sample_checkout [sample_item "v1" 2]) None sample_db)
               (sample_item "v1" 2) "v1" sample_black sample_product).
  - vm_compute. reflexivity.
  - vm_compute. reflexivity.
  - intros b Hb. discriminate Hb.
  - reflexivity.
  - reflexivity.
  - reflexivity.
  - vm_compute. reflexivity.
  - reflexivity.
  - reflexivity.
  - vm_compute. reflexivity.
  - reflexivity.
  - reflexivity.
  - reflexivity.
  - reflexivity.
  - intros k row Hrow. unfold sample_db in Hrow. cbn [orders] in Hrow.
    rewrite lookup_empty in Hrow. discriminate Hrow.
Defined.

Lemma guest_user_exclusivity_witness :
  "guest_phone" ∈ guest_fields
  /\ exists msg,
       create_order_from_data sample_env (sample_checkout [sample_item "v1" 2])
                              (Some sample_customer) sample_db
       = (Raise (ValidationError msg), sample_db).
Proof.
  assert (Hin : "guest_phone" ∈ guest_fields) by (vm_compute; repeat constructor).
  split; [exact Hin |].
  apply (guest_user_exclusivity sample_env _ (Some sample_customer) sample_db
           "guest_phone" Hin).
  left. split; vm_compute; reflexivity.
Defined.





Lemma address_default_unique_per_user_witness :
  let saves := [sample_saved_address "a1" (Some "u1");
                sample_saved_address "a2" (Some "u1")] in
  exists db',
    save_addresses saves sample_db = (Ok tt, db')
    /\ one_default (addresses db') (Some "u1") ADDRESS_TYPE_SHIPPING
    /\ a_is_default <$> (addresses db' !! "a1") = Some false
    /\ a_is_default <$> (addresses db' !! "a2") = Some true.
Proof.
  intros saves.
  destruct (address_default_unique_per_user sample_db saves)
    as (db' & Hrun & _ & Hone & _).
  - intros k a Hk. unfold sample_db in Hk. cbn [addresses] in Hk.
    rewrite lookup_empty in Hk. discriminate Hk.
  - intros u t i j a b Ha. unfold sample_db in Ha. cbn [addresses] in Ha.
    rewrite lookup_empty in Ha. discriminate Ha.
  - exists db'. split; [exact Hrun |]. split; [apply Hone |].
    assert (Hdb : db' = (save_addresses saves sample_db).2) by (by rewrite Hrun).
    rewrite Hdb. split; vm_compute; reflexivity.
Defined.

(** C9, the claim as the spec has it, for guest addresses: two default
    shipping addresses without an owner are saved one after the other, and
    both are still default. *)
Lemma guest_addresses_keep_two_defaults :
  let saves := [sample_saved_address "g1" None; sample_saved_address "g2" None] in
  let db' := (save_addresses saves sample_db).2 in
  (save_addresses saves sample_db).1 = Ok tt
  /\ addresses db' !! "g1" = Some (sample_saved_address "g1" None)
  /\ addresses db' !! "g2" = Some (sample_saved_address "g2" None)
  /\ ~ one_default (addresses db') None ADDRESS_TYPE_SHIPPING.
Proof.
  intros saves db'.
  assert (Hg1 : addresses db' !! "g1" = Some (sample_saved_address "g1" None))
    by (vm_compute; reflexivity).
  assert (Hg2 : addresses db' !! "g2" = Some (sample_saved_address "g2" None))
    by (vm_compute; reflexivity).
  split_and!; [vm_compute; reflexivity | exact Hg1 | exact Hg2 |].
  intros Hone.
  pose proof (Hone "g1" "g2" _ _ Hg1 Hg2 eq_refl eq_refl eq_refl eq_refl
                eq_refl eq_refl) as Heq.
  discriminate Heq.
Qed.

(** * Further properties of the code *)

(** ** ProductVariant: the stock operations *)

Section StockFacts.

Lemma reduce_stock_eq (self : ProductVariant) (q : Z) (db : Database) :
  q <= v_stock self ->
  reduce_stock self q db
  = (Ok (with_stock (v_stock self - q) self),
     on_variants
       (fun m => alter (with_stock (v_stock self - q)) (v_id self)
                   (if v_is_default self
                    then clear_default_variant self <$> m else m)) db).
Proof.
  intros Hle. unfold reduce_stock.
  destruct (Z.gtb_spec q (v_stock self)); [lia |].
  by rewrite (bind_ok _ _ _ _ _ (save_stock_eq _ db)).
Qed.

End StockFacts.

(** X1. [reduce_stock] refuses a quantity above the stock of the object
    with a [ValueError] and leaves the store alone; otherwise it writes
    the stock less the quantity, which is not negative, to the row of the
    variant, and changes the stock of no other row and no other table. *)
Theorem reduce_stock_guarded (self : ProductVariant) (q : Z) (db : Database) :
  (v_stock self < q ->
   exists msg, reduce_stock self q db = (Raise (ValueError msg), db))
  /\ (q <= v_stock self ->
      exists self' db',
        reduce_stock self q db = (Ok self', db')
        /\ v_stock self' = v_stock self - q
        /\ 0 <= v_stock self'
        /\ (forall k,
              v_stock <$> (variants db' !! k)
              = (fun s => if decide (k = v_id self) then v_stock self - q else s)
                  <$> (v_stock <$> (variants db !! k)))
        /\ products db' = products db /\ addresses db' = addresses db
        /\ orders db' = orders db /\ order_items db' = order_items db).
Proof.
  split.
  - intros Hlt. unfold reduce_stock.
    destruct (Z.gtb_spec q (v_stock self)); [by eexists | lia].
  - intros Hle. rewrite reduce_stock_eq by exact Hle.
    eexists _, _. split; [reflexivity |].
    cbn [v_stock with_stock]. split_and!; try done; [lia |].
    intros k. unfold on_variants; cbn [variants].
    apply (stock_written_lookup self).
Qed.

(** X2. Reducing the stock of a variant as the store holds it and then
    increasing the stock of the returned object by the same quantity
    leaves every variant with the stock it had. *)
Theorem reduce_then_increase_restores (self : ProductVariant) (q : Z)
    (db : Database) :
  variants db !! v_id self = Some self -> q <= v_stock self ->
  exists reduced db1 restored db2,
    reduce_stock self q db = (Ok reduced, db1)
    /\ increase_stock reduced q db1 = (Ok restored, db2)
    /\ v_stock restored = v_stock self
    /\ forall k, v_stock <$> (variants db2 !! k) = v_stock <$> (variants db !! k).
Proof.
  intros Hrow Hle. rewrite reduce_stock_eq by exact Hle.
  eexists _, _, _, _. split; [reflexivity |].
  rewrite increase_stock_eq. split; [reflexivity |].
  cbn [v_stock with_stock v_id v_is_default]. split; [lia |].
  intros k. unfold on_variants; cbn [variants].
  pose proof (stock_written_lookup (with_stock (v_stock self - q) self)
                (v_stock self - q + q)) as H2.
  cbn [v_id with_stock v_is_default] in H2.
  pose proof (stock_written_lookup self (v_stock self - q) (variants db) k)
    as [H1 _].
  cbv zeta in H1, H2.
  match goal with
  | |- v_stock <$> (alter _ _ ?m0 !! k) = _ =>
      destruct (H2 (alter (with_stock (v_stock self - q)) (v_id self)
                      (if v_is_default self
                       then clear_default_variant self <$> variants db
                       else variants db)) k) as [-> _]
  end.
  rewrite H1.
  destruct (decide (k = v_id self)) as [-> | Hne].
  - rewrite Hrow. cbn. f_equal. lia.
  - by destruct (variants db !! k).
Qed.

(** ** ProductVariant.save: one default variant per product *)

Section VariantDefault.


Lemma clear_variant_product (self row : ProductVariant) :
  v_product (clear_default_variant self row) = v_product row.
Proof. unfold clear_default_variant. by destruct (_ && _). Qed.



End VariantDefault.


(** ** Product: stock over the variants *)

Section ProductStock.

Lemma sum_stock_from (l : list ProductVariant) (a : Z) :
  foldl (fun acc v => acc + v_stock v) a l
  = a + foldl (fun acc v => acc + v_stock v) 0 l.
Proof.
  revert a. induction l as [| v l IH]; intros a; cbn [foldl]; [lia |].
  rewrite (IH (a + v_stock v)), (IH (0 + v_stock v)). lia.
Qed.

Lemma stock_sum_positive (l : list ProductVariant) :
  (forall v, In v l -> 0 <= v_stock v) ->
  0 <= foldl (fun acc v => acc + v_stock v) 0 l
  /\ (existsb (fun v => v_stock v >? 0) l = true
      <-> 0 < foldl (fun acc v => acc + v_stock v) 0 l).
Proof.
  induction l as [| v l IH]; intros Hnn.
  - cbn. split; [lia |]. split; [discriminate | lia].
  - destruct IH as [IH0 IHx]; [intros; apply Hnn; by right |].
    pose proof (Hnn v (or_introl eq_refl)) as Hv.
    cbn [foldl existsb]. rewrite sum_stock_from. split; [lia |].
    rewrite orb_true_iff, IHx.
    destruct (Z.gtb_spec (v_stock v) 0) as [Hpos | Hnp]; split.
    + intros _. lia.
    + intros _. by left.
    + intros [Hd | Hl]; [discriminate | lia].
    + intros Hs. right. lia.
Qed.

Lemma variants_of_in (product : uuid) (db : Database) (v : ProductVariant) :
  In v (variants_of product db) ->
  v_product v = product /\ exists k, variants db !! k = Some v.
Proof.
  unfold variants_of. intros H. apply filter_In in H as [Hin Hp].
  apply bool_decide_eq_true in Hp. split; [exact Hp |].
  apply list_elem_of_In, list_elem_of_fmap in Hin as ([k v'] & -> & Hin).
  exists k. by apply elem_of_map_to_list in Hin.
Qed.

End ProductStock.

(** X4. In a store where no variant has a negative stock, a product
    [has_stock] exactly when its [total_stock] is positive, and the total
    is never negative. *)
Theorem has_stock_iff_total_positive (product : uuid) (db : Database) :
  stock_nonnegative (variants db) ->
  0 <= total_stock product db
  /\ (has_stock product db = true <-> 0 < total_stock product db).
Proof.
  intros Hnn. unfold has_stock, total_stock. apply stock_sum_positive.
  intros v Hin. apply variants_of_in in Hin as (_ & k & Hk). by apply (Hnn k).
Qed.

(** ** validate_order_data: what a valid payload holds *)

Section ValidationFacts.

Lemma imap_errors_nil (g : nat -> ItemData -> list string)
    (l : list ItemData) (item : ItemData) :
  concat (imap g l) = [] -> In item l -> exists i, g i item = [].
Proof.
  revert g. induction l as [| x l IH]; intros g Hnil Hin; [destruct Hin |].
  cbn [imap concat] in Hnil. apply app_eq_nil in Hnil as [Hx Hl].
  destruct Hin as [-> | Hin]; [by exists 0%nat |].
  destruct (IH (g ∘ S) Hl Hin) as [i Hi]. by exists (S i).
Qed.

Lemma item_errors_nil (i : nat) (item : ItemData) :
  item_errors i item = [] ->
  is_Some (it_variant_id item)
  /\ (exists q, it_quantity item = Some q /\ 1 <= q)
  /\ it_unit_price item = None.
Proof.
  unfold item_errors. intros H.
  apply app_eq_nil in H as [Hv H]. apply app_eq_nil in H as [Hq Hp].
  split_and!.
  - by destruct (it_variant_id item).
  - destruct (it_quantity item) as [q |]; [| done]. exists q. split; [done |].
    destruct (Z.ltb_spec q 1); [done | lia].
  - by destruct (it_unit_price item).
Qed.

(** What the body of [create_order_from_data] needs of a valid payload. *)
Lemma accepted_payload_members (data : OrderData) :
  (validate_order_data data).1.1 = true ->
  exists items shipping,
    d_items data = Some (ItemList items)
    /\ d_shipping_address data = Some shipping
    /\ address_errors "Shipping address" shipping = []
    /\ validation_errors data = [].
Proof.
  unfold validate_order_data. cbn [fst]. intros Hvalid.
  apply bool_decide_eq_true in Hvalid.
  assert (Hnil : validation_errors data = [])
    by (by destruct (validation_errors data)).
  destruct (validation_errors_nil data Hnil) as (sh & Hsh & Hsherr).
  pose proof Hnil as Hn. unfold validation_errors in Hn.
  apply app_eq_nil in Hn as [H1 Hn]. apply app_eq_nil in Hn as [H2 Hn].
  apply app_eq_nil in Hn as [H3 Hn]. apply app_eq_nil in Hn as [H4 _].
  destruct (d_items data) as [[| items] |]; [done | | done].
  by exists items, sh.
Qed.

End ValidationFacts.

(** X5. A payload that [validate_order_data] accepts has a non-empty list
    of line items, each with a variant id, a quantity of at least one and
    no price of its own; a shipping address whose nine required members
    are present and not empty; and a payment method. *)
Theorem valid_payload_shape (data : OrderData) :
  (validate_order_data data).1.1 = true ->
  exists items shipping method,
    d_items data = Some (ItemList items) /\ items <> []
    /\ (forall item, In item items ->
          is_Some (it_variant_id item)
          /\ (exists q, it_quantity item = Some q /\ 1 <= q)
          /\ it_unit_price item = None)
    /\ d_shipping_address data = Some shipping
    /\ (forall field, In field required_address_fields ->
          exists v, ad_str shipping !! field = Some v /\ v <> "")
    /\ d_str data !! "payment_method" = Some method.
Proof.
  unfold validate_order_data. cbn [fst]. intros Hvalid.
  apply bool_decide_eq_true in Hvalid.
  assert (Hnil : validation_errors data = [])
    by (by destruct (validation_errors data)).
  clear Hvalid. unfold validation_errors in Hnil.
  apply app_eq_nil in Hnil as [H1 Hnil]. apply app_eq_nil in Hnil as [H2 Hnil].
  apply app_eq_nil in Hnil as [H3 Hnil]. apply app_eq_nil in Hnil as [H4 Hnil].
  apply app_eq_nil in Hnil as [H5 _].
  destruct (d_items data) as [[| items] |]; [done | | done].
  destruct (d_shipping_address data) as [shipping |]; [| done].
  destruct (d_str data !! "payment_method") as [method |]; [| done].
  exists items, shipping, method. split_and!; try done.
  - intros ->. done.
  - intros item Hin. unfold items_errors in H4.
    destruct items as [| x l]; [destruct Hin |].
    destruct (imap_errors_nil _ _ _ H4 Hin) as [i Hi].
    by apply (item_errors_nil i).
  - intros field Hin. pose proof (flat_map_nil _ _ H5 field Hin) as Hf.
    cbn beta in Hf. unfold truthy in Hf.
    destruct (ad_str shipping !! field) as [v |]; [| done].
    exists v. split; [done |]. intros ->. done.
Qed.

(** ** create_order_from_data: a billing address that was not validated *)

Section BillingFacts.

(** Address resolution reads [first_name] first, on either path. *)
Lemma create_or_get_address_no_first_name (env : Env) (ad : AddressData)
    (user : option User) (t : address_type) (db : Database) :
  ad_str ad !! "first_name" = None ->
  _create_or_get_address env ad user t db = (Raise (KeyError "first_name"), db).
Proof.
  intros Hnone. unfold _create_or_get_address, bind, getitem, get, ret, raise.
  rewrite Hnone. by destruct (authenticated user).
Qed.

End BillingFacts.

(** X6. The billing address is validated only when [use_separate_billing]
    is sent as true, but it is used whenever it is sent and
    [use_separate_billing] is absent.  So a payload that passes validation
    and the user/guest check, with a billing address without [first_name]
    and no [use_separate_billing] member, makes [create_order_from_data]
    raise [KeyError] (not a [ValidationError]); the store is left as it
    was. *)
Theorem unvalidated_billing_raises_key_error (env : Env) (data : OrderData)
    (user : option User) (db : Database) (billing : AddressData) :
  (validate_order_data data).1.1 = true ->
  guest_consistent user data = true ->
  d_billing_address data = Some billing ->
  d_use_separate_billing data = None ->
  ad_str billing !! "first_name" = None ->
  create_order_from_data env data user db = (Raise (KeyError "first_name"), db).
Proof.
  intros Hvalid Hguest Hbill Hflag Hnone.
  destruct (accepted_payload_members data Hvalid)
    as (items & sh & Hitems & Hsh & Hsherr & Hnil).
  unfold create_order_from_data.
  destruct (create_or_get_address_ok env "Shipping address" sh user
              ADDRESS_TYPE_SHIPPING db Hsherr) as (sa & db1 & Hsa & _).
  apply (atomic_raise _ _ _ db1).
  unfold create_order_body, validate_order_data. cbv beta iota zeta.
  rewrite Hnil. cbn [length negb]. rewrite bool_decide_eq_true_2 by done.
  cbn [negb].
  rewrite (bind_ok _ _ _ _ _ (check_guest_consistency_ok user data db Hguest)).
  destruct (normalized_fields data) as (Hi & Hs & Hb & _).
  rewrite Hs, Hsh, Hi, Hitems. unfold bind at 1, ret at 1.
  unfold bind at 1, ret at 1.
  unfold bind at 1. unfold resolve_addresses.
  rewrite (bind_ok _ _ _ _ _ Hsa), Hb, Hbill.
  unfold normalize_order_data. rewrite Hflag, Hbill.
  cbn [d_use_separate_billing with_use_separate_billing default from_option id].
  rewrite bool_decide_eq_true_2 by (by eexists).
  rewrite (bind_raise _ _ _ _ _
             (create_or_get_address_no_first_name env billing user
                ADDRESS_TYPE_BILLING db1 Hnone)).
  reflexivity.
Qed.

(** ** Address resolution: reuse and creation *)

Section AddressResolution.

Lemma first_address_in (l : list Address) :
  match first_address l with
  | Some a => In a l
  | None => l = []
  end.
Proof.
  unfold first_address. induction l as [| x l IH]; [done |].
  cbn [foldr]. destruct (foldr _ None l) as [b |].
  - destruct (address_before b x); [by right | by left].
  - by left.
Qed.

Lemma uuid4_fresh {A} (table : gmap uuid A) : table !! uuid4 table = None.
Proof. unfold uuid4. apply not_elem_of_dom, is_fresh. Qed.

End AddressResolution.

(** X7. For an authenticated user who already has an address of the type
    asked for with the same first name, last name, first address line,
    city, country and postal code, [_create_or_get_address] returns an
    address of the store that matches on these and writes nothing.  The
    other members of the payload (phone, email, state, ...) play no part
    in the match. *)
Theorem address_reused_for_user (env : Env) (ad : AddressData)
    (user : option User) (t : address_type) (db : Database)
    (k : uuid) (a0 : Address) :
  authenticated user = true ->
  addresses db !! k = Some a0 ->
  a_user a0 = user_id <$> user -> a_address_type a0 = t ->
  ad_str ad !! "first_name" = Some (a_first_name a0) ->
  ad_str ad !! "last_name" = Some (a_last_name a0) ->
  ad_str ad !! "address_line1" = Some (a_address_line1 a0) ->
  ad_str ad !! "city" = Some (a_city a0) ->
  ad_str ad !! "country" = Some (a_country a0) ->
  ad_str ad !! "postal_code" = Some (a_postal_code a0) ->
  exists a,
    _create_or_get_address env ad user t db = (Ok a, db)
    /\ (exists k', addresses db !! k' = Some a)
    /\ a_user a = user_id <$> user /\ a_address_type a = t
    /\ (a_first_name a, a_last_name a, a_address_line1 a, a_city a,
        a_country a, a_postal_code a)
       = (a_first_name a0, a_last_name a0, a_address_line1 a0, a_city a0,
          a_country a0, a_postal_code a0).
Proof.
  intros Hauth Hk Hu Ht H1 H2 H3 H4 H5 H6.
  unfold _create_or_get_address, bind, getitem, get, ret.
  rewrite Hauth, H1, H2, H3, H4, H5, H6.
  match goal with
  | |- context [first_address ?l] =>
      pose proof (first_address_in l) as Hfirst; set (matches := l) in *
  end.
  assert (Hin0 : In a0 matches).
  { apply filter_In. split.
    - apply list_elem_of_In, list_elem_of_fmap. exists (k, a0).
      split; [reflexivity |]. by apply elem_of_map_to_list.
    - rewrite !andb_true_iff. split_and!; by apply bool_decide_eq_true. }
  destruct (first_address matches) as [a |]; [| by rewrite Hfirst in Hin0].
  exists a. split; [reflexivity |].
  apply filter_In in Hfirst as [Hin Hmatch].
  rewrite !andb_true_iff, !bool_decide_eq_true in Hmatch.
  destruct Hmatch as (((((((Mu & Mt) & M1) & M2) & M3) & M4) & M5) & M6).
  split_and!; [| done | done | congruence].
  apply list_elem_of_In, list_elem_of_fmap in Hin as ([k' a'] & -> & Hin).
  exists k'. by apply elem_of_map_to_list in Hin.
Qed.

(** X8. For a guest, an address is never looked up:
    [_create_or_get_address] with no user and [get_or_create_guest_address]
    both add a new row without an owner under a key the table did not
    hold, whatever addresses the table holds, and change nothing else. *)
Theorem guest_address_always_created (env : Env) (label : string)
    (ad : AddressData) (t : address_type) (db : Database) :
  address_errors label ad = [] ->
  (exists a,
     _create_or_get_address env ad None t db
     = (Ok a, on_addresses (<[a_id a := a]>) db)
     /\ addresses db !! a_id a = None /\ a_user a = None)
  /\ (exists a,
        get_or_create_guest_address env ad t db
        = (Ok a, on_addresses (<[a_id a := a]>) db)
        /\ addresses db !! a_id a = None /\ a_user a = None).
Proof.
  intros Hnil.
  assert (Hreq : forall field, In field required_address_fields ->
                   exists v, ad_str ad !! field = Some v
                             /\ truthy (ad_str ad !! field) = true).
  { intros field Hin. pose proof (flat_map_nil _ _ Hnil field Hin) as Hf.
    cbn beta in Hf. destruct (truthy (ad_str ad !! field)) eqn:Ht; [| done].
    unfold truthy in Ht. destruct (ad_str ad !! field) as [v |]; [| done].
    by exists v. }
  destruct (Hreq "first_name") as (v1 & H1 & T1); [cbn; tauto |].
  destruct (Hreq "last_name") as (v2 & H2 & T2); [cbn; tauto |].
  destruct (Hreq "phone") as (v3 & H3 & T3); [cbn; tauto |].
  destruct (Hreq "email") as (v4 & H4 & T4); [cbn; tauto |].
  destruct (Hreq "address_line1") as (v5 & H5 & T5); [cbn; tauto |].
  destruct (Hreq "city") as (v6 & H6 & T6); [cbn; tauto |].
  destruct (Hreq "state") as (v7 & H7 & T7); [cbn; tauto |].
  destruct (Hreq "postal_code") as (v8 & H8 & T8); [cbn; tauto |].
  destruct (Hreq "country") as (v9 & H9 & T9); [cbn; tauto |].
  split.
  - unfold _create_or_get_address, bind, getitem, get, ret. cbn [authenticated].
    rewrite H1, H2, H3, H4, H5, H6, H7, H8, H9. match goal with
    | |- context [Address_save ?x] => set (addr := x)
    end.
    rewrite Address_save_eq. exists addr.
    split; [| split; [apply uuid4_fresh | reflexivity]].
    cbn [a_id]. f_equal. unfold on_addresses, saved_addresses, addr.
    cbn [a_user a_id fmap option_fmap option_map is_Some].
    rewrite bool_decide_eq_false_2 by (intros [? ?]; discriminate).
    by rewrite andb_false_r.
  - unfold get_or_create_guest_address, create_address_from_data.
    unfold require_fields, address_service_required_fields.
    cbn [for_each]. unfold bind, getitem, get, ret.
    rewrite T1, T2, T3, T4, T5, T6, T7, T8, T9.
    rewrite H1, H2, H3, H4, H5, H6, H7, H8, H9. match goal with
    | |- context [Address_save ?x] => set (addr := x)
    end.
    rewrite Address_save_eq. exists addr.
    split; [| split; [apply uuid4_fresh | reflexivity]].
    cbn [a_id]. f_equal. unfold on_addresses, saved_addresses, addr.
    cbn [a_user a_id fmap option_fmap option_map is_Some].
    rewrite bool_decide_eq_false_2 by (intros [? ?]; discriminate).
    by rewrite andb_false_r.
Qed.

(** ** AddressService *)

Section AddressServiceFacts.

Lemma require_fields_first_missing {S} (data : AddressData)
    (pre post : list string) (f : string) (s : S) :
  (forall g, In g pre -> truthy (ad_str data !! g) = true) ->
  truthy (ad_str data !! f) = false ->
  require_fields data (pre ++ f :: post) s
  = (Raise (ValidationError ("Missing required field: " +:+ f)), s).
Proof.
  unfold require_fields. induction pre as [| g pre IH]; intros Hpre Hf.
  - cbn [app for_each]. unfold bind. by rewrite Hf.
  - cbn [app for_each]. unfold bind at 1.
    rewrite (Hpre g) by (by left). unfold ret at 1.
    apply IH; [| done]. intros g' Hg'. apply Hpre. by right.
Qed.

Lemma insert_address_in (x a : Address) (l : list Address) :
  In x (insert_address a l) <-> x = a \/ In x l.
Proof.
  induction l as [| b l IH]; cbn [insert_address].
  - cbn. intuition.
  - destruct (address_before b a); cbn [In]; [rewrite IH |]; intuition.
Qed.

Lemma order_addresses_in (x : Address) (l : list Address) :
  In x (order_addresses l) <-> In x l.
Proof.
  unfold order_addresses. induction l as [| a l IH]; [done |].
  cbn [foldr]. rewrite insert_address_in, IH. cbn. intuition.
Qed.

Lemma in_address_rows (a : Address) (m : gmap uuid Address) :
  In a (map_to_list m).*2 <-> exists k, m !! k = Some a.
Proof.
  rewrite <- list_elem_of_In, list_elem_of_fmap. split.
  - intros ([k a'] & -> & Hin). exists k. by apply elem_of_map_to_list in Hin.
  - intros (k & Hk). exists (k, a). split; [done |].
    by apply elem_of_map_to_list.
Qed.

Lemma get_user_addresses_in (a : Address) (user : option User)
    (type_ : option address_type) (active_only : bool) (db : Database) :
  In a (get_user_addresses user type_ active_only db)
  <-> (exists k, addresses db !! k = Some a)
      /\ a_user a = user_id <$> user
      /\ (active_only = true -> a_is_active a = true)
      /\ (forall t, type_ = Some t -> a_address_type a = t).
Proof.
  unfold get_user_addresses. rewrite order_addresses_in.
  destruct type_ as [t |], active_only;
    rewrite ?filter_In, in_address_rows, ?bool_decide_eq_true;
    split.
  all: try (intros (((Hk & Hu) & Ha) & Ht); split_and!; try done;
            by intros ? [= <-]).
  all: try (intros ((Hk & Hu) & Ht); split_and!; try done;
            by intros ? [= <-]).
  all: try (intros (Hk & Hu); split_and!; done).
  all: intros (Hk & Hu & Ha & Ht); split_and!; auto.
Qed.

(** Defaults first: the order relation [insert_address] keeps. *)
Lemma address_before_flag (b a : Address) :
  (if address_before b a
   then a_is_default a = true -> a_is_default b = true
   else a_is_default b = true -> a_is_default a = true).
Proof.
  unfold address_before. case_bool_decide as Heq.
  - rewrite Heq. by destruct (_ <? _)%N.
  - destruct (a_is_default b), (a_is_default a); done.
Qed.

Lemma insert_address_sorted (a : Address) (l : list Address) :
  StronglySorted (fun x y => a_is_default y = true -> a_is_default x = true) l ->
  StronglySorted (fun x y => a_is_default y = true -> a_is_default x = true)
                 (insert_address a l).
Proof.
  induction 1 as [| b l Hl IH Hb]; cbn [insert_address].
  - constructor; [constructor | constructor].
  - pose proof (address_before_flag b a) as Hflag.
    destruct (address_before b a).
    + constructor; [done |]. apply Forall_forall. intros x Hx.
      apply list_elem_of_In, insert_address_in in Hx as [-> | Hx]; [done |].
      rewrite Forall_forall in Hb. apply Hb. by apply list_elem_of_In.
    + constructor; [by constructor |]. constructor; [done |].
      eapply Forall_impl; [exact Hb |]. cbn. auto.
Qed.

Lemma order_addresses_sorted (l : list Address) :
  StronglySorted (fun x y => a_is_default y = true -> a_is_default x = true)
                 (order_addresses l).
Proof.
  unfold order_addresses. induction l as [| a l IH]; [constructor |].
  cbn [foldr]. by apply insert_address_sorted.
Qed.

Lemma strongly_sorted_split {A} (R : A -> A -> Prop) (l1 l2 l3 : list A) a b :
  StronglySorted R (l1 ++ a :: l2 ++ b :: l3) -> R a b.
Proof.
  induction l1 as [| x l1 IH]; cbn [app]; intros Hs.
  - apply StronglySorted_inv in Hs as [_ Hall].
    rewrite Forall_forall in Hall. apply Hall.
    apply list_elem_of_In, in_or_app. right. by left.
  - apply StronglySorted_inv in Hs as [Hs _]. by apply IH.
Qed.

Lemma get_address_Some (address_id : uuid) (user : option User)
    (db : Database) (a : Address) :
  get_address address_id user db = Some a ->
  addresses db !! address_id = Some a /\ a_user a = user_id <$> user.
Proof.
  unfold get_address. destruct (addresses db !! address_id) as [a' |]; [| done].
  case_bool_decide; [| done]. by intros [= <-].
Qed.

End AddressServiceFacts.

(** X9. [AddressService.create_address_from_data] checks the nine
    required members in the order of its list and stops at the first
    that is absent or empty: the call raises the ValidationError naming
    that member and the store is left as it was. *)
Theorem create_address_reports_first_missing_field (env : Env)
    (data : AddressData) (user : option User) (t : address_type)
    (db : Database) (pre post : list string) (f : string) :
  address_service_required_fields = pre ++ f :: post ->
  (forall g, In g pre -> truthy (ad_str data !! g) = true) ->
  truthy (ad_str data !! f) = false ->
  create_address_from_data env data user t db
  = (Raise (ValidationError ("Missing required field: " +:+ f)), db).
Proof.
  intros Hsplit Hpre Hf. unfold create_address_from_data.
  rewrite Hsplit. apply bind_raise. by apply require_fields_first_missing.
Qed.

(** X10. [AddressService.delete_address] is a soft delete: for an address
    of the caller the row stays in the table with only [is_active] set to
    false, the address no longer appears in the caller's active listing
    and still appears in the listing that includes inactive addresses;
    the other tables are unchanged. *)
Theorem delete_address_is_soft (address_id : uuid) (user : option User)
    (db : Database) (a : Address) :
  addresses_wf (addresses db) ->
  get_address address_id user db = Some a ->
  exists db',
    delete_address address_id user db = (Ok true, db')
    /\ addresses db' !! address_id = Some (with_a_is_active false a)
    /\ (forall b, In b (get_user_addresses user None true db') ->
          a_id b <> address_id)
    /\ In (with_a_is_active false a) (get_user_addresses user None false db')
    /\ same_but_addresses db db'.
Proof.
  intros Hwf Hget. destruct (get_address_Some _ _ _ _ Hget) as [Hrow Hu].
  pose proof (Hwf _ _ Hrow) as Hid.
  unfold delete_address, bind, get. rewrite Hget, Address_save_eq.
  eexists. split; [reflexivity |].
  unfold on_addresses; cbn [addresses].
  assert (Hnew : saved_addresses (with_a_is_active false a) (addresses db)
                 !! address_id = Some (with_a_is_active false a)).
  { unfold saved_addresses. cbn [a_id with_a_is_active]. rewrite Hid.
    apply lookup_insert_eq. }
  split_and!; [done | | | done].
  - intros b Hb. apply get_user_addresses_in in Hb as ((k & Hk) & _ & Hact & _).
    cbn [addresses] in Hk. intros Hbid.
    pose proof (saved_addresses_wf _ _ Hwf _ _ Hk) as Hkid.
    rewrite Hbid in Hkid. subst k. rewrite Hnew in Hk. injection Hk as <-.
    by specialize (Hact eq_refl).
  - apply get_user_addresses_in. cbn [addresses]. split_and!; try done.
    by exists address_id.
Qed.

(** X11. [AddressService.get_user_addresses] returns exactly the rows of
    the address table that belong to the user, are active when
    [active_only] is set, and have the type asked for when one is given;
    in the list no address that is not a default comes before a default
    one. *)
Theorem get_user_addresses_spec (user : option User)
    (type_ : option address_type) (active_only : bool) (db : Database) :
  (forall a,
     In a (get_user_addresses user type_ active_only db)
     <-> (exists k, addresses db !! k = Some a)
         /\ a_user a = user_id <$> user
         /\ (active_only = true -> a_is_active a = true)
         /\ (forall t, type_ = Some t -> a_address_type a = t))
  /\ (forall l1 a l2 b l3,
        get_user_addresses user type_ active_only db
        = l1 ++ a :: l2 ++ b :: l3 ->
        a_is_default b = true -> a_is_default a = true).
Proof.
  split; [intros a; apply get_user_addresses_in |].
  intros l1 a l2 b l3 Heq.
  eapply (strongly_sorted_split
            (fun x y => a_is_default y = true -> a_is_default x = true)).
  rewrite <- Heq. unfold get_user_addresses. apply order_addresses_sorted.
Qed.

(** X12. [AddressService.update_address] and [delete_address] look the
    address up by id and owner together: when the table has no row with
    that id, or the row belongs to somebody else, both raise the
    ValidationError "Address not found" and leave the store as it was. *)
Theorem foreign_address_not_found (address_id : uuid) (data : AddressData)
    (user : option User) (db : Database) :
  (forall a, addresses db !! address_id = Some a ->
             a_user a <> user_id <$> user) ->
  update_address address_id data user db
  = (Raise (ValidationError "Address not found"), db)
  /\ delete_address address_id user db
     = (Raise (ValidationError "Address not found"), db).
Proof.
  intros Hforeign.
  assert (Hget : get_address address_id user db = None).
  { unfold get_address. destruct (addresses db !! address_id) as [a |] eqn:Ha;
      [| done].
    rewrite bool_decide_eq_false_2; [done |]. by apply Hforeign. }
  unfold update_address, delete_address, bind, get. by rewrite Hget.
Qed.

(** X13. [set_default_address] on an address of the user makes it the
    only default among the user's addresses of its type: the returned
    address is the stored row, it is a default, every other address of
    that user and type is not, and at most one default per user and type
    holds again for every user. *)
Theorem set_default_address_unique (address_id : uuid) (u : User)
    (db : Database) (a : Address) :
  addresses_wf (addresses db) ->
  (forall v t, one_default (addresses db) (Some v) t) ->
  get_address address_id (Some u) db = Some a ->
  exists a' db',
    set_default_address address_id (Some u) db = (Ok a', db')
    /\ addresses db' !! address_id = Some a'
    /\ a_is_default a' = true
    /\ a_user a' = Some (user_id u) /\ a_address_type a' = a_address_type a
    /\ (forall k b, addresses db' !! k = Some b -> k <> address_id ->
          a_user b = Some (user_id u) ->
          a_address_type b = a_address_type a ->
          a_is_default b = false)
    /\ addresses_wf (addresses db')
    /\ (forall v t, one_default (addresses db') (Some v) t)
    /\ same_but_addresses db db'.
Proof.
  intros Hwf Hone Hget. destruct (get_address_Some _ _ _ _ Hget) as [Hrow Hu].
  pose proof (Hwf _ _ Hrow) as Hid. cbn in Hu.
  unfold set_default_address, update_address, bind, get.
  rewrite Hget, Address_save_eq.
  set (a' := set_updatable_fields _ a).
  exists a'. eexists. split; [reflexivity |].
  unfold on_addresses; cbn [addresses].
  assert (Hid' : a_id a' = address_id) by done.
  assert (Hd' : a_is_default a' = true) by done.
  assert (Hu' : a_user a' = Some (user_id u)) by done.
  assert (Ht' : a_address_type a' = a_address_type a) by done.
  split; [| split; [| split; [| split; [| split; [| split; [| split]]]]]].
  - unfold saved_addresses. rewrite Hid'. apply lookup_insert_eq.
  - exact Hd'.
  - exact Hu'.
  - exact Ht'.
  - intros k b Hk Hne Hbu Hbt.
    apply (saved_addresses_clears a' (addresses db) k b Hwf Hd').
    + rewrite Hu'. by eexists.
    + exact Hk.
    + by rewrite Hid'.
    + by rewrite Hbu.
    + by rewrite Hbt.
  - by apply saved_addresses_wf.
  - intros v t. by apply saved_addresses_one_default.
  - done.
Qed.

(** ** OrderService: status updates and reads *)

Section StatusFacts.



Lemma find_order_state (order_id : string) (db db' : Database)
    (r : result Order) :
  find_order order_id db = (r, db') -> db' = db.
Proof.
  unfold find_order, bind, get, ret, raise.
  destruct (orders db !! order_id); [by intros [= _ <-] |].
  destruct (order_by_number order_id db); by intros [= _ <-].
Qed.



Lemma getitem_state {S} (d : gmap string string) (key : string) (s s' : S)
    (r : result string) :
  getitem d key s = (r, s') -> s' = s.
Proof. unfold getitem. destruct (d !! key); by intros [= _ <-]. Qed.

End StatusFacts.







(** ** create_order_from_data: the run of an accepted payload *)

Section CreateRun.

Lemma get_published_variant_Some (vid : uuid) (db : Database)
    (v : ProductVariant) (p : Product) :
  get_published_variant vid db = Some (v, p) ->
  variants db !! vid = Some v /\ products db !! v_product v = Some p.
Proof.
  unfold get_published_variant.
  destruct (variants db !! vid) as [v' |]; [| done].
  destruct (products db !! v_product v') as [p' |] eqn:Hp; [| done].
  destruct (_ && _); [| done]. by intros [= <- <-].
Qed.

(** The first loop on purchasable line items: one entry per line item. *)
Lemma collect_items_ok (items : list ItemData) (subtotal : Decimal)
    (acc : list ItemEntry) (db : Database) :
  forallb (purchasable db) items = true ->
  exists subtotal' entries,
    collect_items items subtotal acc db = (Ok (subtotal', acc ++ entries), db)
    /\ Forall2 (entry_for db) items entries.
Proof.
  revert subtotal acc.
  induction items as [| i rest IH]; intros subtotal acc Hall.
  - exists subtotal, []. rewrite app_nil_r. split; [done | constructor].
  - cbn [forallb] in Hall. apply andb_true_iff in Hall as [Hi Hall].
    cbn [collect_items]. unfold bind, get, ret, raise.
    unfold purchasable in Hi.
    destruct (it_variant_id i) as [vid |] eqn:Hvid; [| done].
    destruct (get_published_variant vid db) as [[v p] |] eqn:Hget; [| done].
    destruct (Z.ltb_spec (v_stock v) (default 1 (it_quantity i))) as [| Hle];
      [done |].
    match goal with
    | |- context [collect_items rest ?s (acc ++ [?e]) db] =>
        destruct (IH s (acc ++ [e]) Hall) as (sub' & entries & Hrun & Hrel);
        exists sub', (e :: entries)
    end.
    rewrite Hrun, <- app_assoc. split; [done |].
    constructor; [| done]. exists vid, p. cbn [e_variant e_quantity].
    by split_and!.
Qed.

Lemma OrderItem_save_keeps (self : OrderItem) (db : Database) :
  (forall vid, oi_variant self = Some vid ->
     exists v p, variants db !! vid = Some v
                 /\ products db !! v_product v = Some p) ->
  exists self',
    OrderItem_save self db
    = (Ok self', on_order_items (<[oi_id self := self']>) db)
    /\ oi_quantity self' = oi_quantity self
    /\ oi_variant self' = oi_variant self
    /\ oi_order self' = oi_order self.
Proof.
  intros Hfk. unfold OrderItem_save.
  assert (Hsnap : exists snap, snapshot_product self db = (Ok snap, db)
                    /\ oi_quantity snap = oi_quantity self
                    /\ oi_variant snap = oi_variant self
                    /\ oi_order snap = oi_order self
                    /\ oi_id snap = oi_id self).
  { unfold snapshot_product.
    destruct (oi_variant self) as [vid |] eqn:Hvar; [| by exists self].
    destruct (bool_decide (oi_product_title self = "")); [| by exists self].
    destruct (Hfk vid eq_refl) as (v & p & Hv & Hp).
    unfold variant_with_product, bind, get, ret. rewrite Hv, Hp.
    by eexists. }
  destruct Hsnap as (snap & Hrun & Hq & Hvar & Hord & Hid).
  rewrite (bind_ok _ _ _ _ _ Hrun). unfold bind, modify, ret.
  eexists. cbn [oi_id with_total_price oi_quantity oi_variant oi_order].
  rewrite Hid. by split_and!.
Qed.

Lemma stock_written_product (self : ProductVariant) (x : Z)
    (m : gmap uuid ProductVariant) (k : uuid) :
  v_product <$> (alter (with_stock x) (v_id self)
                   (if v_is_default self
                    then clear_default_variant self <$> m else m) !! k)
  = v_product <$> (m !! k).
Proof.
  set (m0 := if v_is_default self then clear_default_variant self <$> m else m).
  assert (Hclear : v_product <$> (m0 !! k) = v_product <$> (m !! k)).
  { unfold m0. destruct (v_is_default self); [| done]. rewrite lookup_fmap.
    destruct (m !! k) as [row |]; [| done]. cbn.
    by rewrite clear_variant_product. }
  destruct (decide (k = v_id self)) as [-> | Hne].
  - rewrite lookup_alter_eq, <- Hclear. by destruct (m0 !! v_id self).
  - by rewrite lookup_alter_ne.
Qed.

(** The second loop: every entry gives one item of the order, and the
    row of a variant ends with the stock its last entry wrote. *)
Lemma persist_items_spec (order : Order) (entries : list ItemEntry)
    (acc : list OrderItem) (db : Database) :
  (forall e, In e entries ->
     exists prod p,
       v_product <$> (variants db !! v_id (e_variant e)) = Some prod
       /\ products db !! prod = Some p) ->
  (forall e, In e entries -> e_quantity e <= v_stock (e_variant e)) ->
  exists ois db',
    persist_items order entries acc db = (Ok (acc ++ ois), db')
    /\ oi_quantity <$> ois = e_quantity <$> entries
    /\ oi_variant <$> ois = (fun e => Some (v_id (e_variant e))) <$> entries
    /\ Forall (fun oi => oi_order oi = o_id order) ois
    /\ products db' = products db /\ addresses db' = addresses db
    /\ orders db' = orders db
    /\ forall k, v_stock <$> (variants db' !! k)
                 = (fun s => default s (written_stock k entries))
                     <$> (v_stock <$> (variants db !! k)).
Proof.
  revert acc db.
  induction entries as [| e rest IH]; intros acc db Hrows Hfit.
  - exists [], db. rewrite app_nil_r. cbn [persist_items written_stock].
    split_and!; try done. intros k. by destruct (variants db !! k).
  - cbn [persist_items]. unfold create_order_item.
    unfold bind at 1. unfold bind at 1, get at 1.
    match goal with
    | |- context [OrderItem_save ?i db] => set (new_item := i)
    end.
    destruct (Hrows e) as (prod & p & Hprod & Hp); [by left |].
    destruct (variants db !! v_id (e_variant e)) as [row |] eqn:Hrow;
      [| done].
    injection Hprod as Hprod.
    destruct (OrderItem_save_keeps new_item db) as (oi & Hoi & Hq & Hvar & Hord).
    { intros vid [= <-]. exists row, p. by rewrite Hprod. }
    rewrite Hoi. unfold bind at 1.
    rewrite reduce_stock_eq by (apply Hfit; by left).
    set (db1 := on_variants _ _).
    assert (Hstock1 : forall k,
              v_stock <$> (variants db1 !! k)
              = (fun s => if decide (k = v_id (e_variant e))
                          then v_stock (e_variant e) - e_quantity e else s)
                  <$> (v_stock <$> (variants db !! k))).
    { intros k. unfold db1, on_variants, on_order_items; cbn [variants].
      apply (stock_written_lookup (e_variant e)). }
    assert (Hprod1 : forall k,
              v_product <$> (variants db1 !! k)
              = v_product <$> (variants db !! k)).
    { intros k. unfold db1, on_variants, on_order_items; cbn [variants].
      apply stock_written_product. }
    destruct (IH (acc ++ [oi]) db1) as (ois & db' & Hrun & Hqs & Hvars & Hords
                                        & Fp & Fa & Fo & Hstock).
    { intros e' He'. destruct (Hrows e') as (prod' & p' & Hprod' & Hp');
        [by right |].
      exists prod', p'. by rewrite Hprod1. }
    { intros e' He'. apply Hfit. by right. }
    exists (oi :: ois), db'. rewrite Hrun, <- app_assoc.
    split; [done |]. cbn [fmap list_fmap].
    split; [by rewrite Hq, <- Hqs |].
    split; [by rewrite Hvar, <- Hvars |].
    split; [by constructor |].
    split; [by rewrite Fp |]. split; [by rewrite Fa |].
    split; [by rewrite Fo |].
    intros k. rewrite Hstock, Hstock1. cbn [written_stock].
    destruct (variants db !! k) as [row0 |]; [| done]. cbn. f_equal.
    destruct (written_stock k rest) as [s0 |]; [done |].
    destruct (decide (k = v_id (e_variant e))) as [-> | Hne].
    + by rewrite bool_decide_eq_true_2.
    + by rewrite bool_decide_eq_false_2.
Qed.

Lemma entries_quantities (db : Database) (items : list ItemData)
    (entries : list ItemEntry) :
  variants_wf (variants db) ->
  Forall2 (entry_for db) items entries ->
  e_quantity <$> entries = (fun i => default 1 (it_quantity i)) <$> items
  /\ (fun e => Some (v_id (e_variant e))) <$> entries = it_variant_id <$> items.
Proof.
  intros Hwf. induction 1 as [| i e items entries Hie _ [IHq IHv]]; [done |].
  destruct Hie as (vid & p & Hvid & Hget & Hq & _).
  apply get_published_variant_Some in Hget as [Hrow _].
  cbn [fmap list_fmap]. rewrite Hq, Hvid, (Hwf _ _ Hrow). split; by f_equal.
Qed.

Lemma written_stock_last (db : Database) (items : list ItemData)
    (entries : list ItemEntry) (k : uuid) (row : ProductVariant) :
  variants_wf (variants db) -> variants db !! k = Some row ->
  Forall2 (entry_for db) items entries ->
  written_stock k entries
  = (fun q => v_stock row - q) <$> last_quantity k items.
Proof.
  intros Hwf Hk. induction 1 as [| i e items entries Hie _ IH]; [done |].
  cbn [written_stock last_quantity]. rewrite IH.
  destruct (last_quantity k items) as [q |]; [done |]. cbn.
  destruct Hie as (vid & p & Hvid & Hget & Hq & _).
  apply get_published_variant_Some in Hget as [Hrow _].
  rewrite Hvid, (Hwf _ _ Hrow).
  destruct (decide (vid = k)) as [-> | Hne].
  - rewrite !bool_decide_eq_true_2 by done. cbn.
    rewrite Hk in Hrow. injection Hrow as <-. by rewrite Hq.
  - rewrite !bool_decide_eq_false_2; [done | congruence | done].
Qed.

Lemma last_quantity_in (k : uuid) (items : list ItemData) (q : Z) :
  last_quantity k items = Some q ->
  exists item, In item items /\ it_variant_id item = Some k
               /\ q = default 1 (it_quantity item).
Proof.
  induction items as [| i rest IH]; [done |]. cbn [last_quantity].
  destruct (last_quantity k rest) as [q' |].
  - intros [= <-]. destruct (IH eq_refl) as (item & Hin & ?).
    exists item. split; [by right | done].
  - case_bool_decide as Hi; [| done]. intros [= <-].
    exists i. split; [by left | done].
Qed.

Lemma filter_Permutation {A} (f : A -> bool) (l l' : list A) :
  l ≡ₚ l' -> List.filter f l ≡ₚ List.filter f l'.
Proof.
  induction 1 as [| x l l' _ IH | x y l | l l' l'' _ IH1 _ IH2]; cbn.
  - done.
  - destruct (f x); [by constructor | done].
  - destruct (f x), (f y); try done. apply perm_swap.
  - by etrans.
Qed.

Lemma filter_none {A} (f : A -> bool) (l : list A) :
  (forall x, In x l -> f x = false) -> List.filter f l = [].
Proof.
  induction l as [| x l IH]; [done |]. intros Hall. cbn.
  rewrite (Hall x) by (by left). apply IH. intros y Hy. apply Hall. by right.
Qed.

Lemma quantity_of_Permutation (k : uuid) (l l' : list OrderItem) :
  l ≡ₚ l' -> quantity_of k l = quantity_of k l'.
Proof.
  induction 1 as [| x l l' _ IH | x y l | l l' l'' _ IH1 _ IH2];
    cbn [quantity_of]; lia.
Qed.

Lemma items_of_insert (order : Order) (i : uuid) (x : OrderItem)
    (db : Database) :
  order_items db !! i = None ->
  items_of order (on_order_items (<[i := x]>) db)
  ≡ₚ (if bool_decide (oi_order x = o_id order) then [x] else [])
     ++ items_of order db.
Proof.
  intros Hnone. unfold items_of, on_order_items; cbn [order_items].
  etrans.
  { apply filter_Permutation, fmap_Permutation, map_to_list_insert, Hnone. }
  cbn [fmap list_fmap snd List.filter].
  by destruct (bool_decide (oi_order x = o_id order)).
Qed.

(** The second loop, seen from the items of the order: they are the
    items the loop returns, added to those the store held. *)
Lemma persist_items_items (order : Order) (entries : list ItemEntry)
    (acc : list OrderItem) (db : Database) :
  (forall e, In e entries ->
     exists prod p,
       v_product <$> (variants db !! v_id (e_variant e)) = Some prod
       /\ products db !! prod = Some p) ->
  (forall e, In e entries -> e_quantity e <= v_stock (e_variant e)) ->
  exists ois db',
    persist_items order entries acc db = (Ok (acc ++ ois), db')
    /\ (forall k, v_id <$> (variants db' !! k) = v_id <$> (variants db !! k))
    /\ items_of order db' ≡ₚ ois ++ items_of order db.
Proof.
  revert acc db.
  induction entries as [| e rest IH]; intros acc db Hrows Hfit.
  - exists [], db. rewrite app_nil_r. by cbn [persist_items].
  - cbn [persist_items]. unfold create_order_item.
    unfold bind at 1. unfold bind at 1, get at 1.
    match goal with
    | |- context [OrderItem_save ?i db] => set (new_item := i)
    end.
    destruct (Hrows e) as (prod & p & Hprod & Hp); [by left |].
    destruct (variants db !! v_id (e_variant e)) as [row |] eqn:Hrow;
      [| done].
    injection Hprod as Hprod.
    destruct (OrderItem_save_keeps new_item db) as (oi & Hoi & _ & _ & Hord).
    { intros vid [= <-]. exists row, p. by rewrite Hprod. }
    rewrite Hoi. unfold bind at 1.
    rewrite reduce_stock_eq by (apply Hfit; by left).
    set (db1 := on_variants _ _).
    assert (Hid1 : forall k,
              v_id <$> (variants db1 !! k) = v_id <$> (variants db !! k)).
    { intros k. unfold db1, on_variants, on_order_items; cbn [variants].
      apply (stock_written_lookup (e_variant e)). }
    assert (Hprod1 : forall k,
              v_product <$> (variants db1 !! k)
              = v_product <$> (variants db !! k)).
    { intros k. unfold db1, on_variants, on_order_items; cbn [variants].
      apply stock_written_product. }
    assert (Hitems1 : items_of order db1 ≡ₚ oi :: items_of order db).
    { change (items_of order db1)
        with (items_of order (on_order_items (<[oi_id new_item := oi]>) db)).
      rewrite items_of_insert by apply uuid4_fresh.
      rewrite bool_decide_eq_true_2; [done |]. by rewrite Hord. }
    destruct (IH (acc ++ [oi]) db1) as (ois & db' & Hrun & Hids & Hperm).
    { intros e' He'. destruct (Hrows e') as (prod' & p' & Hprod' & Hp');
        [by right |].
      exists prod', p'. by rewrite Hprod1. }
    { intros e' He'. apply Hfit. by right. }
    exists (oi :: ois), db'. rewrite Hrun, <- app_assoc.
    split; [done |]. split; [intros k; by rewrite Hids |].
    rewrite Hperm, Hitems1. cbn [app]. symmetry. apply Permutation_middle.
Qed.

Lemma quantity_of_ordered (k : uuid) (ois : list OrderItem)
    (items : list ItemData) :
  oi_quantity <$> ois = (fun i => default 1 (it_quantity i)) <$> items ->
  oi_variant <$> ois = it_variant_id <$> items ->
  quantity_of k ois = ordered_quantity k items.
Proof.
  revert items. induction ois as [| oi ois IH]; intros [| i items]; try done.
  cbn [fmap list_fmap]. intros [= Hq Hqs] [= Hv Hvs].
  cbn [quantity_of ordered_quantity]. by rewrite Hq, Hv, (IH items).
Qed.

Lemma in_address_rows_items (x : OrderItem) (m : gmap uuid OrderItem) :
  In x (map_to_list m).*2 -> exists k, m !! k = Some x.
Proof.
  rewrite <- list_elem_of_In, list_elem_of_fmap.
  intros ([k x'] & -> & Hin). exists k. by apply elem_of_map_to_list in Hin.
Qed.

Lemma Forall2_in_r {A B} (R : A -> B -> Prop) (l1 : list A) (l2 : list B)
    (y : B) :
  Forall2 R l1 l2 -> In y l2 -> exists x, In x l1 /\ R x y.
Proof.
  induction 1 as [| x y' l1 l2 Hxy _ IH]; [done |].
  intros [<- | Hin].
  - exists x. split; [by left | done].
  - destruct (IH Hin) as (x' & Hx' & HR). exists x'. split; [by right | done].
Qed.

Lemma create_order_run (env : Env) (data : OrderData) (user : option User)
    (db : Database) (items : list ItemData) :
  validation_errors data = [] -> guest_consistent user data = true ->
  billing_complete data ->
  d_items data = Some (ItemList items) ->
  forallb (purchasable db) items = true ->
  variants_wf (variants db) ->
  (forall k row, orders db !! k = Some row ->
                 o_order_number row <> generate_order_number env) ->
  exists order ois db',
    create_order_from_data env data user db = (Ok (order, ois), db')
    /\ o_status order = STATUS_PENDING
    /\ o_payment_status order = PAYMENT_PENDING
    /\ o_user order = user_id <$> user
    /\ o_order_number order = generate_order_number env
    /\ orders db !! o_id order = None
    /\ orders db' = <[o_id order := order]> (orders db)
    /\ products db' = products db
    /\ oi_quantity <$> ois = (fun i => default 1 (it_quantity i)) <$> items
    /\ oi_variant <$> ois = it_variant_id <$> items
    /\ Forall (fun oi => oi_order oi = o_id order) ois
    /\ (forall k, v_stock <$> (variants db' !! k)
                  = (fun s => from_option (fun q => s - q) s
                                          (last_quantity k items))
                      <$> (v_stock <$> (variants db !! k)))
    /\ (forall k, v_id <$> (variants db' !! k) = v_id <$> (variants db !! k))
    /\ ((forall i x, order_items db !! i = Some x -> oi_order x <> o_id order) ->
        items_of order db' ≡ₚ ois).
Proof.
  intros Hvalid Hguest Hbill Hitems Hall Hwf Hfree.
  destruct (create_order_body_reaches_items env data user db _
              Hvalid Hguest Hbill Hitems) as (sa & ba & db1 & Hframe & Hbody).
  pose proof Hframe as (Fp & Fv & Fo & Fi).
  rewrite <- (purchasable_all_frame db db1 items Hframe) in Hall.
  destruct (collect_items_ok items (Dec.cents 0) [] db1 Hall)
    as (subtotal & entries & Hcollect & Hrel).
  rewrite Hcollect in Hbody. cbn [app] in Hbody.
  assert (Hwf1 : variants_wf (variants db1)) by (by rewrite Fv).
  (* the amounts *)
  destruct (validation_errors_numbers _ Hvalid) as (N1 & N2 & N3 & [pm Hpm]).
  destruct (normalized_numbers data) as (E1 & E2 & E3).
  unfold place_order in Hbody. rewrite E1, E2, E3, normalized_str in Hbody.
  destruct (ensure_decimal_ok _ _ db1 N1) as (shipping_cost & R1).
  destruct (ensure_decimal_ok _ _ db1 N2) as (tax_rate & R2).
  destruct (ensure_decimal_ok _ _ db1 N3) as (discount_amount & R3).
  rewrite (bind_ok _ _ _ _ _ R1), (bind_ok _ _ _ _ _ R2),
    (bind_ok _ _ _ _ _ R3) in Hbody.
  destruct (div_is_Some (Dec.mul subtotal tax_rate) (Dec.cents 10000))
    as (tax_amount & Htax); [done |].
  rewrite Htax in Hbody. unfold bind at 1, ret at 1 in Hbody.
  rewrite (bind_ok _ _ _ _ _ (getitem_ok _ _ _ db1 Hpm)) in Hbody.
  unfold bind at 1, get at 1 in Hbody.
  (* the order *)
  match type of Hbody with
  | context [Order_save env ?o] => set (new_order := o) in Hbody
  end.
  assert (Hsave : Order_save env new_order db1
                  = (Ok (saved_order env new_order),
                     on_orders (<[o_id new_order := saved_order env new_order]>) db1)).
  { rewrite Order_save_unfold.
    destruct (order_number_taken _ db1) eqn:Htaken;
      [| by rewrite saved_order_id].
    apply order_number_taken_true in Htaken as (k & row & Hrow & _ & Hnum).
    rewrite saved_order_number_new in Hnum by reflexivity.
    rewrite Fo in Hrow. by destruct (Hfree k row Hrow). }
  rewrite (bind_ok _ _ _ _ _ Hsave) in Hbody.
  set (order := saved_order env new_order) in *.
  set (db2 := on_orders _ db1) in *.
  (* the items and the stock *)
  assert (Hrows : forall e, In e entries ->
            exists prod p,
              v_product <$> (variants db2 !! v_id (e_variant e)) = Some prod
              /\ products db2 !! prod = Some p).
  { intros e He.
    destruct (Forall2_in_r _ _ _ e Hrel He) as (i & _ & Hie).
    destruct Hie as (vid & p & _ & Hget & _).
    apply get_published_variant_Some in Hget as [Hrow Hp].
    exists (v_product (e_variant e)), p.
    unfold db2, on_orders; cbn [variants products].
    by rewrite (Hwf1 _ _ Hrow), Hrow. }
  assert (Hfit : forall e, In e entries ->
            e_quantity e <= v_stock (e_variant e)).
  { intros e He.
    destruct (Forall2_in_r _ _ _ e Hrel He) as (i & _ & Hie).
    by destruct Hie as (vid & p & _ & _ & _ & Hle). }
  destruct (persist_items_spec order entries [] db2 Hrows Hfit)
    as (ois & db3 & Hpersist & Hqs & Hvars & Hords & Gp & Ga & Go & Hstock).
  destruct (persist_items_items order entries [] db2 Hrows Hfit)
    as (ois' & db3' & Hpersist' & Hids & Hperm).
  rewrite Hpersist in Hpersist'. cbn [app] in Hpersist'.
  injection Hpersist' as <- <-.
  cbn [app] in Hpersist.
  rewrite (bind_ok _ _ _ _ _ Hpersist) in Hbody. unfold ret in Hbody.
  destruct (entries_quantities db1 items entries Hwf1 Hrel) as [Eq Ev].
  assert (Hid : o_id order = uuid4 (orders db1)).
  { unfold order. by rewrite saved_order_id. }
  exists order, ois, db3. split.
  { unfold create_order_from_data. apply atomic_ok. exact Hbody. }
  split; [unfold order, saved_order; by case_bool_decide |].
  split; [unfold order, saved_order; by case_bool_decide |].
  split; [unfold order, saved_order; by case_bool_decide |].
  split; [unfold order; by rewrite saved_order_number_new |].
  split; [rewrite Hid, <- Fo; apply uuid4_fresh |].
  split; [rewrite Go, Hid; unfold db2, on_orders; cbn [orders];
          change (o_id new_order) with (uuid4 (orders db1)); by rewrite Fo |].
  split; [rewrite Gp; unfold db2, on_orders; cbn [products]; exact Fp |].
  split; [by rewrite Hqs |]. split; [by rewrite Hvars |].
  split; [exact Hords |].
  split.
  { intros k. rewrite Hstock. unfold db2, on_orders; cbn [variants].
    rewrite Fv. destruct (variants db !! k) as [row |] eqn:Hk; [| done].
    cbn. f_equal. rewrite <- Fv in Hk.
    rewrite (written_stock_last db1 items entries k row Hwf1 Hk Hrel).
    by destruct (last_quantity k items). }
  split.
  { intros k. rewrite Hids. unfold db2, on_orders; cbn [variants].
    by rewrite Fv. }
  intros Hnone. rewrite Hperm.
  assert (Hold : items_of order db2 = []).
  { unfold items_of, db2, on_orders; cbn [order_items]. rewrite Fi.
    apply filter_none. intros x Hx.
    apply in_address_rows_items in Hx as (i & Hi).
    apply bool_decide_eq_false_2. by apply (Hnone i). }
  rewrite Hold. by rewrite app_nil_r.
Qed.

End CreateRun.

(** X20. A valid payload of a consistent caller whose line items each
    name an active variant of a published product with enough stock is
    accepted when the generated order number is free:
    [create_order_from_data] returns a new pending order of the caller
    with one item per line item, in the order and with the quantities of
    the payload.  Each line item was checked against, and is deducted
    from, the stock read for it before any write, so the row of a
    variant ends at its old stock less the quantity of the last line item
    that names it; no stock becomes negative. *)
Theorem create_order_accepts_purchasable_items (env : Env) (data : OrderData)
    (user : option User) (db : Database) (items : list ItemData) :
  validation_errors data = [] -> guest_consistent user data = true ->
  billing_complete data ->
  d_items data = Some (ItemList items) ->
  forallb (purchasable db) items = true ->
  variants_wf (variants db) ->
  (forall k row, orders db !! k = Some row ->
                 o_order_number row <> generate_order_number env) ->
  exists order ois db',
    create_order_from_data env data user db = (Ok (order, ois), db')
    /\ o_status order = STATUS_PENDING
    /\ o_payment_status order = PAYMENT_PENDING
    /\ o_user order = user_id <$> user
    /\ o_order_number order = generate_order_number env
    /\ orders db !! o_id order = None
    /\ orders db' = <[o_id order := order]> (orders db)
    /\ oi_quantity <$> ois = (fun i => default 1 (it_quantity i)) <$> items
    /\ oi_variant <$> ois = it_variant_id <$> items
    /\ Forall (fun oi => oi_order oi = o_id order) ois
    /\ (forall k, v_stock <$> (variants db' !! k)
                  = (fun s => from_option (fun q => s - q) s
                                          (last_quantity k items))
                      <$> (v_stock <$> (variants db !! k)))
    /\ (stock_nonnegative (variants db) -> stock_nonnegative (variants db')).
Proof.
  intros Hvalid Hguest Hbill Hitems Hall Hwf Hfree.
  destruct (create_order_run env data user db items Hvalid Hguest Hbill
              Hitems Hall Hwf Hfree)
    as (order & ois & db' & Hrun & Hs & Hp & Hu & Hn & Hnew & Ho & _ & Hq & Hv
        & Hord & Hstock & _).
  exists order, ois, db'. split_and!; try done.
  intros Hnn k v' Hk'. pose proof (Hstock k) as Hsk. rewrite Hk' in Hsk.
  destruct (variants db !! k) as [row |] eqn:Hrow; [| done].
  cbn in Hsk. injection Hsk as ->.
  destruct (last_quantity k items) as [q |] eqn:Hlast; cbn;
    [| by apply (Hnn k row)].
  apply last_quantity_in in Hlast as (item & Hin & Hvid & ->).
  rewrite forallb_forall in Hall. specialize (Hall item Hin).
  unfold purchasable in Hall. rewrite Hvid in Hall.
  destruct (get_published_variant k db) as [[v p] |] eqn:Hget; [| done].
  apply get_published_variant_Some in Hget as [Hv' _].
  rewrite Hrow in Hv'. injection Hv' as <-.
  destruct (Z.ltb_spec (v_stock row) (default 1 (it_quantity item)));
    [done | lia].
Qed.

(** X21. Two line items on the same variant are each checked against
    the full stock, and the second deduction overwrites the first: when
    each quantity alone is within the stock, the order is accepted with
    both items, also when together they exceed the stock, and the stock
    of the variant drops by the second quantity only. *)
Theorem duplicate_line_items_oversell (env : Env) (data : OrderData)
    (user : option User) (db : Database) (i1 i2 : ItemData) (vid : uuid)
    (v : ProductVariant) (p : Product) (q1 q2 : Z) :
  validation_errors data = [] -> guest_consistent user data = true ->
  billing_complete data ->
  d_items data = Some (ItemList [i1; i2]) ->
  it_variant_id i1 = Some vid -> it_variant_id i2 = Some vid ->
  it_quantity i1 = Some q1 -> it_quantity i2 = Some q2 ->
  variants db !! vid = Some v -> v_is_active v = true ->
  products db !! v_product v = Some p -> p_status p = "published" ->
  q1 <= v_stock v -> q2 <= v_stock v ->
  variants_wf (variants db) ->
  (forall k row, orders db !! k = Some row ->
                 o_order_number row <> generate_order_number env) ->
  exists order ois db',
    create_order_from_data env data user db = (Ok (order, ois), db')
    /\ oi_quantity <$> ois = [q1; q2]
    /\ oi_variant <$> ois = [Some vid; Some vid]
    /\ v_stock <$> (variants db' !! vid) = Some (v_stock v - q2).
Proof.
  intros Hvalid Hguest Hbill Hitems Hv1 Hv2 Hq1 Hq2 Hv Hact Hp Hpub Hle1 Hle2
    Hwf Hfree.
  assert (Hget : get_published_variant vid db = Some (v, p)).
  { unfold get_published_variant. rewrite Hv, Hp, Hact, Hpub.
    by rewrite bool_decide_eq_true_2. }
  assert (Hall : forallb (purchasable db) [i1; i2] = true).
  { cbn [forallb]. unfold purchasable.
    rewrite Hv1, Hv2, Hget, Hq1, Hq2. cbn [default from_option id].
    destruct (Z.ltb_spec (v_stock v) q1); [lia |].
    destruct (Z.ltb_spec (v_stock v) q2); [lia | done]. }
  destruct (create_order_run env data user db [i1; i2] Hvalid Hguest Hbill
              Hitems Hall Hwf Hfree)
    as (order & ois & db' & Hrun & _ & _ & _ & _ & _ & _ & _ & Hq & Hvar
        & _ & Hstock & _).
  exists order, ois, db'. split; [exact Hrun |].
  split; [by rewrite Hq; cbn; rewrite Hq1, Hq2 |].
  split; [by rewrite Hvar; cbn; rewrite Hv1, Hv2 |].
  rewrite Hstock, Hv. cbn [last_quantity]. rewrite Hv2, Hq2.
  by rewrite bool_decide_eq_true_2.
Qed.

(** ** Cancelling again after a status reset *)

Section Recancel.

Lemma orders_wf_replace (db db1 : Database) (o o' : Order) :
  orders_wf db -> orders db !! o_id o = Some o -> orders db1 = orders db ->
  o_id o' = o_id o -> o_order_number o' = o_order_number o ->
  orders_wf (on_orders (<[o_id o := o']>) db1).
Proof.
  intros Hwf Ho Heq Hid Hnum k x Hk.
  unfold on_orders in *; cbn [orders] in *. rewrite Heq in *.
  destruct (Hwf _ _ Ho) as (_ & Hne & Huniq).
  destruct (decide (k = o_id o)) as [-> | Hk'].
  - rewrite lookup_insert_eq in Hk. injection Hk as <-.
    split; [done |]. split; [by rewrite Hnum |].
    intros k' x' Hx' Hsame.
    destruct (decide (k' = o_id o)) as [| Hk'']; [done |].
    rewrite lookup_insert_ne in Hx' by done.
    apply (Huniq k' x' Hx'). by rewrite Hsame.
  - rewrite lookup_insert_ne in Hk by done.
    destruct (Hwf _ _ Hk) as (Hidx & Hnex & Huniqx).
    split; [done |]. split; [done |].
    intros k' x' Hx' Hsame.
    destruct (decide (k' = o_id o)) as [-> | Hk''].
    + rewrite lookup_insert_eq in Hx'. injection Hx' as <-.
      exfalso. apply Hk'. symmetry. apply (Huniqx (o_id o) o Ho).
      by rewrite <- Hnum.
    + rewrite lookup_insert_ne in Hx' by done. by apply (Huniqx k' x').
Qed.


Lemma cancel_order_run (env : Env) (order_id : string) (user : option User)
    (reason : string) (db : Database) (o : Order) :
  orders_wf db -> variants_wf (variants db) ->
  find_order order_id db = (Ok o, db) ->
  denied user o = false -> can_cancel o = true ->
  exists o' db',
    cancel_order env order_id user reason db = (Ok o', db')
    /\ (forall k, v_stock <$> (variants db' !! k)
                  = (fun s => s + quantity_of k (items_of o db))
                      <$> (v_stock <$> (variants db !! k)))
    /\ orders_wf db' /\ variants_wf (variants db')
    /\ order_items db' = order_items db
    /\ find_order order_id db' = (Ok o', db')
    /\ o_id o' = o_id o /\ o_user o' = o_user o
    /\ o_status o' = STATUS_CANCELLED.
Proof.
  intros Hwf Hvwf Hfind Hden Hcan.
  pose proof (find_order_in _ _ _ _ Hwf Hfind) as Ho.
  destruct (cancel_order_commits env order_id user reason db o)
    as (db1 & Hrestore & Hrun); [done.. |].
  destruct (restore_stock_spec (items_of o db) (variants db) db Hvwf)
    as (db1' & Hrestore' & _ & _ & Horders & Hitems & Hids & Hstock); [done |].
  rewrite Hrestore in Hrestore'. injection Hrestore' as <-.
  destruct (cancelled_order_keeps env user reason o)
    as (Hid & Hnum & Huser & Hstatus & _).
  eexists _, _. split; [exact Hrun |].
  split; [exact Hstock |].
  split; [by apply (orders_wf_replace db) |].
  split.
  { intros k v Hk. unfold on_orders in Hk; cbn [variants] in Hk.
    pose proof (Hids k) as Hidk. rewrite Hk in Hidk.
    destruct (variants db !! k) as [row |] eqn:Hrow; [| done].
    cbn in Hidk. injection Hidk as ->. by apply Hvwf. }
  split; [exact Hitems |].
  split; [by apply (find_order_replaced order_id db) |].
  by split_and!.
Qed.

End Recancel.


(** ** Creating an order and cancelling it *)

Section CreateCancel.

Lemma generate_order_number_nonempty (env : Env) :
  generate_order_number env <> "".
Proof. rewrite generate_order_number_eq. discriminate. Qed.

Lemma orders_wf_insert_new (db db' : Database) (order : Order) :
  orders_wf db -> orders db !! o_id order = None ->
  orders db' = <[o_id order := order]> (orders db) ->
  o_order_number order <> "" ->
  (forall k row, orders db !! k = Some row ->
                 o_order_number row <> o_order_number order) ->
  orders_wf db'.
Proof.
  intros Hwf Hnew Heq Hne Hfree k x Hk. rewrite Heq in *.
  destruct (decide (k = o_id order)) as [-> | Hk'].
  - rewrite lookup_insert_eq in Hk. injection Hk as <-.
    split; [done |]. split; [done |]. intros k' x' Hx' Hsame.
    destruct (decide (k' = o_id order)) as [| Hk'']; [done |].
    rewrite lookup_insert_ne in Hx' by done.
    by destruct (Hfree k' x' Hx').
  - rewrite lookup_insert_ne in Hk by done.
    destruct (Hwf _ _ Hk) as (Hidx & Hnex & Huniqx).
    split; [done |]. split; [done |]. intros k' x' Hx' Hsame.
    destruct (decide (k' = o_id order)) as [-> | Hk''].
    + rewrite lookup_insert_eq in Hx'. injection Hx' as <-.
      by destruct (Hfree k x Hk).
    + rewrite lookup_insert_ne in Hx' by done. by apply (Huniqx k' x').
Qed.

Lemma last_quantity_None_ordered (k : uuid) (items : list ItemData) :
  last_quantity k items = None -> ordered_quantity k items = 0.
Proof.
  induction items as [| i rest IH]; [done |].
  cbn [last_quantity ordered_quantity].
  destruct (last_quantity k rest); [done |].
  case_bool_decide; [done |]. intros _. by rewrite IH.
Qed.

Lemma single_line_items_balance (k : uuid) (items : list ItemData) (s : Z) :
  NoDup (it_variant_id <$> items) ->
  from_option (fun q => s - q) s (last_quantity k items)
  + ordered_quantity k items = s.
Proof.
  induction items as [| i rest IH]; [intros _; cbn; lia |].
  cbn [fmap list_fmap]. intros [Hnotin Hnodup]%NoDup_cons.
  specialize (IH Hnodup). cbn [last_quantity ordered_quantity].
  destruct (last_quantity k rest) as [q |] eqn:Hlast.
  - apply last_quantity_in in Hlast as (item & Hin & Hvid & _).
    rewrite bool_decide_eq_false_2; [cbn in *; lia |].
    intros Hi. apply Hnotin. rewrite Hi, <- Hvid.
    apply list_elem_of_fmap. exists item. split; [done |].
    by apply list_elem_of_In.
  - rewrite (last_quantity_None_ordered k rest Hlast) in *.
    case_bool_decide; cbn; lia.
Qed.

End CreateCancel.

(** X23. Creating an order and cancelling it does not always give the
    stock back as it was.  For an accepted payload, the creator's cancel
    of the new order succeeds, and every variant ends at the stock the
    creation left (the old stock less the quantity of the last line item
    on it) plus the quantities of all line items on it.  When no two
    line items name the same variant this is the old stock. *)
Theorem create_then_cancel_stock (env env2 : Env) (data : OrderData)
    (user : option User) (reason : string) (db : Database)
    (items : list ItemData) :
  validation_errors data = [] -> guest_consistent user data = true ->
  billing_complete data ->
  d_items data = Some (ItemList items) ->
  forallb (purchasable db) items = true ->
  variants_wf (variants db) -> orders_wf db ->
  (forall k row, orders db !! k = Some row ->
                 o_order_number row <> generate_order_number env) ->
  (forall i x, order_items db !! i = Some x ->
               is_Some (orders db !! oi_order x)) ->
  exists order ois db1 o' db2,
    create_order_from_data env data user db = (Ok (order, ois), db1)
    /\ cancel_order env2 (o_id order) user reason db1 = (Ok o', db2)
    /\ o_status o' = STATUS_CANCELLED
    /\ (forall k, v_stock <$> (variants db2 !! k)
                  = (fun s => from_option (fun q => s - q) s
                                          (last_quantity k items)
                              + ordered_quantity k items)
                      <$> (v_stock <$> (variants db !! k)))
    /\ (NoDup (it_variant_id <$> items) ->
        forall k, v_stock <$> (variants db2 !! k)
                  = v_stock <$> (variants db !! k)).
Proof.
  intros Hvalid Hguest Hbill Hitems Hall Hvwf Hwf Hfree Href.
  destruct (create_order_run env data user db items Hvalid Hguest Hbill
              Hitems Hall Hvwf Hfree)
    as (order & ois & db1 & Hrun & Hs & _ & Hu & Hn & Hnew & Ho & _ & Hq & Hv
        & _ & Hstock & Hids & Hperm).
  assert (Hwf1 : orders_wf db1).
  { apply (orders_wf_insert_new db db1 order Hwf Hnew Ho).
    - rewrite Hn. apply generate_order_number_nonempty.
    - intros k row Hrow. rewrite Hn. by apply (Hfree k row). }
  assert (Hvwf1 : variants_wf (variants db1)).
  { intros k v Hk. pose proof (Hids k) as Hidk. rewrite Hk in Hidk.
    destruct (variants db !! k) as [row |] eqn:Hrow; [| done].
    cbn in Hidk. injection Hidk as ->. by apply Hvwf. }
  assert (Hfind : find_order (o_id order) db1 = (Ok order, db1)).
  { unfold find_order, bind, get, ret. by rewrite Ho, lookup_insert_eq. }
  assert (Hden : denied user order = false).
  { unfold denied. destruct user as [u |]; [| done]. rewrite Hu. cbn.
    rewrite bool_decide_eq_true_2 by done. by destruct (is_staff u). }
  assert (Hcan : can_cancel order = true).
  { unfold can_cancel. rewrite Hs. vm_compute. reflexivity. }
  destruct (cancel_order_run env2 (o_id order) user reason db1 order Hwf1
              Hvwf1 Hfind Hden Hcan)
    as (o' & db2 & Hrun2 & Hstock2 & _ & _ & _ & _ & _ & _ & Hstatus).
  assert (Hsum : forall k,
            quantity_of k (items_of order db1) = ordered_quantity k items).
  { intros k. rewrite (quantity_of_Permutation k _ ois).
    - by apply quantity_of_ordered.
    - apply Hperm. intros i x Hx Hsame.
      destruct (Href i x Hx) as [row Hrow]. rewrite Hsame in Hrow. congruence. }
  assert (Hfinal : forall k,
            v_stock <$> (variants db2 !! k)
            = (fun s => from_option (fun q => s - q) s (last_quantity k items)
                        + ordered_quantity k items)
                <$> (v_stock <$> (variants db !! k))).
  { intros k. rewrite Hstock2, Hstock, Hsum.
    by destruct (variants db !! k). }
  exists order, ois, db1, o', db2. split_and!; try done.
  intros Hnodup k. rewrite Hfinal.
  destruct (variants db !! k) as [row |]; [| done]. cbn. f_equal.
  by apply single_line_items_balance.
Qed.

(** ** Invariants of the store *)

Section StoreInvariants.

Lemma Order_save_frame (env : Env) (self self' : Order) (db db' : Database) :
  Order_save env self db = (Ok self', db') ->
  variants db' = variants db /\ order_items db' = order_items db.
Proof.
  rewrite Order_save_unfold. destruct (order_number_taken _ db); [done |].
  by intros [= _ <-].
Qed.

Lemma quantity_of_nonneg (k : uuid) (l : list OrderItem) :
  (forall x, In x l -> 0 <= oi_quantity x) -> 0 <= quantity_of k l.
Proof.
  induction l as [| x l IH]; intros Hall; cbn [quantity_of]; [lia |].
  assert (0 <= quantity_of k l) by (apply IH; intros y Hy; apply Hall; by right).
  assert (0 <= oi_quantity x) by (apply Hall; by left).
  case_bool_decide; lia.
Qed.

Lemma items_of_rows (order : Order) (db : Database) (x : OrderItem) :
  In x (items_of order db) -> exists i, order_items db !! i = Some x.
Proof.
  unfold items_of. intros [Hin _]%filter_In. by apply in_address_rows_items.
Qed.

End StoreInvariants.

(** X24. The lifecycle operations keep the invariants of the store.
    From a store where orders and variants sit under their own keys,
    order numbers are non-empty and unique, no stock is negative and no
    item has a negative quantity, a [cancel_order],
    [update_order_status] or [update_payment_status] that returns leaves
    a store where all of this holds again; the order items are not
    touched. *)
Theorem lifecycle_keeps_store_invariants (env : Env) (db db' : Database)
    (o' : Order) :
  orders_wf db -> variants_wf (variants db) ->
  stock_nonnegative (variants db) ->
  (forall i x, order_items db !! i = Some x -> 0 <= oi_quantity x) ->
  (exists order_id user reason,
     cancel_order env order_id user reason db = (Ok o', db'))
  \/ (exists order_id status admin_note carrier,
        update_order_status env order_id status admin_note carrier db
        = (Ok o', db'))
  \/ (exists order_id payment_status intent url,
        update_payment_status env order_id payment_status intent url db
        = (Ok o', db')) ->
  orders_wf db' /\ variants_wf (variants db')
  /\ stock_nonnegative (variants db')
  /\ order_items db' = order_items db.
Proof.
  intros Hwf Hvwf Hnn Hq [Hrun | [Hrun | Hrun]].
  - destruct Hrun as (order_id & user & reason & Hrun).
    destruct (find_order order_id db) as [[o | e0] db0] eqn:Hfind;
      pose proof (find_order_state _ _ _ _ Hfind) as ->.
    + rewrite (cancel_order_eq env order_id user reason db o Hfind) in Hrun.
      destruct (denied user o) eqn:Hden; [done |].
      destruct (can_cancel o) eqn:Hcan; [| done].
      destruct (cancel_order_run env order_id user reason db o Hwf Hvwf Hfind
                  Hden Hcan)
        as (o1 & db1 & Hrun1 & Hstock & Hwf1 & Hvwf1 & Hitems & _).
      rewrite (cancel_order_eq env order_id user reason db o Hfind), Hden, Hcan
        in Hrun1.
      rewrite Hrun in Hrun1. injection Hrun1 as <- <-.
      split_and!; try done.
      intros k v Hk. pose proof (Hstock k) as Hsk. rewrite Hk in Hsk.
      destruct (variants db !! k) as [row |] eqn:Hrow; [| done].
      cbn in Hsk. injection Hsk as ->.
      pose proof (Hnn k row Hrow).
      assert (0 <= quantity_of k (items_of o db)); [| lia].
      apply quantity_of_nonneg. intros x Hx.
      apply items_of_rows in Hx as (i & Hi). by apply (Hq i).
    + unfold cancel_order in Hrun. by rewrite (bind_raise _ _ _ _ _ Hfind) in Hrun.
  - destruct Hrun as (order_id & status & admin_note & carrier & Hrun).
    unfold update_order_status in Hrun.
    destruct (find_order order_id db) as [[o | e0] db0] eqn:Hfind;
      pose proof (find_order_state _ _ _ _ Hfind) as ->.
    + rewrite (bind_ok _ _ _ _ _ Hfind) in Hrun. cbv zeta in Hrun.
      destruct (negb _); [done |].
      pose proof (Order_save_preserves_wf _ _ _ _ _ Hwf Hrun) as Hwf1.
      destruct (Order_save_frame _ _ _ _ _ Hrun) as [Hv Hi].
      rewrite Hv. by split_and!.
    + by rewrite (bind_raise _ _ _ _ _ Hfind) in Hrun.
  - destruct Hrun as (order_id & payment_status & intent & url & Hrun).
    unfold update_payment_status in Hrun.
    destruct (find_order order_id db) as [[o | e0] db0] eqn:Hfind;
      pose proof (find_order_state _ _ _ _ Hfind) as ->.
    + rewrite (bind_ok _ _ _ _ _ Hfind) in Hrun. cbv zeta in Hrun.
      destruct (negb _); [done |].
      pose proof (Order_save_preserves_wf _ _ _ _ _ Hwf Hrun) as Hwf1.
      destruct (Order_save_frame _ _ _ _ _ Hrun) as [Hv Hi].
      rewrite Hv. by split_and!.
    + by rewrite (bind_raise _ _ _ _ _ Hfind) in Hrun.
Qed.

(** * The further properties on the sample store *)

Lemma sample_stock_nonnegative : stock_nonnegative (variants sample_db).
Proof.
  intros k v Hk. cbn [variants sample_db] in Hk.
  apply lookup_insert_Some in Hk as [[<- <-] | [_ Hk]]; [by vm_compute |].
  apply lookup_singleton_Some in Hk as [<- <-]. by vm_compute.
Qed.


Lemma sample_addresses_wf : addresses_wf (addresses sample_db_addresses).
Proof.
  intros k a Hk. cbn [addresses sample_db_addresses on_addresses] in Hk.
  apply lookup_insert_Some in Hk as [[<- <-] | [_ Hk]]; [reflexivity |].
  by apply lookup_singleton_Some in Hk as [<- <-].
Qed.

Lemma sample_addresses_one_default v t :
  one_default (addresses sample_db_addresses) (Some v) t.
Proof.
  intros i j a b Ha Hb _ _ _ _ Da Db.
  cbn [addresses sample_db_addresses on_addresses] in Ha, Hb.
  apply lookup_insert_Some in Ha as [[<- <-] | [_ Ha]];
    apply lookup_insert_Some in Hb as [[<- <-] | [_ Hb]]; [done | | |].
  - apply lookup_singleton_Some in Hb as [<- <-]. discriminate Db.
  - apply lookup_singleton_Some in Ha as [<- <-]. discriminate Da.
  - apply lookup_singleton_Some in Ha as [<- <-]. discriminate Da.
Qed.

Lemma sample_db_free_number k row :
  orders sample_db !! k = Some row ->
  o_order_number row <> generate_order_number sample_env.
Proof.
  intros Hrow. unfold sample_db in Hrow. cbn [orders] in Hrow.
  rewrite lookup_empty in Hrow. discriminate Hrow.
Qed.

Lemma reduce_stock_guarded_witness :
  v_stock sample_white < 5
  /\ exists msg, reduce_stock sample_white 5 sample_db
                 = (Raise (ValueError msg), sample_db).
Proof.
  assert (H : v_stock sample_white < 5) by (vm_compute; reflexivity).
  split; [exact H |].
  exact (proj1 (reduce_stock_guarded sample_white 5 sample_db) H).
Defined.

Lemma reduce_then_increase_restores_witness :
  variants sample_db !! "v1" = Some sample_black
  /\ exists reduced db1 restored db2,
       reduce_stock sample_black 2 sample_db = (Ok reduced, db1)
       /\ increase_stock reduced 2 db1 = (Ok restored, db2)
       /\ v_stock restored = 3
       /\ v_stock <$> (variants db2 !! "v1") = Some 3.
Proof.
  assert (H : variants sample_db !! v_id sample_black = Some sample_black)
    by (vm_compute; reflexivity).
  split; [exact H |].
  destruct (reduce_then_increase_restores sample_black 2 sample_db H)
    as (reduced & db1 & restored & db2 & H1 & H2 & H3 & H4).
  - vm_compute. discriminate.
  - exists reduced, db1, restored, db2. split_and!; [done | done | done |].
    rewrite H4. vm_compute. reflexivity.
Defined.


Lemma has_stock_iff_total_positive_witness :
  total_stock "p1" sample_db = 5
  /\ 0 <= total_stock "p1" sample_db
  /\ (has_stock "p1" sample_db = true <-> 0 < total_stock "p1" sample_db).
Proof.
  split; [vm_compute; reflexivity |].
  exact (has_stock_iff_total_positive "p1" sample_db sample_stock_nonnegative).
Defined.

Lemma valid_payload_shape_witness :
  (validate_order_data (sample_checkout [sample_item "v1" 2])).1.1 = true
  /\ exists items shipping method,
       d_items (sample_checkout [sample_item "v1" 2]) = Some (ItemList items)
       /\ items <> []
       /\ d_shipping_address (sample_checkout [sample_item "v1" 2])
          = Some shipping
       /\ d_str (sample_checkout [sample_item "v1" 2]) !! "payment_method"
          = Some method.
Proof.
  assert (H : (validate_order_data (sample_checkout [sample_item "v1" 2])).1.1
              = true) by (vm_compute; reflexivity).
  split; [exact H |].
  destruct (valid_payload_shape _ H)
    as (items & shipping & method & H1 & H2 & _ & H4 & _ & H6).
  by exists items, shipping, method.
Defined.

Lemma unvalidated_billing_raises_key_error_witness :
  (validate_order_data sample_checkout_billing).1.1 = true
  /\ create_order_from_data sample_env sample_checkout_billing None sample_db
     = (Raise (KeyError "first_name"), sample_db).
Proof.
  assert (H : (validate_order_data sample_checkout_billing).1.1 = true)
    by (vm_compute; reflexivity).
  split; [exact H |].
  apply (unvalidated_billing_raises_key_error sample_env
           sample_checkout_billing None sample_db sample_billing H).
  - vm_compute. reflexivity.
  - reflexivity.
  - reflexivity.
  - vm_compute. reflexivity.
Defined.

Lemma address_reused_for_user_witness :
  exists a,
    _create_or_get_address sample_env sample_address (Some sample_customer)
                           ADDRESS_TYPE_SHIPPING sample_db_addresses
    = (Ok a, sample_db_addresses)
    /\ exists k, addresses sample_db_addresses !! k = Some a.
Proof.
  destruct (address_reused_for_user sample_env sample_address
              (Some sample_customer) ADDRESS_TYPE_SHIPPING
              sample_db_addresses "a1" (sample_saved_address "a1" (Some "u1")))
    as (a & Hrun & Hrow & _).
  - reflexivity.
  - vm_compute. reflexivity.
  - reflexivity.
  - reflexivity.
  - vm_compute. reflexivity.
  - vm_compute. reflexivity.
  - vm_compute. reflexivity.
  - vm_compute. reflexivity.
  - vm_compute. reflexivity.
  - vm_compute. reflexivity.
  - exists a. by split.
Defined.

Lemma guest_address_always_created_witness :
  address_errors "Shipping address" sample_address = []
  /\ exists a,
       get_or_create_guest_address sample_env sample_address
                                   ADDRESS_TYPE_SHIPPING sample_db_addresses
       = (Ok a, on_addresses (<[a_id a := a]>) sample_db_addresses)
       /\ addresses sample_db_addresses !! a_id a = None /\ a_user a = None.
Proof.
  assert (H : address_errors "Shipping address" sample_address = [])
    by (vm_compute; reflexivity).
  split; [exact H |].
  exact (proj2 (guest_address_always_created sample_env "Shipping address"
                  sample_address ADDRESS_TYPE_SHIPPING sample_db_addresses H)).
Defined.

Lemma create_address_reports_first_missing_field_witness :
  truthy (ad_str sample_address_first_name !! "last_name") = false
  /\ create_address_from_data sample_env sample_address_first_name None
                              ADDRESS_TYPE_SHIPPING sample_db
     = (Raise (ValidationError "Missing required field: last_name"), sample_db).
Proof.
  assert (H : truthy (ad_str sample_address_first_name !! "last_name") = false)
    by (vm_compute; reflexivity).
  split; [exact H |].
  apply (create_address_reports_first_missing_field sample_env
           sample_address_first_name None ADDRESS_TYPE_SHIPPING sample_db
           ["first_name"] 
           ["address_line1"; "city"; "state"; "postal_code"; "country";
            "phone"; "email"] "last_name").
  - reflexivity.
  - intros g [<- | []]. vm_compute. reflexivity.
  - exact H.
Defined.

Lemma delete_address_is_soft_witness :
  get_address "a1" (Some sample_customer) sample_db_addresses
  = Some (sample_saved_address "a1" (Some "u1"))
  /\ exists db',
       delete_address "a1" (Some sample_customer) sample_db_addresses
       = (Ok true, db')
       /\ addresses db' !! "a1"
          = Some (with_a_is_active false (sample_saved_address "a1" (Some "u1")))
       /\ forall b, In b (get_user_addresses (Some sample_customer) None true db')
                    -> a_id b <> "a1".
Proof.
  assert (H : get_address "a1" (Some sample_customer) sample_db_addresses
              = Some (sample_saved_address "a1" (Some "u1")))
    by (vm_compute; reflexivity).
  split; [exact H |].
  destruct (delete_address_is_soft "a1" (Some sample_customer)
              sample_db_addresses _ sample_addresses_wf H)
    as (db' & Hrun & Hrow & Hout & _).
  exists db'. by split_and!.
Defined.

Lemma foreign_address_not_found_witness :
  a_user (sample_saved_address "a1" (Some "u1"))
  <> user_id <$> Some sample_stranger
  /\ delete_address "a1" (Some sample_stranger) sample_db_addresses
     = (Raise (ValidationError "Address not found"), sample_db_addresses).
Proof.
  split; [vm_compute; discriminate |].
  apply (foreign_address_not_found "a1" sample_address (Some sample_stranger)
           sample_db_addresses).
  intros a Ha. vm_compute in Ha. injection Ha as <-. vm_compute. discriminate.
Defined.

Lemma set_default_address_unique_witness :
  exists a' db',
    set_default_address "a2" (Some sample_customer) sample_db_addresses
    = (Ok a', db')
    /\ a_is_default a' = true
    /\ a_is_default <$> (addresses db' !! "a1") = Some false.
Proof.
  destruct (set_default_address_unique "a2" sample_customer sample_db_addresses
              (with_a_is_default false (sample_saved_address "a2" (Some "u1")))
              sample_addresses_wf sample_addresses_one_default)
    as (a' & db' & Hrun & _ & Hdef & _).
  - vm_compute. reflexivity.
  - exists a', db'. split; [exact Hrun |]. split; [exact Hdef |].
    assert (Hdb : db' = (set_default_address "a2" (Some sample_customer)
                           sample_db_addresses).2) by (by rewrite Hrun).
    rewrite Hdb. vm_compute. reflexivity.
Defined.









Lemma create_order_accepts_purchasable_items_witness :
  let items := [sample_item "v1" 2; sample_item "v2" 1] in
  forallb (purchasable sample_db) items = true
  /\ exists order ois db',
       create_order_from_data sample_env (sample_checkout items) None sample_db
       = (Ok (order, ois), db')
       /\ o_order_number order = "ORD202403074821"
       /\ oi_quantity <$> ois = [2; 1]
       /\ v_stock <$> (variants db' !! "v1") = Some 1
       /\ v_stock <$> (variants db' !! "v2") = Some 1.
Proof.
  intros items.
  assert (H : forallb (purchasable sample_db) items = true)
    by (vm_compute; reflexivity).
  split; [exact H |].
  destruct (create_order_accepts_purchasable_items sample_env
              (sample_checkout items) None sample_db items)
    as (order & ois & db' & Hrun & _ & _ & _ & Hnum & _ & _ & Hq & _ & _
        & Hstock & _).
  - vm_compute. reflexivity.
  - vm_compute. reflexivity.
  - intros b Hb. discriminate Hb.
  - reflexivity.
  - exact H.
  - exact sample_variants_wf.
  - exact sample_db_free_number.
  - exists order, ois, db'. split; [exact Hrun |].
    split; [rewrite Hnum; vm_compute; reflexivity |].
    split; [exact Hq |].
    split; rewrite Hstock; vm_compute; reflexivity.
Defined.

Lemma duplicate_line_items_oversell_witness :
  let items := [sample_item "v1" 2; sample_item "v1" 3] in
  v_stock sample_black = 3
  /\ exists order ois db',
       create_order_from_data sample_env (sample_checkout items) None sample_db
       = (Ok (order, ois), db')
       /\ oi_quantity <$> ois = [2; 3]
       /\ v_stock <$> (variants db' !! "v1") = Some 0.
Proof.
  intros items. split; [reflexivity |].
  destruct (duplicate_line_items_oversell sample_env (sample_checkout items)
              None sample_db (sample_item "v1" 2) (sample_item "v1" 3) "v1"
              sample_black sample_product 2 3)
    as (order & ois & db' & Hrun & Hq & _ & Hstock).
  - vm_compute. reflexivity.
  - vm_compute. reflexivity.
  - intros b Hb. discriminate Hb.
  - reflexivity.
  - reflexivity.
  - reflexivity.
  - reflexivity.
  - reflexivity.
  - vm_compute. reflexivity.
  - reflexivity.
  - vm_compute. reflexivity.
  - reflexivity.
  - vm_compute. discriminate.
  - vm_compute. discriminate.
  - exact sample_variants_wf.
  - exact sample_db_free_number.
  - exists order, ois, db'. by split_and!.
Defined.


Lemma sample_db_wf : orders_wf sample_db.
Proof.
  intros k o Hk. unfold sample_db in Hk. cbn [orders] in Hk.
  rewrite lookup_empty in Hk. discriminate Hk.
Qed.

Lemma sample_db_items_refer i x :
  order_items sample_db !! i = Some x -> is_Some (orders sample_db !! oi_order x).
Proof.
  intros Hx. unfold sample_db in Hx. cbn [order_items] in Hx.
  rewrite lookup_empty in Hx. discriminate Hx.
Qed.

Lemma create_then_cancel_stock_witness :
  let items := [sample_item "v1" 2; sample_item "v1" 3] in
  v_stock <$> (variants sample_db !! "v1") = Some 3
  /\ exists order ois db1 o' db2,
       create_order_from_data sample_env (sample_checkout items) None sample_db
       = (Ok (order, ois), db1)
       /\ cancel_order sample_env (o_id order) None "" db1 = (Ok o', db2)
       /\ v_stock <$> (variants db2 !! "v1") = Some 5.
Proof.
  intros items. split; [vm_compute; reflexivity |].
  destruct (create_then_cancel_stock sample_env sample_env
              (sample_checkout items) None "" sample_db items)
    as (order & ois & db1 & o' & db2 & Hrun & Hcancel & _ & Hstock & _).
  - vm_compute. reflexivity.
  - vm_compute. reflexivity.
  - intros b Hb. discriminate Hb.
  - reflexivity.
  - vm_compute. reflexivity.
  - exact sample_variants_wf.
  - exact sample_db_wf.
  - exact sample_db_free_number.
  - exact sample_db_items_refer.
  - exists order, ois, db1, o', db2. split; [exact Hrun |].
    split; [exact Hcancel |]. rewrite Hstock. vm_compute. reflexivity.
Defined.

Lemma sample_ordered_stock_nonnegative :
  stock_nonnegative (variants sample_db_ordered).
Proof. exact sample_stock_nonnegative. Qed.

Lemma sample_ordered_quantities i x :
  order_items sample_db_ordered !! i = Some x -> 0 <= oi_quantity x.
Proof.
  intros Hx. cbn [order_items sample_db_ordered] in Hx.
  apply lookup_insert_Some in Hx as [[<- <-] | [_ Hx]]; [by vm_compute |].
  apply lookup_singleton_Some in Hx as [<- <-]. by vm_compute.
Qed.

Lemma lifecycle_keeps_store_invariants_witness :
  let run := cancel_order sample_env "o1" None "" sample_db_ordered in
  (exists o', run = (Ok o', run.2))
  /\ orders_wf run.2 /\ stock_nonnegative (variants run.2).
Proof.
  intros run.
  set (o' := match run.1 with Ok o => o | Raise _ => sample_order end).
  assert (H : run = (Ok o', run.2)) by (vm_compute; reflexivity).
  split; [by exists o' |].
  destruct (lifecycle_keeps_store_invariants sample_env sample_db_ordered run.2
              o' sample_db_ordered_wf sample_variants_wf
              sample_ordered_stock_nonnegative sample_ordered_quantities)
    as (Hwf & _ & Hnn & _).
  - left. by exists "o1", None, "".
  - by split.
Defined.
